(** * LTE Drive Test Analyzer

    A shallow embedding of the report script [app.py] (the tabs that call the
    analysis pipelines and the root-cause summary built from their results)
    together with a model of the analysis engine [modules/analyzer.py] that the
    script imports.

    Conventions.
    - Python floats and ints that hold measurements, percentages and rates are
      rationals ([Q]); every finite float is a rational, and the script only
      compares them with integer constants and prints them in fixed-point
      notation, both of which are exact on the rational value.  Counts are
      integers ([Z]).  NaN and the infinities are not represented.
    - A Python dict with a fixed set of keys is a record whose fields carry the
      keys' names; each result record lives in a module of its own because
      several dicts share key names.
    - A call either returns a value or raises, and what it raises is either
      of a class under [Exception], which an [except Exception] clause
      catches, or one of the exits [KeyboardInterrupt], [SystemExit] and
      [GeneratorExit], which such a clause lets through.  Whatever leaves a
      tab ends the report at that point. *)

From Stdlib Require Import ZArith QArith Qabs Qround Bool String Ascii List Lia DecimalString.
Import ListNotations.

Local Open Scope Z_scope.
Local Open Scope Q_scope.

(** ** Python primitives used by the script *)

Module Py.

(** [x < y] and [x > y] on numbers.  On the numbers represented here a test
    that fails gives the opposite order; a float NaN, which is not
    represented, fails every test, so the statements about a test that
    fails are phrased with the negated test, not with the opposite order. *)
Definition lt (x y : Q) : bool := negb (Qle_bool y x).
Definition gt (x y : Q) : bool := lt y x.
Definition ge (x y : Q) : bool := Qle_bool y x.

(** What a call can raise: [Error] stands for the classes under
    [Exception], [Exit] for [KeyboardInterrupt], [SystemExit] and
    [GeneratorExit], the classes of [BaseException] outside it. *)
Inductive raised : Type := Error | Exit.

(** How a call or a block ends: with a value, or raising. *)
Inductive outcome (A : Type) : Type :=
| Returned (a : A)
| Raised (e : raised).

Arguments Returned {A} a.
Arguments Raised {A} e.

(** The value of a call that returned. *)
Definition value {A} (o : outcome A) : option A :=
  match o with
  | Returned a => Some a
  | Raised _ => None
  end.

(** [s in l] for a list of strings. *)
Definition contains (l : list string) (s : string) : bool :=
  existsb (String.eqb s) l.

(** [x / y]: true division raises [ZeroDivisionError] on a zero divisor. *)
Definition truediv (x y : Q) : option Q :=
  if Qeq_bool y 0 then None else Some (x / y).

(** Nearest integer, ties to the even neighbour. *)
Definition round_half_even (x : Q) : Z :=
  let n := Qnum x in
  let d := Z.pos (Qden x) in
  let fl := (n / d)%Z in
  let r := (n mod d)%Z in
  match (2 * r ?= d)%Z with
  | Lt => fl
  | Gt => (fl + 1)%Z
  | Eq => if Z.even fl then fl else (fl + 1)%Z
  end.

(** [str(n)] for an int. *)
Definition str_int (n : Z) : string := NilZero.string_of_int (Z.to_int n).

Fixpoint zeros (n : nat) : string :=
  match n with
  | O => EmptyString
  | S k => String "0"%char (zeros k)
  end.

Definition zfill (width : nat) (s : string) : string :=
  (zeros (width - String.length s) ++ s)%string.

(** [f"{x:.<prec>f}"]: fixed-point notation with [prec] digits after the
    point, correctly rounded, ties to even. *)
Definition format_fixed (prec : nat) (x : Q) : string :=
  let scale := (10 ^ Z.of_nat prec)%Z in
  let scaled := round_half_even (Qabs x * inject_Z scale) in
  let sign := if lt x 0 then "-"%string else EmptyString in
  let whole := str_int (scaled / scale) in
  let frac := zfill prec (str_int (scaled mod scale)) in
  match prec with
  | O => (sign ++ whole)%string
  | S _ => (sign ++ whole ++ "." ++ frac)%string
  end.

End Py.

(** ** Data model *)

(** One row of the drive-test table. A missing cell is [None]. *)
Record Sample := {
  timestamp : Z;
  latitude : option Q;
  longitude : option Q;
  RSRP : option Q;
  RSRQ : option Q;
  SINR : option Q;
  serving_cell_id : option Z;
  throughput_dl : option Q;
  throughput_ul : option Q;
  call_state : option string;
  rrc_state : option string;
  event_marker : option string
}.

(** The table the ingestion step hands to every pipeline ([df]). *)
Definition DataFrame := list Sample.

(** A geographic cluster of flagged samples. *)
Record ProblemArea := {
  centroid_lat : Q;
  centroid_lon : Q;
  problem_type : string;
  sample_count : Z;
  avg_rsrp : Q;
  avg_rsrq : Q;
  avg_sinr : Q;
  cell_id : option Z;
  severity : string;
  description : string
}.

(** The result dicts, with the keys the script reads. *)

Module Rf.
Record results := {
  coverage_issues_pct : Q;
  interference_issues_pct : Q;
  good_rf_pct : Q
}.
End Rf.

Module Coverage.
Record results := {
  coverage_issues_pct : Q;
  critical_areas : Z;
  problem_areas : list ProblemArea
}.
End Coverage.

Module Interference.
Record results := {
  interference_issues_pct : Q;
  high_interference_areas : Z;
  problem_areas : list ProblemArea
}.
End Interference.

Module Handover.
Record results := {
  total_handovers : Z;
  successful_handovers : Z;
  failed_handovers : Z;
  handover_success_rate : Q;
  failure_causes : list (string * Z)
}.
End Handover.

Module Throughput.
Record results := {
  avg_dl_throughput : Q;
  avg_ul_throughput : Q;
  peak_dl_throughput : Q;
  peak_ul_throughput : Q;
  dl_bottleneck_areas : Z;
  ul_bottleneck_areas : Z;
  bottleneck_causes : list (string * Z)
}.
End Throughput.

Module CallDrop.
Record results := {
  total_calls : Z;
  completed_calls : Z;
  dropped_calls : Z;
  call_drop_rate : Q;
  drop_causes : list (string * Z)
}.
End CallDrop.

Module Qos.
Record results := {
  volte_mos_issues_pct : Q;
  qci_issues_pct : Q
}.
End Qos.

Module Overloading.
Record cell_load := {
  cell : Z;
  samples : Z;
  avg_throughput : Q
}.
Record results := {
  overloaded_cells : list cell_load
}.
End Overloading.

Module Mismatch.
Record instance := {
  at_timestamp : Z;
  parameter : string;
  expected : Q;
  observed : Q;
  delta : Q
}.
Record results := {
  mismatches : list instance
}.
End Mismatch.

Module IdleConnected.
Record results := {
  failed_transitions : Z;
  unresolved_transitions : Z;
  failure_categories : list (string * Z)
}.
End IdleConnected.

(** One row of the root-cause table (a dict with these four keys). *)
Record finding := {
  Issue : string;
  Severity : string;
  Description : string;
  Recommendation : string
}.

(** ** The report script, [app.py] *)

Module App.

(** *** The imported analysis module

    [from modules.analyzer import ...]: the ten pipelines.  Each receives
    the table by reference, so a call yields its result, or what it
    raises, and in both cases the table as the call leaves it. *)
Definition returns (R : Type) : Type := (Py.outcome R * DataFrame)%type.

Record Analyzer := {
  analyze_coverage_problems : DataFrame -> Z -> Z -> returns Coverage.results;
  analyze_interference : DataFrame -> Z -> returns Interference.results;
  analyze_handover_failures : DataFrame -> returns Handover.results;
  analyze_throughput_bottlenecks : DataFrame -> returns Throughput.results;
  analyze_call_drops : DataFrame -> returns CallDrop.results;
  analyze_cell_overloading : DataFrame -> returns Overloading.results;
  analyze_parameter_mismatches : DataFrame -> returns Mismatch.results;
  analyze_qos_issues : DataFrame -> returns Qos.results;
  analyze_rf_metrics : DataFrame -> Z -> Z -> Z -> returns Rf.results;
  analyze_idle_connected_mode_failures : DataFrame -> returns IdleConnected.results
}.

(** *** Script variables

    The module-level names the analysis tabs bind.  A result variable is
    [None] until the tab that assigns it has run. *)
Record Globals := {
  df : DataFrame;
  rf_results : option Rf.results;
  coverage_results : option Coverage.results;
  interference_results : option Interference.results;
  handover_results : option Handover.results;
  throughput_results : option Throughput.results;
  call_drop_results : option CallDrop.results;
  qos_results : option Qos.results;
  overloading_results : option Overloading.results;
  root_causes : list finding
}.

(** The variables right after [df = process_tems_data(uploaded_file)]. *)
Definition loaded (t : DataFrame) : Globals :=
  {| df := t; rf_results := None; coverage_results := None;
     interference_results := None; handover_results := None;
     throughput_results := None; call_drop_results := None;
     qos_results := None; overloading_results := None; root_causes := [] |}.

Definition set_df (t : DataFrame) (g : Globals) : Globals :=
  {| df := t; rf_results := rf_results g; coverage_results := coverage_results g;
     interference_results := interference_results g;
     handover_results := handover_results g;
     throughput_results := throughput_results g;
     call_drop_results := call_drop_results g; qos_results := qos_results g;
     overloading_results := overloading_results g; root_causes := root_causes g |}.

Definition set_rf_results (r : Rf.results) (g : Globals) : Globals :=
  {| df := df g; rf_results := Some r; coverage_results := coverage_results g;
     interference_results := interference_results g;
     handover_results := handover_results g;
     throughput_results := throughput_results g;
     call_drop_results := call_drop_results g; qos_results := qos_results g;
     overloading_results := overloading_results g; root_causes := root_causes g |}.

Definition set_coverage_results (r : Coverage.results) (g : Globals) : Globals :=
  {| df := df g; rf_results := rf_results g; coverage_results := Some r;
     interference_results := interference_results g;
     handover_results := handover_results g;
     throughput_results := throughput_results g;
     call_drop_results := call_drop_results g; qos_results := qos_results g;
     overloading_results := overloading_results g; root_causes := root_causes g |}.

Definition set_interference_results (r : Interference.results) (g : Globals) : Globals :=
  {| df := df g; rf_results := rf_results g; coverage_results := coverage_results g;
     interference_results := Some r;
     handover_results := handover_results g;
     throughput_results := throughput_results g;
     call_drop_results := call_drop_results g; qos_results := qos_results g;
     overloading_results := overloading_results g; root_causes := root_causes g |}.

Definition set_handover_results (r : Handover.results) (g : Globals) : Globals :=
  {| df := df g; rf_results := rf_results g; coverage_results := coverage_results g;
     interference_results := interference_results g;
     handover_results := Some r;
     throughput_results := throughput_results g;
     call_drop_results := call_drop_results g; qos_results := qos_results g;
     overloading_results := overloading_results g; root_causes := root_causes g |}.

Definition set_throughput_results (r : Throughput.results) (g : Globals) : Globals :=
  {| df := df g; rf_results := rf_results g; coverage_results := coverage_results g;
     interference_results := interference_results g;
     handover_results := handover_results g;
     throughput_results := Some r;
     call_drop_results := call_drop_results g; qos_results := qos_results g;
     overloading_results := overloading_results g; root_causes := root_causes g |}.

Definition set_call_drop_results (r : CallDrop.results) (g : Globals) : Globals :=
  {| df := df g; rf_results := rf_results g; coverage_results := coverage_results g;
     interference_results := interference_results g;
     handover_results := handover_results g;
     throughput_results := throughput_results g;
     call_drop_results := Some r; qos_results := qos_results g;
     overloading_results := overloading_results g; root_causes := root_causes g |}.

Definition set_qos_results (r : Qos.results) (g : Globals) : Globals :=
  {| df := df g; rf_results := rf_results g; coverage_results := coverage_results g;
     interference_results := interference_results g;
     handover_results := handover_results g;
     throughput_results := throughput_results g;
     call_drop_results := call_drop_results g; qos_results := Some r;
     overloading_results := overloading_results g; root_causes := root_causes g |}.

Definition set_overloading_results (r : Overloading.results) (g : Globals) : Globals :=
  {| df := df g; rf_results := rf_results g; coverage_results := coverage_results g;
     interference_results := interference_results g;
     handover_results := handover_results g;
     throughput_results := throughput_results g;
     call_drop_results := call_drop_results g; qos_results := qos_results g;
     overloading_results := Some r; root_causes := root_causes g |}.

Definition set_root_causes (l : list finding) (g : Globals) : Globals :=
  {| df := df g; rf_results := rf_results g; coverage_results := coverage_results g;
     interference_results := interference_results g;
     handover_results := handover_results g;
     throughput_results := throughput_results g;
     call_drop_results := call_drop_results g; qos_results := qos_results g;
     overloading_results := overloading_results g; root_causes := l |}.

(** *** Statements

    A block of the script runs on the variables and either completes with a
    value or raises; the variables bound up to that point stay bound. *)
Definition script (A : Type) : Type := Globals -> Py.outcome A * Globals.

Definition ret {A} (a : A) : script A := fun g => (Py.Returned a, g).

Definition bind {A B} (c : script A) (k : A -> script B) : script B :=
  fun g => match c g with
           | (Py.Returned a, g') => k a g'
           | (Py.Raised e, g') => (Py.Raised e, g')
           end.

Declare Scope script_scope.
Delimit Scope script_scope with script.
Notation "x <- c ;; k" := (bind c (fun x => k))
  (at level 61, c at next level, right associativity) : script_scope.
Notation "c ;; k" := (bind c (fun _ => k))
  (at level 61, right associativity) : script_scope.
Local Open Scope script_scope.

Definition skip : script unit := ret tt.

(** [if cond: body] *)
Definition when (cond : bool) (body : script unit) : script unit :=
  if cond then body else skip.

(** [analyze_x(df, ...)]: the pipeline runs on the table the variable [df]
    refers to and may leave it changed. *)
Definition invoke {R} (f : DataFrame -> returns R) : script R :=
  fun g => let (r, t) := f (df g) in (r, set_df t g).

(** [x = value] for a script variable [x]. *)
Definition assign (set : Globals -> Globals) : script unit :=
  fun g => (Py.Returned tt, set g).

(** [root_causes.append(row)] *)
Definition root_causes_append (row : finding) : script unit :=
  fun g => (Py.Returned tt, set_root_causes (root_causes g ++ [row]) g).

(** [try: body except Exception as e: st.error(...)]: the handler catches
    what derives from [Exception] and goes on after the statement; an exit
    passes through it. *)
Definition try_except (body : script unit) : script unit :=
  fun g => match body g with
           | (Py.Returned _, g') => (Py.Returned tt, g')
           | (Py.Raised Py.Error, g') => (Py.Returned tt, g')
           | (Py.Raised Py.Exit, g') => (Py.Raised Py.Exit, g')
           end.

(** *** The analysis tabs

    The [st.*] output calls and the calls into [modules.visualizer] and
    [modules.database] produce nothing the analysis reads and are left
    out; what remains of each tab is its calls into the analysis module and
    the variables it binds. *)

Section Report.

Variable M : Analyzer.
Variable analysis_types : list string.
Variables rsrp_threshold rsrq_threshold sinr_threshold : Z.

Let selected (name : string) : bool := Py.contains analysis_types name.

(** [with tabs[1]:] RF Analysis *)
Definition rf_tab : script unit :=
  when (selected "RF Metrics (RSRP, RSRQ, SINR)")
    (r <- invoke (fun df =>
            analyze_rf_metrics M df rsrp_threshold rsrq_threshold sinr_threshold) ;;
     assign (set_rf_results r)) ;;
  when (selected "Coverage Problems")
    (r <- invoke (fun df =>
            analyze_coverage_problems M df rsrp_threshold rsrq_threshold) ;;
     assign (set_coverage_results r)) ;;
  when (selected "Interference")
    (r <- invoke (fun df => analyze_interference M df sinr_threshold) ;;
     assign (set_interference_results r)).

(** [with tabs[2]:] Handover Analysis *)
Definition handover_tab : script unit :=
  when (selected "Handover Failures")
    (r <- invoke (analyze_handover_failures M) ;;
     assign (set_handover_results r)).

(** [with tabs[3]:] Throughput Analysis *)
Definition throughput_tab : script unit :=
  when (selected "Throughput Bottlenecks")
    (r <- invoke (analyze_throughput_bottlenecks M) ;;
     assign (set_throughput_results r)).

(** [with tabs[4]:] Call Quality *)
Definition call_quality_tab : script unit :=
  let call_analysis_types :=
    filter (Py.contains ["Call Drops"; "QoS Issues"; "Cell Overloading"]%string)
           analysis_types in
  when (0 <? Z.of_nat (length call_analysis_types))%Z
    (when (selected "Call Drops")
       (r <- invoke (analyze_call_drops M) ;;
        assign (set_call_drop_results r)) ;;
     when (selected "QoS Issues")
       (r <- invoke (analyze_qos_issues M) ;;
        assign (set_qos_results r)) ;;
     when (selected "Cell Overloading")
       (r <- invoke (analyze_cell_overloading M) ;;
        assign (set_overloading_results r))).

(** The rows of the root-cause table. *)
Definition coverage_row (r : Coverage.results) : finding :=
  {| Issue := "Coverage Problems";
     Severity := if Py.gt (Coverage.coverage_issues_pct r) 25
                 then "High" else "Medium";
     Description := "Poor signal coverage affecting "
                    ++ Py.format_fixed 1 (Coverage.coverage_issues_pct r)
                    ++ "% of the drive test area";
     Recommendation := "Review cell site placement and antenna configurations. Consider adding new sites in critical areas." |}%string.

Definition interference_row (r : Interference.results) : finding :=
  {| Issue := "Interference Issues";
     Severity := if Py.gt (Interference.interference_issues_pct r) 25
                 then "High" else "Medium";
     Description := "High interference affecting "
                    ++ Py.format_fixed 1 (Interference.interference_issues_pct r)
                    ++ "% of the drive test area";
     Recommendation := "Review PCI planning, adjust antenna tilts, and optimize frequency planning to reduce interference." |}%string.

Definition handover_row (r : Handover.results) : finding :=
  {| Issue := "Handover Failures";
     Severity := if Py.lt (Handover.handover_success_rate r) 90
                 then "High" else "Medium";
     Description := "Handover failures with success rate of "
                    ++ Py.format_fixed 2 (Handover.handover_success_rate r)
                    ++ "%";
     Recommendation := "Review neighbor cell lists, optimize handover parameters, and check for missing neighbors." |}%string.

Definition throughput_row (r : Throughput.results) : finding :=
  {| Issue := "Throughput Bottlenecks";
     Severity := "Medium";
     Description := "Low throughput areas identified: "
                    ++ Py.str_int (Throughput.dl_bottleneck_areas r)
                    ++ " DL and "
                    ++ Py.str_int (Throughput.ul_bottleneck_areas r)
                    ++ " UL locations";
     Recommendation := "Check resource allocation, scheduling algorithms, and consider capacity expansions in affected cells." |}%string.

Definition call_drop_row (r : CallDrop.results) : finding :=
  {| Issue := "Call Drops";
     Severity := if Py.gt (CallDrop.call_drop_rate r) 5
                 then "High" else "Medium";
     Description := "Call drop rate of "
                    ++ Py.format_fixed 2 (CallDrop.call_drop_rate r)
                    ++ "%";
     Recommendation := "Review RRC configuration, mobility parameters, and cell coverage overlaps to reduce drops." |}%string.

(** [with tabs[5]:] Summary Report, the root cause summary: one [if]
    block per analysis type, in this order. *)
Definition summary_coverage : script unit :=
  when (selected "Coverage Problems")
    (r <- invoke (fun df =>
            analyze_coverage_problems M df rsrp_threshold rsrq_threshold) ;;
     assign (set_coverage_results r) ;;
     when (Py.gt (Coverage.coverage_issues_pct r) 10)
       (root_causes_append (coverage_row r))).

Definition summary_interference : script unit :=
  when (selected "Interference")
    (r <- invoke (fun df => analyze_interference M df sinr_threshold) ;;
     assign (set_interference_results r) ;;
     when (Py.gt (Interference.interference_issues_pct r) 10)
       (root_causes_append (interference_row r))).

Definition summary_handover : script unit :=
  when (selected "Handover Failures")
    (r <- invoke (analyze_handover_failures M) ;;
     assign (set_handover_results r) ;;
     when (Py.lt (Handover.handover_success_rate r) 95)
       (root_causes_append (handover_row r))).

Definition summary_throughput : script unit :=
  when (selected "Throughput Bottlenecks")
    (r <- invoke (analyze_throughput_bottlenecks M) ;;
     assign (set_throughput_results r) ;;
     when ((5 <? Throughput.dl_bottleneck_areas r)%Z
           || (5 <? Throughput.ul_bottleneck_areas r)%Z)
       (root_causes_append (throughput_row r))).

Definition summary_call_drops : script unit :=
  when (selected "Call Drops")
    (r <- invoke (analyze_call_drops M) ;;
     assign (set_call_drop_results r) ;;
     when (Py.gt (CallDrop.call_drop_rate r) 2)
       (root_causes_append (call_drop_row r))).

Definition summary_tab : script unit :=
  assign (set_root_causes []) ;;
  summary_coverage ;;
  summary_interference ;;
  summary_handover ;;
  summary_throughput ;;
  summary_call_drops.

(** [with tabs[6]:] Database, the save block under its own [try].
    [save_clicked] is [database_available and st.button(...)]; the block's
    calls into [modules.database] are taken to return. *)
Definition database_tab (save_clicked : bool) : script unit :=
  when save_clicked
    (try_except
       (when (selected "RF Metrics (RSRP, RSRQ, SINR)")
          (r <- invoke (fun df =>
                  analyze_rf_metrics M df rsrp_threshold rsrq_threshold sinr_threshold) ;;
           assign (set_rf_results r)) ;;
        when (selected "Coverage Problems")
          (r <- invoke (fun df =>
                  analyze_coverage_problems M df rsrp_threshold rsrq_threshold) ;;
           assign (set_coverage_results r)))).

(** One run of the script on an uploaded file, from the RF tab on. *)
Definition report (save_clicked : bool) : script unit :=
  rf_tab ;; handover_tab ;; throughput_tab ;; call_quality_tab ;;
  summary_tab ;; database_tab save_clicked.

End Report.

(** The rows of an issue type in a root-cause table. *)
Definition rows_of (issue : string) (table : list finding) : list finding :=
  filter (fun row => String.eqb (Issue row) issue) table.

End App.

(** ** The analysis engine, [modules/analyzer.py]

    The script imports its ten pipelines from this module.  It is described
    by the design document of the engine; the definitions below follow that
    description section by section, with a pipeline as a function from the
    table to its result, or [None] where it would raise. *)

Module Analyzer.

Declare Scope exc_scope.
Delimit Scope exc_scope with exc.
Notation "x <- c ;; k" :=
  (match c with Some x => k | None => None end)
  (at level 61, c at next level, right associativity) : exc_scope.
Local Open Scope exc_scope.

(** *** Events (data model) *)

(** Modelled from the spec: the kinds of reconstructed events; the engine
    module itself is absent. *)
Inductive event_kind := HandoverAttempt | CallSession | RrcTransition.

(** Modelled from the spec: how a reconstructed event ended. *)
Inductive outcome := Success | Failure | Unknown.

(** Modelled from the spec: a reconstructed occurrence, with a nullable end
    and cause. *)
Record Event := {
  kind : event_kind;
  start_ts : Z;
  end_ts : option Z;
  result : outcome;
  cause : option string;
  source_cell : option Z;
  target_cell : option Z
}.

(** Modelled from the spec: what a log token or field change means to a
    reconstructor, a start of the event with the given key or its
    resolution. *)
Inductive marker :=
| Start (key : Z) (source target : option Z)
| Resolve (key : Z) (how : outcome) (why : option string).

(** Modelled from the spec: the tuned constants, the marker vocabulary and
    the heuristic rule tables of the engine, which the design leaves to
    the implementation (its open question on constants). *)
Record Tuning := {
  (* the coverage threshold the interference pipeline compares RSRP with *)
  interference_rsrp_floor : Z;
  (* proximity: the grid cell a position falls in *)
  grid_cell : Q -> Q -> Z * Z;
  (* fewest samples a cluster needs to be emitted *)
  min_cluster_size : nat;
  (* severity and description of a cluster from its type, size and means *)
  area_severity : string -> Z -> Q -> Q -> Q -> string;
  area_description : string -> Z -> Q -> Q -> Q -> string;
  (* the markers a sample carries, given the samples before it, latest first *)
  signals : event_kind -> list Sample -> Sample -> list marker;
  (* the low-throughput floor for the observed throughputs *)
  throughput_floor : list Q -> Q;
  (* cause attributed to a bottleneck sample *)
  bottleneck_cause : Sample -> string;
  (* a cell is dense above this many samples *)
  density_threshold : Z;
  (* how far below the network average an overloaded cell's throughput is *)
  overload_margin : Q;
  (* voice-quality score below the floor; [None] when the sample has none *)
  voice_quality_poor : Sample -> option bool;
  (* QoS class indicator in the degraded set; [None] when absent *)
  qci_degraded : Sample -> option bool;
  (* the parameter mismatches observed at a sample *)
  parameter_mismatches : Sample -> list Mismatch.instance
}.

(** *** Shared arithmetic *)

(** Modelled from the spec: the members of a sequence that satisfy a test,
    counted. *)
Definition count {A} (p : A -> bool) (l : list A) : nat := length (filter p l).

(** Modelled from the spec: the values of a field over the samples that
    have it (missing cells are left out). *)
Definition present {A} (field : Sample -> option A) (l : list Sample) : list A :=
  flat_map (fun s => match field s with Some x => [x] | None => [] end) l.

(** Modelled from the spec: a count as a number. *)
Definition of_nat (n : nat) : Q := inject_Z (Z.of_nat n).

(** Modelled from the spec: a KPI percentage [part / whole * 100], reported
    as the sentinel 0 when the population is empty so that nothing is
    divided by zero (error handling design, empty input). *)
Definition percentage (part whole : nat) : option Q :=
  if (whole =? 0)%nat then Some 0
  else ratio <- Py.truediv (of_nat part) (of_nat whole) ;; Some (ratio * 100).

(** Modelled from the spec: the sum of the values. *)
Definition total (l : list Q) : Q := fold_right Qplus 0 l.

(** Modelled from the spec: arithmetic mean over the non-missing values,
    with the same sentinel on an empty population. *)
Definition mean (l : list Q) : option Q :=
  if (length l =? 0)%nat then Some 0
  else Py.truediv (total l) (of_nat (length l)).

(** Modelled from the spec: peak value; 0 when there is none. *)
Definition peak (l : list Q) : Q :=
  fold_right (fun x m => if Py.gt x m then x else m) 0 l.

(** Modelled from the spec: one more occurrence of a label. *)
Fixpoint bump (label : string) (table : list (string * Z)) : list (string * Z) :=
  match table with
  | [] => [(label, 1%Z)]
  | (l, n) :: rest =>
      if String.eqb l label then (l, (n + 1)%Z) :: rest
      else (l, n) :: bump label rest
  end.

(** Modelled from the spec: the mapping from cause label to occurrence
    count. *)
Definition tally (labels : list string) : list (string * Z) :=
  fold_left (fun table label => bump label table) labels [].

(** *** Metric classifiers (section 4.1) *)

(** Modelled from the spec: [value < threshold]; a missing value is not
    below any threshold. *)
Definition below (value : option Q) (threshold : Z) : bool :=
  match value with
  | Some x => Py.lt x (inject_Z threshold)
  | None => false
  end.

(** Modelled from the spec: [value >= threshold], false on a missing
    value. *)
Definition at_or_above (value : option Q) (threshold : Z) : bool :=
  match value with
  | Some x => Py.ge x (inject_Z threshold)
  | None => false
  end.

(** Modelled from the spec: a sample is a coverage issue if
    [RSRP < rsrp_threshold] or [RSRQ < rsrq_threshold]. *)
Definition is_coverage_issue (rsrp_threshold rsrq_threshold : Z) (s : Sample) : bool :=
  below (RSRP s) rsrp_threshold || below (RSRQ s) rsrq_threshold.

(** Modelled from the spec: a sample is an interference issue if
    [SINR < sinr_threshold] and RSRP is at or above the coverage
    threshold. *)
Definition is_interference_issue (rsrp_threshold sinr_threshold : Z) (s : Sample) : bool :=
  below (SINR s) sinr_threshold && at_or_above (RSRP s) rsrp_threshold.

(** Modelled from the spec: the third category, a sample that is neither a
    coverage nor an interference issue. *)
Definition is_good_rf (rsrp_threshold rsrq_threshold sinr_threshold : Z) (s : Sample) : bool :=
  negb (is_coverage_issue rsrp_threshold rsrq_threshold s)
  && negb (is_interference_issue rsrp_threshold sinr_threshold s).

(** Modelled from the spec: the cell is not missing. *)
Definition has {A} (value : option A) : bool :=
  match value with Some _ => true | None => false end.

(** Modelled from the spec: the non-missing sample population of the RF
    classifier, the samples that carry all three measurements. *)
Definition rf_population (df : DataFrame) : list Sample :=
  filter (fun s => has (RSRP s) && has (RSRQ s) && has (SINR s)) df.

(** Modelled from the spec: the RF metrics pipeline, three percentages over
    the non-missing sample population. *)
Definition analyze_rf_metrics (df : DataFrame)
    (rsrp_threshold rsrq_threshold sinr_threshold : Z) : option Rf.results :=
  let population := rf_population df in
  let n := length population in
  coverage <- percentage
                (count (is_coverage_issue rsrp_threshold rsrq_threshold) population) n ;;
  interference <- percentage
                (count (is_interference_issue rsrp_threshold sinr_threshold) population) n ;;
  good <- percentage
                (count (is_good_rf rsrp_threshold rsrq_threshold sinr_threshold) population) n ;;
  Some {| Rf.coverage_issues_pct := coverage;
          Rf.interference_issues_pct := interference;
          Rf.good_rf_pct := good |}.

Section Engine.

Variable T : Tuning.

(** *** Spatial clusterer (section 4.4) *)

(** Modelled from the spec: a sample's position; a sample without
    latitude or longitude takes no part in spatial clustering. *)
Definition position (s : Sample) : option (Q * Q) :=
  match latitude s, longitude s with
  | Some lat, Some lon => Some (lat, lon)
  | _, _ => None
  end.

(** Modelled from the spec: equality of grid cells. *)
Definition same_cell (a b : Z * Z) : bool :=
  (fst a =? fst b)%Z && (snd a =? snd b)%Z.

(** Modelled from the spec: a sample joins the cluster of its grid cell,
    or opens that cluster. *)
Fixpoint join (key : Z * Z) (s : Sample) (clusters : list (Z * Z * list Sample))
  : list (Z * Z * list Sample) :=
  match clusters with
  | [] => [(key, [s])]
  | (k, members) :: rest =>
      if same_cell k key then (k, members ++ [s]) :: rest
      else (k, members) :: join key s rest
  end.

(** Modelled from the spec: grid-based agglomeration of the flagged
    samples that have a position. *)
Definition agglomerate (flagged : list Sample) : list (Z * Z * list Sample) :=
  fold_left
    (fun clusters s =>
       match position s with
       | Some (lat, lon) => join (grid_cell T lat lon) s clusters
       | None => clusters
       end)
    flagged [].

(** Modelled from the spec: how often a cell id occurs. *)
Definition occurrences (c : Z) (l : list Z) : nat := count (Z.eqb c) l.

(** Modelled from the spec: the statistical mode of the members' serving
    cell, the earliest one on a tie. *)
Definition mode (l : list Z) : option Z :=
  fold_right
    (fun c best =>
       match best with
       | Some b => if (occurrences b l <=? occurrences c l)%nat then Some c else Some b
       | None => Some c
       end)
    None l.

(** Modelled from the spec: the problem area of one cluster; its metrics
    are the arithmetic means of its members' values. *)
Definition summarize (problem : string) (members : list Sample) : option ProblemArea :=
  lat <- mean (present latitude members) ;;
  lon <- mean (present longitude members) ;;
  rsrp <- mean (present RSRP members) ;;
  rsrq <- mean (present RSRQ members) ;;
  sinr <- mean (present SINR members) ;;
  let n := Z.of_nat (length members) in
  Some {| centroid_lat := lat;
          centroid_lon := lon;
          problem_type := problem;
          sample_count := n;
          avg_rsrp := rsrp;
          avg_rsrq := rsrq;
          avg_sinr := sinr;
          cell_id := mode (present serving_cell_id members);
          severity := area_severity T problem n rsrp rsrq sinr;
          description := area_description T problem n rsrp rsrq sinr |}.

(** Modelled from the spec: a sequence of fallible steps raises as soon
    as one of them does. *)
Fixpoint for_each {A B} (f : A -> option B) (l : list A) : option (list B) :=
  match l with
  | [] => Some []
  | a :: rest =>
      b <- f a ;;
      bs <- for_each f rest ;;
      Some (b :: bs)
  end.

(** Modelled from the spec: the clusterer; a cluster is emitted only once
    it has the minimum sample count. *)
Definition cluster (problem : string) (flagged : list Sample) : option (list ProblemArea) :=
  for_each (summarize problem)
    (filter (fun members => (min_cluster_size T <=? length members)%nat)
            (map snd (agglomerate flagged))).

(** Modelled from the spec: the number of areas of critical severity,
    which feeds the root-cause summary. *)
Definition critical (areas : list ProblemArea) : Z :=
  Z.of_nat (count (fun a => String.eqb (severity a) "Critical") areas).

(** *** Coverage and interference pipelines *)

(** Modelled from the spec: the coverage pipeline; samples missing RSRP or
    RSRQ are left out of the denominator. *)
Definition analyze_coverage_problems (df : DataFrame)
    (rsrp_threshold rsrq_threshold : Z) : option Coverage.results :=
  let population := filter (fun s => has (RSRP s) && has (RSRQ s)) df in
  let flagged := filter (is_coverage_issue rsrp_threshold rsrq_threshold) population in
  pct <- percentage (length flagged) (length population) ;;
  areas <- cluster "Coverage" flagged ;;
  Some {| Coverage.coverage_issues_pct := pct;
          Coverage.critical_areas := critical areas;
          Coverage.problem_areas := areas |}.

(** Modelled from the spec: the interference pipeline; samples missing
    SINR or RSRP are left out of the denominator. *)
Definition analyze_interference (df : DataFrame) (sinr_threshold : Z)
  : option Interference.results :=
  let population := filter (fun s => has (SINR s) && has (RSRP s)) df in
  let flagged :=
    filter (is_interference_issue (interference_rsrp_floor T) sinr_threshold)
           population in
  pct <- percentage (length flagged) (length population) ;;
  areas <- cluster "Interference" flagged ;;
  Some {| Interference.interference_issues_pct := pct;
          Interference.high_interference_areas := critical areas;
          Interference.problem_areas := areas |}.

(** *** Event reconstructors (section 4.2) *)

(** Modelled from the spec: what a single-pass scan carries along, the
    events still open by key, the events closed so far and the number of
    orphaned close markers. *)
Record scan := {
  opened : list (Z * Event);
  closed : list Event;
  orphans : Z
}.

(** Modelled from the spec: the open event of a key, if any. *)
Fixpoint lookup (key : Z) (events : list (Z * Event)) : option Event :=
  match events with
  | [] => None
  | (k, e) :: rest => if (k =? key)%Z then Some e else lookup key rest
  end.

(** Modelled from the spec: the open events without those of a key. *)
Definition without (key : Z) (events : list (Z * Event)) : list (Z * Event) :=
  filter (fun entry => negb (fst entry =? key)%Z) events.

(** Modelled from the spec: one marker at time [ts].  A start marker is
    ignored while an event of its key is open; a resolution closes the
    open event of its key and is an orphan when there is none. *)
Definition react (k : event_kind) (ts : Z) (st : scan) (m : marker) : scan :=
  match m with
  | Start key source target =>
      match lookup key (opened st) with
      | Some _ => st
      | None =>
          {| opened := opened st
                       ++ [(key, {| kind := k; start_ts := ts; end_ts := None;
                                    result := Unknown; cause := None;
                                    source_cell := source;
                                    target_cell := target |})];
             closed := closed st;
             orphans := orphans st |}
      end
  | Resolve key how why =>
      match lookup key (opened st) with
      | Some e =>
          {| opened := without key (opened st);
             closed := closed st
                       ++ [{| kind := kind e; start_ts := start_ts e;
                              end_ts := Some ts; result := how; cause := why;
                              source_cell := source_cell e;
                              target_cell := target_cell e |}];
             orphans := orphans st |}
      | None =>
          {| opened := opened st; closed := closed st;
             orphans := (orphans st + 1)%Z |}
      end
  end.

(** Modelled from the spec: the scan over the time-ordered samples, each
    seen once. *)
Definition scan_samples (k : event_kind) (df : DataFrame) : scan :=
  snd (fold_left
         (fun (acc : list Sample * scan) (s : Sample) =>
            (s :: fst acc,
             fold_left (react k (timestamp s)) (signals T k (fst acc) s) (snd acc)))
         df
         ([], {| opened := []; closed := []; orphans := 0%Z |})).

(** Modelled from the spec: the events of a kind; those unterminated at
    the end of the stream are reported with outcome [Unknown]. *)
Definition reconstruct (k : event_kind) (df : DataFrame) : list Event :=
  let st := scan_samples k df in
  closed st ++ map snd (opened st).

(** Modelled from the spec: the test for an outcome. *)
Definition ended (how : outcome) (e : Event) : bool :=
  match result e, how with
  | Success, Success | Failure, Failure | Unknown, Unknown => true
  | _, _ => false
  end.

(** Modelled from the spec: the cause label of an event; an event with no
    classified cause goes under Other. *)
Definition cause_label (e : Event) : string :=
  match cause e with
  | Some c => c
  | None => "Other"
  end.

(** Modelled from the spec: [successful / (successful + failed) * 100],
    0 when there was no handover. *)
Definition handover_success_rate (successful failed : nat) : option Q :=
  percentage successful (successful + failed).

(** Modelled from the spec: the handover pipeline. *)
Definition analyze_handover_failures (df : DataFrame) : option Handover.results :=
  let events := reconstruct HandoverAttempt df in
  let successful := count (ended Success) events in
  let failed := count (ended Failure) events in
  rate <- handover_success_rate successful failed ;;
  Some {| Handover.total_handovers := Z.of_nat (successful + failed);
          Handover.successful_handovers := Z.of_nat successful;
          Handover.failed_handovers := Z.of_nat failed;
          Handover.handover_success_rate := rate;
          Handover.failure_causes :=
            tally (map cause_label (filter (ended Failure) events)) |}.

(** Modelled from the spec: the call-drop pipeline,
    [dropped = total - completed] and [call_drop_rate = dropped / total * 100]. *)
Definition analyze_call_drops (df : DataFrame) : option CallDrop.results :=
  let sessions := reconstruct CallSession df in
  let calls := length sessions in
  let completed := count (ended Success) sessions in
  let dropped := (calls - completed)%nat in
  rate <- percentage dropped calls ;;
  Some {| CallDrop.total_calls := Z.of_nat calls;
          CallDrop.completed_calls := Z.of_nat completed;
          CallDrop.dropped_calls := Z.of_nat dropped;
          CallDrop.call_drop_rate := rate;
          CallDrop.drop_causes :=
            tally (map cause_label (filter (ended Failure) sessions)) |}.

(** Modelled from the spec: the idle/connected pipeline, counts of failed
    and of unresolved RRC transitions and the failures per category. *)
Definition analyze_idle_connected_mode_failures (df : DataFrame)
  : option IdleConnected.results :=
  let transitions := reconstruct RrcTransition df in
  Some {| IdleConnected.failed_transitions :=
            Z.of_nat (count (ended Failure) transitions);
          IdleConnected.unresolved_transitions :=
            Z.of_nat (count (ended Unknown) transitions);
          IdleConnected.failure_categories :=
            tally (map cause_label (filter (ended Failure) transitions)) |}.

(** *** Aggregators (section 4.3) *)

(** Modelled from the spec: a sample is a bottleneck when its throughput
    is below the floor; a sample without a throughput is not flagged. *)
Definition bottleneck (field : Sample -> option Q) (floor : Q) (s : Sample) : bool :=
  match field s with
  | Some x => Py.lt x floor
  | None => false
  end.

(** Modelled from the spec: the throughput pipeline. *)
Definition analyze_throughput_bottlenecks (df : DataFrame) : option Throughput.results :=
  let dl := present throughput_dl df in
  let ul := present throughput_ul df in
  let dl_flagged := filter (bottleneck throughput_dl (throughput_floor T dl)) df in
  let ul_flagged := filter (bottleneck throughput_ul (throughput_floor T ul)) df in
  avg_dl <- mean dl ;;
  avg_ul <- mean ul ;;
  dl_areas <- cluster "DL Throughput" dl_flagged ;;
  ul_areas <- cluster "UL Throughput" ul_flagged ;;
  Some {| Throughput.avg_dl_throughput := avg_dl;
          Throughput.avg_ul_throughput := avg_ul;
          Throughput.peak_dl_throughput := peak dl;
          Throughput.peak_ul_throughput := peak ul;
          Throughput.dl_bottleneck_areas := Z.of_nat (length dl_areas);
          Throughput.ul_bottleneck_areas := Z.of_nat (length ul_areas);
          Throughput.bottleneck_causes :=
            tally (map (bottleneck_cause T) (dl_flagged ++ ul_flagged)) |}.

(** Modelled from the spec: a sample joins the group of its serving
    cell. *)
Fixpoint enrol (c : Z) (s : Sample) (groups : list (Z * list Sample))
  : list (Z * list Sample) :=
  match groups with
  | [] => [(c, [s])]
  | (k, members) :: rest =>
      if (k =? c)%Z then (k, members ++ [s]) :: rest
      else (k, members) :: enrol c s rest
  end.

(** Modelled from the spec: the samples grouped by serving cell. *)
Definition by_cell (df : DataFrame) : list (Z * list Sample) :=
  fold_left
    (fun groups s =>
       match serving_cell_id s with
       | Some c => enrol c s groups
       | None => groups
       end)
    df [].

(** Modelled from the spec: sample density and average throughput of one
    cell. *)
Definition load_of (group : Z * list Sample) : option Overloading.cell_load :=
  avg <- mean (present throughput_dl (snd group)) ;;
  Some {| Overloading.cell := fst group;
          Overloading.samples := Z.of_nat (length (snd group));
          Overloading.avg_throughput := avg |}.

(** Modelled from the spec: the cell-overloading pipeline; a cell is
    overloaded when its sample count exceeds the density threshold and
    its average throughput is below the network-wide average by the
    margin. *)
Definition analyze_cell_overloading (df : DataFrame) : option Overloading.results :=
  network <- mean (present throughput_dl df) ;;
  loads <- for_each load_of (by_cell df) ;;
  Some {| Overloading.overloaded_cells :=
            filter (fun l =>
                      (density_threshold T <? Overloading.samples l)%Z
                      && Py.lt (Overloading.avg_throughput l)
                               (network - overload_margin T))
                   loads |}.

(** Modelled from the spec: the share, in percent, of the samples a test
    applies to on which it holds; samples the test does not apply to are
    left out of the denominator. *)
Definition share (test : Sample -> option bool) (df : DataFrame) : option Q :=
  let applicable := present test df in
  percentage (count (fun b => b) applicable) (length applicable).

(** Modelled from the spec: the QoS pipeline. *)
Definition analyze_qos_issues (df : DataFrame) : option Qos.results :=
  mos <- share (voice_quality_poor T) df ;;
  qci <- share (qci_degraded T) df ;;
  Some {| Qos.volte_mos_issues_pct := mos; Qos.qci_issues_pct := qci |}.

(** Modelled from the spec: the parameter-mismatch pipeline, every
    mismatch instance in stream order. *)
Definition analyze_parameter_mismatches (df : DataFrame) : option Mismatch.results :=
  Some {| Mismatch.mismatches := flat_map (parameter_mismatches T) df |}.

(** *** The module as the script imports it *)

(** Modelled from the spec: a pipeline reads the table and leaves it as it
    found it (the table is read-only for the lifetime of a run); where it
    would raise, what it raises is an arithmetic error, a class under
    [Exception]. *)
Definition pure_call {R} (outcome_of : DataFrame -> option R) (df : DataFrame)
  : App.returns R :=
  (match outcome_of df with
   | Some r => Py.Returned r
   | None => Py.Raised Py.Error
   end, df).

(** Modelled from the spec: the analysis module with the ten pipelines
    above. *)
Definition engine : App.Analyzer :=
  {| App.analyze_coverage_problems := fun df rsrp rsrq =>
       pure_call (fun t => analyze_coverage_problems t rsrp rsrq) df;
     App.analyze_interference := fun df sinr =>
       pure_call (fun t => analyze_interference t sinr) df;
     App.analyze_handover_failures := pure_call analyze_handover_failures;
     App.analyze_throughput_bottlenecks := pure_call analyze_throughput_bottlenecks;
     App.analyze_call_drops := pure_call analyze_call_drops;
     App.analyze_cell_overloading := pure_call analyze_cell_overloading;
     App.analyze_parameter_mismatches := pure_call analyze_parameter_mismatches;
     App.analyze_qos_issues := pure_call analyze_qos_issues;
     App.analyze_rf_metrics := fun df rsrp rsrq sinr =>
       pure_call (fun t => analyze_rf_metrics t rsrp rsrq sinr) df;
     App.analyze_idle_connected_mode_failures :=
       pure_call analyze_idle_connected_mode_failures |}.

End Engine.

End Analyzer.

(** ** Sample runs *)

Module Canned.

(** The headline values of the five pipelines the summary reads. *)
Record answers := {
  coverage_pct : Q;
  interference_pct : Q;
  handover_rate : Q;
  dl_areas : Z;
  ul_areas : Z;
  drop_rate : Q
}.

Definition answer {R} (r : R) (df : DataFrame) : App.returns R :=
  (Py.Returned r, df).

(** An analysis module whose pipelines answer with the given headline
    values whatever the table holds, and leave the table alone. *)
Definition analyzer (a : answers) : App.Analyzer :=
  {| App.analyze_coverage_problems := fun df _ _ =>
       answer {| Coverage.coverage_issues_pct := coverage_pct a;
                 Coverage.critical_areas := 0%Z;
                 Coverage.problem_areas := [] |} df;
     App.analyze_interference := fun df _ =>
       answer {| Interference.interference_issues_pct := interference_pct a;
                 Interference.high_interference_areas := 0%Z;
                 Interference.problem_areas := [] |} df;
     App.analyze_handover_failures :=
       answer {| Handover.total_handovers := 0%Z;
                 Handover.successful_handovers := 0%Z;
                 Handover.failed_handovers := 0%Z;
                 Handover.handover_success_rate := handover_rate a;
                 Handover.failure_causes := [] |};
     App.analyze_throughput_bottlenecks :=
       answer {| Throughput.avg_dl_throughput := 0;
                 Throughput.avg_ul_throughput := 0;
                 Throughput.peak_dl_throughput := 0;
                 Throughput.peak_ul_throughput := 0;
                 Throughput.dl_bottleneck_areas := dl_areas a;
                 Throughput.ul_bottleneck_areas := ul_areas a;
                 Throughput.bottleneck_causes := [] |};
     App.analyze_call_drops :=
       answer {| CallDrop.total_calls := 0%Z;
                 CallDrop.completed_calls := 0%Z;
                 CallDrop.dropped_calls := 0%Z;
                 CallDrop.call_drop_rate := drop_rate a;
                 CallDrop.drop_causes := [] |};
     App.analyze_cell_overloading :=
       answer {| Overloading.overloaded_cells := [] |};
     App.analyze_parameter_mismatches :=
       answer {| Mismatch.mismatches := [] |};
     App.analyze_qos_issues :=
       answer {| Qos.volte_mos_issues_pct := 0; Qos.qci_issues_pct := 0 |};
     App.analyze_rf_metrics := fun df _ _ _ =>
       answer {| Rf.coverage_issues_pct := coverage_pct a;
                 Rf.interference_issues_pct := interference_pct a;
                 Rf.good_rf_pct := 0 |} df;
     App.analyze_idle_connected_mode_failures :=
       answer {| IdleConnected.failed_transitions := 0%Z;
                 IdleConnected.unresolved_transitions := 0%Z;
                 IdleConnected.failure_categories := [] |} |}.

Definition fail {R} (df : DataFrame) : App.returns R := (Py.Raised Py.Error, df).

(** An analysis module with the coverage pipeline of [analyzer a] and nine
    pipelines that raise an exception. *)
Definition coverage_alone (a : answers) : App.Analyzer :=
  {| App.analyze_coverage_problems :=
       App.analyze_coverage_problems (analyzer a);
     App.analyze_interference := fun df _ => fail df;
     App.analyze_handover_failures := fail;
     App.analyze_throughput_bottlenecks := fail;
     App.analyze_call_drops := fail;
     App.analyze_cell_overloading := fail;
     App.analyze_parameter_mismatches := fail;
     App.analyze_qos_issues := fail;
     App.analyze_rf_metrics := fun df _ _ _ => fail df;
     App.analyze_idle_connected_mode_failures := fail |}.

Definition leave {R} (df : DataFrame) : App.returns R := (Py.Raised Py.Exit, df).

(** The analysis module [analyzer a] with an RF-metrics pipeline that is
    interrupted: it raises an exit. *)
Definition interrupted (a : answers) : App.Analyzer :=
  {| App.analyze_coverage_problems :=
       App.analyze_coverage_problems (analyzer a);
     App.analyze_interference := App.analyze_interference (analyzer a);
     App.analyze_handover_failures := App.analyze_handover_failures (analyzer a);
     App.analyze_throughput_bottlenecks :=
       App.analyze_throughput_bottlenecks (analyzer a);
     App.analyze_call_drops := App.analyze_call_drops (analyzer a);
     App.analyze_cell_overloading := App.analyze_cell_overloading (analyzer a);
     App.analyze_parameter_mismatches :=
       App.analyze_parameter_mismatches (analyzer a);
     App.analyze_qos_issues := App.analyze_qos_issues (analyzer a);
     App.analyze_rf_metrics := fun df _ _ _ => leave df;
     App.analyze_idle_connected_mode_failures :=
       App.analyze_idle_connected_mode_failures (analyzer a) |}.

(** All ten analysis types of the sidebar. *)
Definition every_type : list string :=
  [ "Coverage Problems"; "Interference"; "Handover Failures";
    "Throughput Bottlenecks"; "Call Drops"; "Cell Overloading";
    "Parameter Mismatches"; "QoS Issues"; "RF Metrics (RSRP, RSRQ, SINR)";
    "Idle/Connected Mode Failures" ]%string.

(** A quiet network: nothing to report. *)
Definition quiet : answers :=
  {| coverage_pct := 4; interference_pct := 3; handover_rate := 99;
     dl_areas := 1; ul_areas := 0; drop_rate := 1 |}.

(** Moderate coverage problems next to heavy interference. *)
Definition mixed : answers :=
  {| coverage_pct := 15; interference_pct := 30; handover_rate := 99;
     dl_areas := 7; ul_areas := 0; drop_rate := 6 |}.

(** The coverage of [mixed] in an otherwise different network. *)
Definition elsewhere : answers :=
  {| coverage_pct := 15; interference_pct := 80; handover_rate := 50;
     dl_areas := 0; ul_areas := 9; drop_rate := 0 |}.

(** The summary of a run over [every_type] with the default thresholds. *)
Definition summary (a : answers) : Py.outcome unit * App.Globals :=
  App.summary_tab (analyzer a) every_type (-105) (-15) 5 (App.loaded []).

(** The summary of a run with coverage alone selected, other thresholds. *)
Definition coverage_summary (a : answers) : Py.outcome unit * App.Globals :=
  App.summary_tab (analyzer a) ["Coverage Problems"%string] (-90) (-10) 0
    (App.loaded []).

End Canned.

(** ** Sample tables *)

Module Survey.

(** A row with a position, a serving cell and the three measurements. *)
Definition reading (ts : Z) (rsrp rsrq sinr : Q) : Sample :=
  {| timestamp := ts;
     latitude := Some (515 # 10);
     longitude := Some (-1 # 10);
     RSRP := Some rsrp;
     RSRQ := Some rsrq;
     SINR := Some sinr;
     serving_cell_id := Some 7%Z;
     throughput_dl := Some 20000;
     throughput_ul := Some 5000;
     call_state := None;
     rrc_state := None;
     event_marker := None |}.

(** Signal present but corrupted: RSRP above its threshold of -105, RSRQ
    and SINR below theirs of -15 and 5. *)
Definition corrupted : Sample := reading 0 (-100) (-18) 0.

(** Weak signal, and a healthy row. *)
Definition weak : Sample := reading 1 (-110) (-10) 12.
Definition healthy : Sample := reading 2 (-90) (-8) 15.

(** One choice of the engine's constants and rule tables. *)
Definition plain : Analyzer.Tuning :=
  {| Analyzer.interference_rsrp_floor := (-105)%Z;
     Analyzer.grid_cell := fun lat lon =>
       (Qfloor (lat * 1000), Qfloor (lon * 1000));
     Analyzer.min_cluster_size := 1%nat;
     Analyzer.area_severity := fun _ n _ _ _ =>
       if (10 <? n)%Z then "Critical"%string else "Medium"%string;
     Analyzer.area_description := fun problem _ _ _ _ => problem;
     Analyzer.signals := fun _ _ _ => [];
     Analyzer.throughput_floor := fun _ => 1000;
     Analyzer.bottleneck_cause := fun _ => "Congestion"%string;
     Analyzer.density_threshold := 100%Z;
     Analyzer.overload_margin := 0;
     Analyzer.voice_quality_poor := fun _ => None;
     Analyzer.qci_degraded := fun _ => None;
     Analyzer.parameter_mismatches := fun _ => [] |}.

(** The same with a marker vocabulary for handovers: a handover that
    succeeds, one that fails on the spot, and an orphaned failure marker. *)
Definition marked : Analyzer.Tuning :=
  {| Analyzer.interference_rsrp_floor := Analyzer.interference_rsrp_floor plain;
     Analyzer.grid_cell := Analyzer.grid_cell plain;
     Analyzer.min_cluster_size := Analyzer.min_cluster_size plain;
     Analyzer.area_severity := Analyzer.area_severity plain;
     Analyzer.area_description := Analyzer.area_description plain;
     Analyzer.signals := fun k _ s =>
       match k with
       | Analyzer.HandoverAttempt =>
           if (timestamp s =? 0)%Z then
             [Analyzer.Start 1 (Some 7%Z) (Some 8%Z)]
           else if (timestamp s =? 1)%Z then
             [Analyzer.Resolve 1 Analyzer.Success None]
           else
             [Analyzer.Start 2 (Some 8%Z) (Some 7%Z);
              Analyzer.Resolve 2 Analyzer.Failure (Some "Timer expiry"%string);
              Analyzer.Resolve 9 Analyzer.Failure None]
       | _ => []
       end;
     Analyzer.throughput_floor := Analyzer.throughput_floor plain;
     Analyzer.bottleneck_cause := Analyzer.bottleneck_cause plain;
     Analyzer.density_threshold := Analyzer.density_threshold plain;
     Analyzer.overload_margin := Analyzer.overload_margin plain;
     Analyzer.voice_quality_poor := Analyzer.voice_quality_poor plain;
     Analyzer.qci_degraded := Analyzer.qci_degraded plain;
     Analyzer.parameter_mismatches := Analyzer.parameter_mismatches plain |}.

(** A three-row drive test. *)
Definition drive : DataFrame := [corrupted; weak; healthy].

(** The variables of a full report on it, saved to the database: after
    the RF tab, before and after the summary tab, and after the save. *)
Definition after_rf : App.Globals :=
  snd (App.rf_tab (Analyzer.engine plain) Canned.every_type (-105) (-15) 5
         (App.loaded drive)).

Definition before_summary : App.Globals :=
  snd (App.call_quality_tab (Analyzer.engine plain) Canned.every_type
         (snd (App.throughput_tab (Analyzer.engine plain) Canned.every_type
                 (snd (App.handover_tab (Analyzer.engine plain)
                         Canned.every_type after_rf))))).

Definition after_summary : App.Globals :=
  snd (App.summary_tab (Analyzer.engine plain) Canned.every_type (-105) (-15) 5
         before_summary).

Definition after_save : App.Globals :=
  snd (App.database_tab (Analyzer.engine plain) Canned.every_type (-105) (-15) 5
         true after_summary).

End Survey.

(** ** Vocabulary of the statements *)

(** What one [if] block of the summary adds to the table: the row of the
    pipeline's result when the analysis type is selected and the result
    passes the block's test. *)
Definition emitted {R} (selected : bool) (observed : option R)
    (test : R -> bool) (row : R -> finding) : list finding :=
  if selected then
    match observed with
    | Some r => if test r then [row r] else []
    | None => []
    end
  else [].

(** The issue names in the order of the summary's blocks. *)
Definition issue_order : list string :=
  [ "Coverage Problems"; "Interference Issues"; "Handover Failures";
    "Throughput Bottlenecks"; "Call Drops" ]%string.

(** A table is ranked by severity when every High row comes before every
    Medium row. *)
Definition ranked_by_severity (table : list finding) : Prop :=
  forall i j a b,
    nth_error table i = Some a -> nth_error table j = Some b ->
    Severity a = "High"%string -> Severity b = "Medium"%string ->
    (i < j)%nat.

(** A sample counted both as a coverage and as an interference issue. *)
Definition flagged_twice (rsrp_threshold rsrq_threshold sinr_threshold : Z)
    (s : Sample) : bool :=
  Analyzer.is_coverage_issue rsrp_threshold rsrq_threshold s
  && Analyzer.is_interference_issue rsrp_threshold sinr_threshold s.

(** The table a guarded pipeline call leaves behind: the table as the call
    leaves it when the analysis type is selected, the table as it was
    otherwise. *)
Definition after {R} (selected : bool) (call : DataFrame -> App.returns R)
    (t : DataFrame) : DataFrame :=
  if selected then snd (call t) else t.

(** The table each block of the summary hands to its pipeline, in terms of
    the table [t] the summary starts from: the coverage block runs on [t]
    itself, every later block on the table as the selected calls before it
    left it. *)
Section SummaryTables.

Variable M : App.Analyzer.
Variable analysis_types : list string.
Variables rsrp_threshold rsrq_threshold sinr_threshold : Z.

Definition at_interference (t : DataFrame) : DataFrame :=
  after (Py.contains analysis_types "Coverage Problems")
    (fun df => App.analyze_coverage_problems M df rsrp_threshold rsrq_threshold)
    t.

Definition at_handover (t : DataFrame) : DataFrame :=
  after (Py.contains analysis_types "Interference")
    (fun df => App.analyze_interference M df sinr_threshold)
    (at_interference t).

Definition at_throughput (t : DataFrame) : DataFrame :=
  after (Py.contains analysis_types "Handover Failures")
    (App.analyze_handover_failures M) (at_handover t).

Definition at_call_drops (t : DataFrame) : DataFrame :=
  after (Py.contains analysis_types "Throughput Bottlenecks")
    (App.analyze_throughput_bottlenecks M) (at_throughput t).

Definition left_by_summary (t : DataFrame) : DataFrame :=
  after (Py.contains analysis_types "Call Drops")
    (App.analyze_call_drops M) (at_call_drops t).

End SummaryTables.

(** A block that completes and leaves the table and the coverage result as
    they were. *)
Definition quiet (c : App.script unit) : Prop :=
  forall g,
    fst (c g) = Py.Returned tt
    /\ App.df (snd (c g)) = App.df g
    /\ App.coverage_results (snd (c g)) = App.coverage_results g.

(** A block that completes, leaves the table as it was and, when coverage
    is selected, binds the coverage result to a fresh analysis of the
    table. *)
Definition refreshing (fresh : DataFrame -> option Coverage.results)
    (selected : bool) (c : App.script unit) : Prop :=
  forall g,
    fst (c g) = Py.Returned tt
    /\ App.df (snd (c g)) = App.df g
    /\ App.coverage_results (snd (c g))
       = if selected then fresh (App.df g) else App.coverage_results g.

(** ** The rest of the script: what the summary shows, saved drive tests *)

(** A Python dict with string keys; [items()] lists the keys in insertion
    order, so it is an association list without repeated keys. *)
Module Dict.

Definition t (V : Type) : Type := list (string * V).

(** [d[k]], [None] for the [KeyError] of a missing key. *)
Fixpoint get {V} (k : string) (d : t V) : option V :=
  match d with
  | [] => None
  | (k', v) :: rest => if String.eqb k' k then Some v else get k rest
  end.

(** [k in d] *)
Definition mem {V} (k : string) (d : t V) : bool :=
  match get k d with
  | Some _ => true
  | None => false
  end.

(** [d[k] = v]: the value of an existing key is replaced where it stands, a
    new key goes last. *)
Fixpoint set {V} (k : string) (v : V) (d : t V) : t V :=
  match d with
  | [] => [(k, v)]
  | (k', v') :: rest =>
      if String.eqb k' k then (k', v) :: rest else (k', v') :: set k v rest
  end.

End Dict.

Module Display.

(** [if root_causes:] in the summary tab: the table is shown when it has a
    row, otherwise the note that no significant issue was detected. *)
Definition shows_table (root_causes : list finding) : bool :=
  match root_causes with
  | [] => false
  | _ :: _ => true
  end.

(** The [data] of the download button.  [to_csv] stands for
    [pd.DataFrame(root_causes).to_csv(index=False)]. *)
Definition download_data (to_csv : list finding -> string)
    (root_causes : list finding) : string :=
  if shows_table root_causes then to_csv root_causes
  else "No significant issues detected"%string.

(** The list comprehension of the Call Quality tab: the selected types that
    are call-quality analyses. *)
Definition call_analysis_types (analysis_types : list string) : list string :=
  filter (Py.contains ["Call Drops"; "QoS Issues"; "Cell Overloading"]%string)
         analysis_types.

End Display.

(** The Database tab's view of the saved drive tests; the same code serves
    the tab with and without an uploaded file. *)
Module Saved.

(** A problem area as the database returns it. *)
Record area := {
  id : Z;
  latitude : Q;
  longitude : Q;
  avg_rsrp : option Q;
  avg_rsrq : option Q;
  avg_sinr : option Q;
  cell_id : option Z;
  description : string;
  problem_type : string
}.

(** One turn of the grouping loop:
    [if pa.problem_type not in problem_types: problem_types[...] = []]
    followed by [problem_types[pa.problem_type].append(pa)]. *)
Definition file_area (problem_types : Dict.t (list area)) (pa : area)
  : option (Dict.t (list area)) :=
  let problem_types :=
    if negb (Dict.mem (problem_type pa) problem_types)
    then Dict.set (problem_type pa) [] problem_types
    else problem_types in
  match Dict.get (problem_type pa) problem_types with
  | Some areas => Some (Dict.set (problem_type pa) (areas ++ [pa]) problem_types)
  | None => None
  end.

(** [problem_types = {}] and the loop over [problem_areas]. *)
Definition group_by_type (problem_areas : list area) : option (Dict.t (list area)) :=
  fold_left
    (fun acc pa =>
       match acc with
       | Some problem_types => file_area problem_types pa
       | None => None
       end)
    problem_areas (Some []).

(** The label of a group's expander,
    [f"{problem_type} Problems ({len(areas)} areas)"]. *)
Definition expander_label (group : string * list area) : string :=
  (fst group ++ " Problems (" ++ Py.str_int (Z.of_nat (length (snd group)))
   ++ " areas)")%string.

Section Listing.

(** Timestamps of the database and their rendering by
    [strftime("%Y-%m-%d %H:%M")]. *)
Variable datetime : Type.
Variable strftime : datetime -> string.

(** A saved drive test as [get_all_drive_tests] returns it. *)
Record drive_test := {
  dt_id : Z;
  filename : string;
  file_format : string;
  upload_date : datetime;
  record_count : Z;
  start_time : option datetime;
  end_time : option datetime
}.

(** A row of the listing (a dict with these keys). *)
Record row := {
  ID : Z;
  Filename : string;
  Format : string;
  Upload_Date : string;
  Records : Z;
  Start_Time : string;
  End_Time : string
}.

Definition or_na (t : option datetime) : string :=
  match t with
  | Some d => strftime d
  | None => "N/A"%string
  end.

(** The loop that fills [drive_tests_data]. *)
Definition drive_tests_data (drive_tests : list drive_test) : list row :=
  map (fun dt =>
         {| ID := dt_id dt;
            Filename := filename dt;
            Format := file_format dt;
            Upload_Date := strftime (upload_date dt);
            Records := record_count dt;
            Start_Time := or_na (start_time dt);
            End_Time := or_na (end_time dt) |})
      drive_tests.

(** [options=[dt["ID"] for dt in drive_tests_data]] *)
Definition options (data : list row) : list Z := map ID data.

(** [next((dt['Filename'] for dt in drive_tests_data if dt['ID'] == x), 'Unknown')] *)
Definition filename_of (data : list row) (x : Z) : string :=
  match find (fun dt => (ID dt =? x)%Z) data with
  | Some dt => Filename dt
  | None => "Unknown"%string
  end.

(** The [format_func] of the select box. *)
Definition format_func (data : list row) (x : Z) : string :=
  ("ID: " ++ Py.str_int x ++ " - " ++ filename_of data x)%string.

End Listing.

End Saved.

Arguments Saved.dt_id {datetime} _.
Arguments Saved.filename {datetime} _.
Arguments Saved.Build_drive_test {datetime} _ _ _ _ _ _ _.

(** A small archive: three saved problem areas and two saved drive tests,
    with timestamps as minutes and their number as rendering. *)
Module Archive.

Definition spot (n : Z) (kind : string) : Saved.area :=
  {| Saved.id := n;
     Saved.latitude := 515 # 10;
     Saved.longitude := -1 # 10;
     Saved.avg_rsrp := Some (-110);
     Saved.avg_rsrq := None;
     Saved.avg_sinr := None;
     Saved.cell_id := Some 7%Z;
     Saved.description := "Low signal"%string;
     Saved.problem_type := kind |}.

Definition areas : list Saved.area :=
  [spot 1 "Coverage"; spot 2 "Interference"; spot 3 "Coverage"]%string.

Definition morning : Saved.drive_test Z :=
  Saved.Build_drive_test 4%Z "north.csv" "CSV" 600%Z 1200%Z (Some 540%Z) None.

Definition evening : Saved.drive_test Z :=
  Saved.Build_drive_test 9%Z "ring.xlsx" "Excel" 1140%Z 800%Z None None.

Definition tests : list (Saved.drive_test Z) := [morning; evening].

End Archive.

(** The areas of a problem type. *)
Definition of_type (kind : string) (pa : Saved.area) : bool :=
  String.eqb (Saved.problem_type pa) kind.

(** The number of values a dict of lists holds. *)
Definition held {V} (d : Dict.t (list V)) : nat :=
  length (concat (map snd d)).

(** An analysis module none of whose pipelines, among the eight the report
    runs, changes the table it is given. *)
Definition read_only (M : App.Analyzer) : Prop :=
  forall df a b c,
    snd (App.analyze_rf_metrics M df a b c) = df
    /\ snd (App.analyze_coverage_problems M df a b) = df
    /\ snd (App.analyze_interference M df c) = df
    /\ snd (App.analyze_handover_failures M df) = df
    /\ snd (App.analyze_throughput_bottlenecks M df) = df
    /\ snd (App.analyze_call_drops M df) = df
    /\ snd (App.analyze_qos_issues M df) = df
    /\ snd (App.analyze_cell_overloading M df) = df.

(** The level a list of rows of one issue stands for: 0 without a row, 1 for
    Medium, 2 for High. *)
Definition level (rows : list finding) : nat :=
  match rows with
  | [] => 0
  | row :: _ => if String.eqb (Severity row) "High" then 2 else 1
  end.

(** The distinct members of a list in the order of their first
    occurrence. *)
Definition firsts (l : list string) : list string :=
  fold_left (fun seen x => if Py.contains seen x then seen else seen ++ [x]) l [].

(** Two blocks, run from states related by [R], end alike and in related
    states. *)
Definition alike (R : App.Globals -> App.Globals -> Prop)
    (c1 c2 : App.script unit) : Prop :=
  forall g1 g2,
    R g1 g2 ->
    fst (c1 g1) = fst (c2 g2) /\ R (snd (c1 g1)) (snd (c2 g2)).

(** States that agree on the table and on the root-cause table. *)
Definition same_table (g1 g2 : App.Globals) : Prop :=
  App.df g1 = App.df g2 /\ App.root_causes g1 = App.root_causes g2.

(** * Properties of the root-cause summary *)

Section ComparisonFacts.

Lemma lt_true_iff (x y : Q) : Py.lt x y = true <-> x < y.
Proof.
  unfold Py.lt. rewrite negb_true_iff.
  split.
  - intros H. apply Qnot_le_lt. intros Hle.
    apply Qle_bool_iff in Hle. congruence.
  - intros H. destruct (Qle_bool y x) eqn:E; [|reflexivity].
    apply Qle_bool_iff in E. exfalso. exact (Qlt_not_le _ _ H E).
Qed.

Lemma gt_true_iff (x y : Q) : Py.gt x y = true <-> y < x.
Proof. unfold Py.gt. apply lt_true_iff. Qed.

Lemma ge_true_iff (x y : Q) : Py.ge x y = true <-> y <= x.
Proof. unfold Py.ge. apply Qle_bool_iff. Qed.

Lemma lt_fails_iff (x y : Q) : Py.lt x y = false <-> ~ x < y.
Proof.
  rewrite <- lt_true_iff. destruct (Py.lt x y); split; congruence.
Qed.

Lemma gt_fails_iff (x y : Q) : Py.gt x y = false <-> ~ y < x.
Proof. unfold Py.gt. apply lt_fails_iff. Qed.

End ComparisonFacts.

(** ** Completed runs of the summary *)

Lemma bind_completes {A B} (c : App.script A) (k : A -> App.script B) g b g' :
  App.bind c k g = (Py.Returned b, g') ->
  exists a g1, c g = (Py.Returned a, g1) /\ k a g1 = (Py.Returned b, g').
Proof.
  unfold App.bind. destruct (c g) as [[a|?] g1]; intros H.
  - exists a, g1. split; [reflexivity | exact H].
  - discriminate H.
Qed.

(** One case split of a block's run: on the outcome of the pipeline call or
    on a condition. *)
Ltac run_step H :=
  match type of H with
  | context [let (_, _) := ?p in _] =>
      lazymatch p with
      | context [let (_, _) := _ in _] => fail
      | _ => destruct p as [[?|?] ?] eqn:?
      end
  | context [if ?b then _ else _] => destruct b eqn:?
  end.

Ltac run_block H :=
  unfold App.when, App.bind, App.invoke, App.assign, App.root_causes_append,
    App.skip, App.ret in H;
  repeat (run_step H; cbn iota beta in H);
  inversion H; subst; clear H; unfold emitted; cbn;
  repeat match goal with
    | E : _ = true |- _ => rewrite E
    | E : _ = false |- _ => rewrite E
    end;
  rewrite ?app_nil_r; intuition (eauto; congruence).

Section SummaryRuns.

Variable M : App.Analyzer.
Variable analysis_types : list string.
Variables rsrp_threshold rsrq_threshold sinr_threshold : Z.

Let selected (name : string) : bool := Py.contains analysis_types name.

Lemma summary_coverage_run g g1 :
  App.summary_coverage M analysis_types rsrp_threshold rsrq_threshold g
  = (Py.Returned tt, g1) ->
  App.root_causes g1 =
    App.root_causes g
    ++ emitted (selected "Coverage Problems") (App.coverage_results g1)
         (fun r => Py.gt (Coverage.coverage_issues_pct r) 10) App.coverage_row
  /\ (selected "Coverage Problems" = true ->
      exists r, App.coverage_results g1 = Some r)
  /\ App.interference_results g1 = App.interference_results g
  /\ App.handover_results g1 = App.handover_results g
  /\ App.throughput_results g1 = App.throughput_results g
  /\ App.call_drop_results g1 = App.call_drop_results g.
Proof.
  unfold selected, App.summary_coverage. intros H. run_block H.
Qed.

Lemma summary_interference_run g g1 :
  App.summary_interference M analysis_types sinr_threshold g = (Py.Returned tt, g1) ->
  App.root_causes g1 =
    App.root_causes g
    ++ emitted (selected "Interference") (App.interference_results g1)
         (fun r => Py.gt (Interference.interference_issues_pct r) 10)
         App.interference_row
  /\ (selected "Interference" = true ->
      exists r, App.interference_results g1 = Some r)
  /\ App.coverage_results g1 = App.coverage_results g
  /\ App.handover_results g1 = App.handover_results g
  /\ App.throughput_results g1 = App.throughput_results g
  /\ App.call_drop_results g1 = App.call_drop_results g.
Proof.
  unfold selected, App.summary_interference. intros H. run_block H.
Qed.

Lemma summary_handover_run g g1 :
  App.summary_handover M analysis_types g = (Py.Returned tt, g1) ->
  App.root_causes g1 =
    App.root_causes g
    ++ emitted (selected "Handover Failures") (App.handover_results g1)
         (fun r => Py.lt (Handover.handover_success_rate r) 95)
         App.handover_row
  /\ (selected "Handover Failures" = true ->
      exists r, App.handover_results g1 = Some r)
  /\ App.coverage_results g1 = App.coverage_results g
  /\ App.interference_results g1 = App.interference_results g
  /\ App.throughput_results g1 = App.throughput_results g
  /\ App.call_drop_results g1 = App.call_drop_results g.
Proof.
  unfold selected, App.summary_handover. intros H. run_block H.
Qed.

Lemma summary_throughput_run g g1 :
  App.summary_throughput M analysis_types g = (Py.Returned tt, g1) ->
  App.root_causes g1 =
    App.root_causes g
    ++ emitted (selected "Throughput Bottlenecks") (App.throughput_results g1)
         (fun r => (5 <? Throughput.dl_bottleneck_areas r)%Z
                   || (5 <? Throughput.ul_bottleneck_areas r)%Z)
         App.throughput_row
  /\ (selected "Throughput Bottlenecks" = true ->
      exists r, App.throughput_results g1 = Some r)
  /\ App.coverage_results g1 = App.coverage_results g
  /\ App.interference_results g1 = App.interference_results g
  /\ App.handover_results g1 = App.handover_results g
  /\ App.call_drop_results g1 = App.call_drop_results g.
Proof.
  unfold selected, App.summary_throughput. intros H. run_block H.
Qed.

Lemma summary_call_drops_run g g1 :
  App.summary_call_drops M analysis_types g = (Py.Returned tt, g1) ->
  App.root_causes g1 =
    App.root_causes g
    ++ emitted (selected "Call Drops") (App.call_drop_results g1)
         (fun r => Py.gt (CallDrop.call_drop_rate r) 2) App.call_drop_row
  /\ (selected "Call Drops" = true ->
      exists r, App.call_drop_results g1 = Some r)
  /\ App.coverage_results g1 = App.coverage_results g
  /\ App.interference_results g1 = App.interference_results g
  /\ App.handover_results g1 = App.handover_results g
  /\ App.throughput_results g1 = App.throughput_results g.
Proof.
  unfold selected, App.summary_call_drops. intros H. run_block H.
Qed.

(** The table of a completed summary, block by block, in terms of the
    results the run left in the script's variables. *)
Lemma summary_tab_run g g' :
  App.summary_tab M analysis_types rsrp_threshold rsrq_threshold sinr_threshold g
  = (Py.Returned tt, g') ->
  App.root_causes g' =
    emitted (selected "Coverage Problems") (App.coverage_results g')
      (fun r => Py.gt (Coverage.coverage_issues_pct r) 10) App.coverage_row
    ++ emitted (selected "Interference") (App.interference_results g')
         (fun r => Py.gt (Interference.interference_issues_pct r) 10)
         App.interference_row
    ++ emitted (selected "Handover Failures") (App.handover_results g')
         (fun r => Py.lt (Handover.handover_success_rate r) 95)
         App.handover_row
    ++ emitted (selected "Throughput Bottlenecks") (App.throughput_results g')
         (fun r => (5 <? Throughput.dl_bottleneck_areas r)%Z
                   || (5 <? Throughput.ul_bottleneck_areas r)%Z)
         App.throughput_row
    ++ emitted (selected "Call Drops") (App.call_drop_results g')
         (fun r => Py.gt (CallDrop.call_drop_rate r) 2) App.call_drop_row.
Proof.
  unfold App.summary_tab. intros H.
  apply bind_completes in H. destruct H as ([] & g0 & H0 & H).
  apply bind_completes in H. destruct H as ([] & g1 & H1 & H).
  apply bind_completes in H. destruct H as ([] & g2 & H2 & H).
  apply bind_completes in H. destruct H as ([] & g3 & H3 & H).
  apply bind_completes in H. destruct H as ([] & g4 & H4 & H5).
  unfold App.assign in H0. inversion H0; subst g0; clear H0.
  apply summary_coverage_run in H1.
  destruct H1 as (R1 & _ & I1 & O1 & T1 & C1).
  apply summary_interference_run in H2.
  destruct H2 as (R2 & _ & V2 & O2 & T2 & C2).
  apply summary_handover_run in H3.
  destruct H3 as (R3 & _ & V3 & I3 & T3 & C3).
  apply summary_throughput_run in H4.
  destruct H4 as (R4 & _ & V4 & I4 & O4 & C4).
  apply summary_call_drops_run in H5.
  destruct H5 as (R5 & _ & V5 & I5 & O5 & T5).
  rewrite R5, R4, R3, R2, R1. cbn [App.root_causes App.set_root_causes].
  rewrite V5, V4, V3, V2, I5, I4, I3, O5, O4, T5.
  rewrite <- !app_assoc. reflexivity.
Qed.

(** A selected analysis type has a result after a completed summary. *)
Lemma summary_tab_binds g g' :
  App.summary_tab M analysis_types rsrp_threshold rsrq_threshold sinr_threshold g
  = (Py.Returned tt, g') ->
  (selected "Coverage Problems" = true ->
   exists r, App.coverage_results g' = Some r)
  /\ (selected "Interference" = true ->
      exists r, App.interference_results g' = Some r)
  /\ (selected "Handover Failures" = true ->
      exists r, App.handover_results g' = Some r)
  /\ (selected "Throughput Bottlenecks" = true ->
      exists r, App.throughput_results g' = Some r)
  /\ (selected "Call Drops" = true ->
      exists r, App.call_drop_results g' = Some r).
Proof.
  unfold App.summary_tab. intros H.
  apply bind_completes in H. destruct H as ([] & g0 & H0 & H).
  apply bind_completes in H. destruct H as ([] & g1 & H1 & H).
  apply bind_completes in H. destruct H as ([] & g2 & H2 & H).
  apply bind_completes in H. destruct H as ([] & g3 & H3 & H).
  apply bind_completes in H. destruct H as ([] & g4 & H4 & H5).
  apply summary_coverage_run in H1.
  destruct H1 as (_ & B1 & I1 & O1 & T1 & C1).
  apply summary_interference_run in H2.
  destruct H2 as (_ & B2 & V2 & O2 & T2 & C2).
  apply summary_handover_run in H3.
  destruct H3 as (_ & B3 & V3 & I3 & T3 & C3).
  apply summary_throughput_run in H4.
  destruct H4 as (_ & B4 & V4 & I4 & O4 & C4).
  apply summary_call_drops_run in H5.
  destruct H5 as (_ & B5 & V5 & I5 & O5 & T5).
  rewrite V5, V4, V3, V2, I5, I4, I3, O5, O4, T5.
  repeat split; assumption.
Qed.

(** *** The pipeline calls of a completed summary

    Each selected block calls its pipeline on the table of that moment and
    binds what the call returned. *)

Lemma summary_coverage_call g g1 :
  App.summary_coverage M analysis_types rsrp_threshold rsrq_threshold g
  = (Py.Returned tt, g1) ->
  App.df g1
  = after (selected "Coverage Problems")
      (fun df => App.analyze_coverage_problems M df rsrp_threshold rsrq_threshold)
      (App.df g)
  /\ (selected "Coverage Problems" = true ->
      exists r,
        fst (App.analyze_coverage_problems M (App.df g) rsrp_threshold
               rsrq_threshold) = Py.Returned r
        /\ App.coverage_results g1 = Some r).
Proof.
  unfold selected, App.summary_coverage, after. intros H. run_block H.
Qed.

Lemma summary_interference_call g g1 :
  App.summary_interference M analysis_types sinr_threshold g
  = (Py.Returned tt, g1) ->
  App.df g1
  = after (selected "Interference")
      (fun df => App.analyze_interference M df sinr_threshold) (App.df g)
  /\ (selected "Interference" = true ->
      exists r,
        fst (App.analyze_interference M (App.df g) sinr_threshold)
        = Py.Returned r
        /\ App.interference_results g1 = Some r).
Proof.
  unfold selected, App.summary_interference, after. intros H. run_block H.
Qed.

Lemma summary_handover_call g g1 :
  App.summary_handover M analysis_types g = (Py.Returned tt, g1) ->
  App.df g1
  = after (selected "Handover Failures") (App.analyze_handover_failures M)
      (App.df g)
  /\ (selected "Handover Failures" = true ->
      exists r,
        fst (App.analyze_handover_failures M (App.df g)) = Py.Returned r
        /\ App.handover_results g1 = Some r).
Proof.
  unfold selected, App.summary_handover, after. intros H. run_block H.
Qed.

Lemma summary_throughput_call g g1 :
  App.summary_throughput M analysis_types g = (Py.Returned tt, g1) ->
  App.df g1
  = after (selected "Throughput Bottlenecks")
      (App.analyze_throughput_bottlenecks M) (App.df g)
  /\ (selected "Throughput Bottlenecks" = true ->
      exists r,
        fst (App.analyze_throughput_bottlenecks M (App.df g)) = Py.Returned r
        /\ App.throughput_results g1 = Some r).
Proof.
  unfold selected, App.summary_throughput, after. intros H. run_block H.
Qed.

Lemma summary_call_drops_call g g1 :
  App.summary_call_drops M analysis_types g = (Py.Returned tt, g1) ->
  App.df g1
  = after (selected "Call Drops") (App.analyze_call_drops M) (App.df g)
  /\ (selected "Call Drops" = true ->
      exists r,
        fst (App.analyze_call_drops M (App.df g)) = Py.Returned r
        /\ App.call_drop_results g1 = Some r).
Proof.
  unfold selected, App.summary_call_drops, after. intros H. run_block H.
Qed.

(** After a completed summary the result variable of every selected type
    holds what its pipeline returned on the table its block handed to it. *)
Lemma summary_tab_calls g g' :
  App.summary_tab M analysis_types rsrp_threshold rsrq_threshold sinr_threshold g
  = (Py.Returned tt, g') ->
  (selected "Coverage Problems" = true ->
   exists r,
     fst (App.analyze_coverage_problems M (App.df g) rsrp_threshold
            rsrq_threshold) = Py.Returned r
     /\ App.coverage_results g' = Some r)
  /\ (selected "Interference" = true ->
      exists r,
        fst (App.analyze_interference M
               (at_interference M analysis_types rsrp_threshold rsrq_threshold
                  (App.df g))
               sinr_threshold) = Py.Returned r
        /\ App.interference_results g' = Some r)
  /\ (selected "Handover Failures" = true ->
      exists r,
        fst (App.analyze_handover_failures M
               (at_handover M analysis_types rsrp_threshold rsrq_threshold
                  sinr_threshold (App.df g))) = Py.Returned r
        /\ App.handover_results g' = Some r)
  /\ (selected "Throughput Bottlenecks" = true ->
      exists r,
        fst (App.analyze_throughput_bottlenecks M
               (at_throughput M analysis_types rsrp_threshold rsrq_threshold
                  sinr_threshold (App.df g))) = Py.Returned r
        /\ App.throughput_results g' = Some r)
  /\ (selected "Call Drops" = true ->
      exists r,
        fst (App.analyze_call_drops M
               (at_call_drops M analysis_types rsrp_threshold rsrq_threshold
                  sinr_threshold (App.df g))) = Py.Returned r
        /\ App.call_drop_results g' = Some r)
  /\ App.df g'
     = left_by_summary M analysis_types rsrp_threshold rsrq_threshold
         sinr_threshold (App.df g).
Proof.
  unfold App.summary_tab. intros H.
  apply bind_completes in H. destruct H as ([] & g0 & H0 & H).
  apply bind_completes in H. destruct H as ([] & g1 & H1 & H).
  apply bind_completes in H. destruct H as ([] & g2 & H2 & H).
  apply bind_completes in H. destruct H as ([] & g3 & H3 & H).
  apply bind_completes in H. destruct H as ([] & g4 & H4 & H5).
  unfold App.assign in H0. inversion H0; subst g0; clear H0.
  pose proof (summary_coverage_call _ _ H1) as (D1 & K1).
  pose proof (summary_interference_call _ _ H2) as (D2 & K2).
  pose proof (summary_handover_call _ _ H3) as (D3 & K3).
  pose proof (summary_throughput_call _ _ H4) as (D4 & K4).
  pose proof (summary_call_drops_call _ _ H5) as (D5 & K5).
  cbn [App.df App.set_root_causes] in D1, K1.
  apply summary_coverage_run in H1.
  destruct H1 as (_ & _ & I1 & O1 & T1 & C1).
  apply summary_interference_run in H2.
  destruct H2 as (_ & _ & V2 & O2 & T2 & C2).
  apply summary_handover_run in H3.
  destruct H3 as (_ & _ & V3 & I3 & T3 & C3).
  apply summary_throughput_run in H4.
  destruct H4 as (_ & _ & V4 & I4 & O4 & C4).
  apply summary_call_drops_run in H5.
  destruct H5 as (_ & _ & V5 & I5 & O5 & T5).
  assert (E1 : App.df g1
               = at_interference M analysis_types rsrp_threshold rsrq_threshold
                   (App.df g)) by exact D1.
  assert (E2 : App.df g2
               = at_handover M analysis_types rsrp_threshold rsrq_threshold
                   sinr_threshold (App.df g)).
  { unfold at_handover. rewrite <- E1. exact D2. }
  assert (E3 : App.df g3
               = at_throughput M analysis_types rsrp_threshold rsrq_threshold
                   sinr_threshold (App.df g)).
  { unfold at_throughput. rewrite <- E2. exact D3. }
  assert (E4 : App.df g4
               = at_call_drops M analysis_types rsrp_threshold rsrq_threshold
                   sinr_threshold (App.df g)).
  { unfold at_call_drops. rewrite <- E3. exact D4. }
  rewrite E1 in K2. rewrite E2 in K3. rewrite E3 in K4. rewrite E4 in K5.
  split; [intros Hs; rewrite V5, V4, V3, V2; exact (K1 Hs)|].
  split; [intros Hs; rewrite I5, I4, I3; exact (K2 Hs)|].
  split; [intros Hs; rewrite O5, O4; exact (K3 Hs)|].
  split; [intros Hs; rewrite T5; exact (K4 Hs)|].
  split; [exact K5|].
  unfold left_by_summary. rewrite <- E4. exact D5.
Qed.

End SummaryRuns.

(** ** The rows of one issue *)

Lemma rows_of_app issue l1 l2 :
  App.rows_of issue (l1 ++ l2) = App.rows_of issue l1 ++ App.rows_of issue l2.
Proof. unfold App.rows_of. apply filter_app. Qed.

Lemma rows_of_own {R} issue sel (o : option R) test row :
  (forall r, String.eqb (Issue (row r)) issue = true) ->
  App.rows_of issue (emitted sel o test row) = emitted sel o test row.
Proof.
  intros H. unfold emitted, App.rows_of.
  destruct sel; [|reflexivity]. destruct o as [r|]; [|reflexivity].
  destruct (test r); [|reflexivity]. cbn. rewrite H. reflexivity.
Qed.

Lemma rows_of_other {R} issue sel (o : option R) test row :
  (forall r, String.eqb (Issue (row r)) issue = false) ->
  App.rows_of issue (emitted sel o test row) = [].
Proof.
  intros H. unfold emitted, App.rows_of.
  destruct sel; [|reflexivity]. destruct o as [r|]; [|reflexivity].
  destruct (test r); [|reflexivity]. cbn. rewrite H. reflexivity.
Qed.

Lemma rows_of_In issue table row :
  In row table -> Issue row = issue -> In row (App.rows_of issue table).
Proof.
  intros Hin Hissue. unfold App.rows_of. apply filter_In. split; [exact Hin|].
  rewrite Hissue. apply String.eqb_refl.
Qed.

Ltac rows_of_summary H :=
  apply summary_tab_run in H; rewrite H; rewrite !rows_of_app;
  repeat first
    [ rewrite rows_of_own by (intros; reflexivity)
    | rewrite rows_of_other by (intros; reflexivity) ];
  rewrite ?app_nil_r; cbn [app]; reflexivity.

Section Rows.

Variable M : App.Analyzer.
Variable analysis_types : list string.
Variables rsrp_threshold rsrq_threshold sinr_threshold : Z.
Variables g g' : App.Globals.
Hypothesis completed :
  App.summary_tab M analysis_types rsrp_threshold rsrq_threshold sinr_threshold g
  = (Py.Returned tt, g').

Lemma coverage_rows :
  App.rows_of "Coverage Problems" (App.root_causes g') =
  emitted (Py.contains analysis_types "Coverage Problems")
    (App.coverage_results g')
    (fun r => Py.gt (Coverage.coverage_issues_pct r) 10) App.coverage_row.
Proof. pose proof completed as H. rows_of_summary H. Qed.

Lemma interference_rows :
  App.rows_of "Interference Issues" (App.root_causes g') =
  emitted (Py.contains analysis_types "Interference")
    (App.interference_results g')
    (fun r => Py.gt (Interference.interference_issues_pct r) 10)
    App.interference_row.
Proof. pose proof completed as H. rows_of_summary H. Qed.

Lemma handover_rows :
  App.rows_of "Handover Failures" (App.root_causes g') =
  emitted (Py.contains analysis_types "Handover Failures")
    (App.handover_results g')
    (fun r => Py.lt (Handover.handover_success_rate r) 95) App.handover_row.
Proof. pose proof completed as H. rows_of_summary H. Qed.

Lemma throughput_rows :
  App.rows_of "Throughput Bottlenecks" (App.root_causes g') =
  emitted (Py.contains analysis_types "Throughput Bottlenecks")
    (App.throughput_results g')
    (fun r => (5 <? Throughput.dl_bottleneck_areas r)%Z
              || (5 <? Throughput.ul_bottleneck_areas r)%Z)
    App.throughput_row.
Proof. pose proof completed as H. rows_of_summary H. Qed.

Lemma call_drop_rows :
  App.rows_of "Call Drops" (App.root_causes g') =
  emitted (Py.contains analysis_types "Call Drops")
    (App.call_drop_results g')
    (fun r => Py.gt (CallDrop.call_drop_rate r) 2) App.call_drop_row.
Proof. pose proof completed as H. rows_of_summary H. Qed.

End Rows.

(** ** Escalation rules of the summary *)

(** C1. In a completed summary with Coverage Problems selected, the
    coverage pipeline returned a result on the table the summary started
    from, and the table of root causes has a Coverage Problems row exactly
    when the [coverage_issues_pct] of that result exceeds 10; the row is
    then the only one of its issue, with Severity High when the percentage
    exceeds 25 and Medium otherwise.  The same holds for Interference and
    the [interference_issues_pct] its pipeline returned on the table as the
    coverage block left it. *)
Theorem coverage_interference_escalation :
  forall M analysis_types rsrp_threshold rsrq_threshold sinr_threshold g g',
    App.summary_tab M analysis_types rsrp_threshold rsrq_threshold sinr_threshold g
    = (Py.Returned tt, g') ->
    (Py.contains analysis_types "Coverage Problems" = true ->
     exists r,
       fst (App.analyze_coverage_problems M (App.df g) rsrp_threshold
              rsrq_threshold) = Py.Returned r
       /\ App.coverage_results g' = Some r /\
       let pct := Coverage.coverage_issues_pct r in
       (10 < pct ->
        exists row,
          App.rows_of "Coverage Problems" (App.root_causes g') = [row]
          /\ (25 < pct -> Severity row = "High"%string)
          /\ (~ 25 < pct -> Severity row = "Medium"%string))
       /\ (~ 10 < pct ->
           App.rows_of "Coverage Problems" (App.root_causes g') = []))
    /\
    (Py.contains analysis_types "Interference" = true ->
     exists r,
       fst (App.analyze_interference M
              (at_interference M analysis_types rsrp_threshold rsrq_threshold
                 (App.df g))
              sinr_threshold) = Py.Returned r
       /\ App.interference_results g' = Some r /\
       let pct := Interference.interference_issues_pct r in
       (10 < pct ->
        exists row,
          App.rows_of "Interference Issues" (App.root_causes g') = [row]
          /\ (25 < pct -> Severity row = "High"%string)
          /\ (~ 25 < pct -> Severity row = "Medium"%string))
       /\ (~ 10 < pct ->
           App.rows_of "Interference Issues" (App.root_causes g') = [])).
Proof.
  intros M types a b c g g' Hrun.
  pose proof (summary_tab_calls _ _ _ _ _ _ _ Hrun) as (Kc & Ki & _).
  split; intros Hsel.
  - destruct (Kc Hsel) as (r & Hcall & Hr). exists r.
    split; [exact Hcall|]. split; [exact Hr|].
    rewrite (coverage_rows _ _ _ _ _ _ _ Hrun), Hsel, Hr. unfold emitted.
    cbn zeta. split.
    + intros Hgt. apply gt_true_iff in Hgt. rewrite Hgt.
      exists (App.coverage_row r). split; [reflexivity|]. cbn. split.
      * intros H25. apply gt_true_iff in H25. rewrite H25. reflexivity.
      * intros H25. apply gt_fails_iff in H25. rewrite H25. reflexivity.
    + intros Hle. apply gt_fails_iff in Hle. rewrite Hle. reflexivity.
  - destruct (Ki Hsel) as (r & Hcall & Hr). exists r.
    split; [exact Hcall|]. split; [exact Hr|].
    rewrite (interference_rows _ _ _ _ _ _ _ Hrun), Hsel, Hr. unfold emitted.
    cbn zeta. split.
    + intros Hgt. apply gt_true_iff in Hgt. rewrite Hgt.
      exists (App.interference_row r). split; [reflexivity|]. cbn. split.
      * intros H25. apply gt_true_iff in H25. rewrite H25. reflexivity.
      * intros H25. apply gt_fails_iff in H25. rewrite H25. reflexivity.
    + intros Hle. apply gt_fails_iff in Hle. rewrite Hle. reflexivity.
Qed.

Lemma coverage_interference_escalation_witness :
  (exists row,
     App.rows_of "Coverage Problems"
       (App.root_causes (snd (Canned.summary Canned.mixed))) = [row]
     /\ Severity row = "Medium"%string)
  /\ (exists row,
        App.rows_of "Interference Issues"
          (App.root_causes (snd (Canned.summary Canned.mixed))) = [row]
        /\ Severity row = "High"%string).
Proof.
  destruct (coverage_interference_escalation
              (Canned.analyzer Canned.mixed) Canned.every_type (-105) (-15) 5
              (App.loaded []) (snd (Canned.summary Canned.mixed)) eq_refl)
    as [Hcoverage Hinterference].
  split.
  - destruct (Hcoverage eq_refl) as (r & Hcall & _ & Hrow & _).
    injection Hcall as <-.
    destruct (Hrow eq_refl) as (row & Hrows & _ & Hmedium).
    exists row. split; [exact Hrows|]. apply Hmedium. discriminate.
  - destruct (Hinterference eq_refl) as (r & Hcall & _ & Hrow & _).
    injection Hcall as <-.
    destruct (Hrow eq_refl) as (row & Hrows & Hhigh & _).
    exists row. split; [exact Hrows|]. apply Hhigh. reflexivity.
Defined.

(** C2. In a completed summary with Call Drops selected whose call-drop
    analysis returned a [call_drop_rate] of 6, the table has exactly one
    Call Drops row and its Severity is High. *)
Theorem call_drop_rate_six_is_high :
  forall M analysis_types rsrp_threshold rsrq_threshold sinr_threshold g g' r,
    App.summary_tab M analysis_types rsrp_threshold rsrq_threshold sinr_threshold g
    = (Py.Returned tt, g') ->
    Py.contains analysis_types "Call Drops" = true ->
    App.call_drop_results g' = Some r ->
    CallDrop.call_drop_rate r == 6 ->
    exists row,
      App.rows_of "Call Drops" (App.root_causes g') = [row]
      /\ Issue row = "Call Drops"%string
      /\ Severity row = "High"%string.
Proof.
  intros M types a b c g g' r Hrun Hsel Hr Hrate.
  rewrite (call_drop_rows _ _ _ _ _ _ _ Hrun), Hsel, Hr. unfold emitted.
  assert (H2 : Py.gt (CallDrop.call_drop_rate r) 2 = true).
  { apply gt_true_iff. rewrite Hrate. reflexivity. }
  assert (H5 : Py.gt (CallDrop.call_drop_rate r) 5 = true).
  { apply gt_true_iff. rewrite Hrate. reflexivity. }
  rewrite H2. exists (App.call_drop_row r).
  split; [reflexivity|]. split; [reflexivity|].
  cbn. rewrite H5. reflexivity.
Qed.

Lemma call_drop_rate_six_is_high_witness :
  exists row,
    App.rows_of "Call Drops"
      (App.root_causes (snd (Canned.summary Canned.mixed))) = [row]
    /\ Issue row = "Call Drops"%string
    /\ Severity row = "High"%string.
Proof.
  refine (call_drop_rate_six_is_high
           (Canned.analyzer Canned.mixed) Canned.every_type (-105) (-15) 5
           (App.loaded []) (snd (Canned.summary Canned.mixed)) _
           eq_refl eq_refl eq_refl _).
  reflexivity.
Defined.

(** ** Order of the table *)

Lemma emitted_cases {R} sel (o : option R) test row :
  emitted sel o test row = [] \/ exists r, emitted sel o test row = [row r].
Proof.
  unfold emitted. destruct sel; [|left; reflexivity].
  destruct o as [r|]; [|left; reflexivity].
  destruct (test r); [right; exists r|left]; reflexivity.
Qed.

(** The run of [Canned.mixed] puts a Medium row before a High one. *)
Lemma mixed_run_is_not_ranked :
  fst (Canned.summary Canned.mixed) = Py.Returned tt
  /\ map Severity (App.root_causes (snd (Canned.summary Canned.mixed)))
     = ["Medium"; "High"; "Medium"; "High"]%string
  /\ ~ ranked_by_severity (App.root_causes (snd (Canned.summary Canned.mixed))).
Proof.
  split; [reflexivity|]. split; [reflexivity|].
  intros Hranked.
  pose proof (Hranked 1%nat 0%nat _ _ eq_refl eq_refl eq_refl eq_refl) as Hlt.
  inversion Hlt.
Qed.

(** C3 (as amended). The rows of a completed summary follow the order of
    the summary's blocks, one row per issue at most: their issues are
    [issue_order] restricted to the issues that occur.  Severity plays no
    part in the order. *)
Theorem findings_follow_block_order :
  forall M analysis_types rsrp_threshold rsrq_threshold sinr_threshold g g',
    App.summary_tab M analysis_types rsrp_threshold rsrq_threshold sinr_threshold g
    = (Py.Returned tt, g') ->
    map Issue (App.root_causes g')
    = filter (Py.contains (map Issue (App.root_causes g'))) issue_order.
Proof.
  intros M types a b c g g' Hrun.
  rewrite (summary_tab_run _ _ _ _ _ _ _ Hrun).
  repeat match goal with
    | |- context [emitted ?s ?o ?t ?row] =>
        destruct (emitted_cases s o t row) as [-> | [? ->]]
    end;
  reflexivity.
Qed.

Lemma findings_follow_block_order_witness :
  map Issue (App.root_causes (snd (Canned.summary Canned.mixed)))
  = ["Coverage Problems"; "Interference Issues"; "Throughput Bottlenecks";
     "Call Drops"]%string.
Proof.
  rewrite (findings_follow_block_order
             (Canned.analyzer Canned.mixed) Canned.every_type (-105) (-15) 5
             (App.loaded []) (snd (Canned.summary Canned.mixed)) eq_refl).
  reflexivity.
Defined.

(** ** Independence of the pipelines *)

(** C4. Take two completed summaries, over any analysis modules, tables,
    thresholds and selections.  For each of the five pipelines: when it is
    selected in both runs and its result is the same in both, the rows of its
    issue are the same in both tables (the same row, or none in either). *)
Theorem finding_depends_on_own_pipeline :
  forall M1 types1 rsrp1 rsrq1 sinr1 g1 g1'
         M2 types2 rsrp2 rsrq2 sinr2 g2 g2',
    App.summary_tab M1 types1 rsrp1 rsrq1 sinr1 g1 = (Py.Returned tt, g1') ->
    App.summary_tab M2 types2 rsrp2 rsrq2 sinr2 g2 = (Py.Returned tt, g2') ->
    (Py.contains types1 "Coverage Problems" = true ->
     Py.contains types2 "Coverage Problems" = true ->
     App.coverage_results g1' = App.coverage_results g2' ->
     App.rows_of "Coverage Problems" (App.root_causes g1')
     = App.rows_of "Coverage Problems" (App.root_causes g2'))
    /\ (Py.contains types1 "Interference" = true ->
        Py.contains types2 "Interference" = true ->
        App.interference_results g1' = App.interference_results g2' ->
        App.rows_of "Interference Issues" (App.root_causes g1')
        = App.rows_of "Interference Issues" (App.root_causes g2'))
    /\ (Py.contains types1 "Handover Failures" = true ->
        Py.contains types2 "Handover Failures" = true ->
        App.handover_results g1' = App.handover_results g2' ->
        App.rows_of "Handover Failures" (App.root_causes g1')
        = App.rows_of "Handover Failures" (App.root_causes g2'))
    /\ (Py.contains types1 "Throughput Bottlenecks" = true ->
        Py.contains types2 "Throughput Bottlenecks" = true ->
        App.throughput_results g1' = App.throughput_results g2' ->
        App.rows_of "Throughput Bottlenecks" (App.root_causes g1')
        = App.rows_of "Throughput Bottlenecks" (App.root_causes g2'))
    /\ (Py.contains types1 "Call Drops" = true ->
        Py.contains types2 "Call Drops" = true ->
        App.call_drop_results g1' = App.call_drop_results g2' ->
        App.rows_of "Call Drops" (App.root_causes g1')
        = App.rows_of "Call Drops" (App.root_causes g2')).
Proof.
  intros M1 types1 a1 b1 c1 g1 g1' M2 types2 a2 b2 c2 g2 g2' Hrun1 Hrun2.
  repeat split; intros Hsel1 Hsel2 Hsame.
  - rewrite (coverage_rows _ _ _ _ _ _ _ Hrun1), (coverage_rows _ _ _ _ _ _ _ Hrun2).
    rewrite Hsel1, Hsel2, Hsame. reflexivity.
  - rewrite (interference_rows _ _ _ _ _ _ _ Hrun1),
      (interference_rows _ _ _ _ _ _ _ Hrun2).
    rewrite Hsel1, Hsel2, Hsame. reflexivity.
  - rewrite (handover_rows _ _ _ _ _ _ _ Hrun1), (handover_rows _ _ _ _ _ _ _ Hrun2).
    rewrite Hsel1, Hsel2, Hsame. reflexivity.
  - rewrite (throughput_rows _ _ _ _ _ _ _ Hrun1),
      (throughput_rows _ _ _ _ _ _ _ Hrun2).
    rewrite Hsel1, Hsel2, Hsame. reflexivity.
  - rewrite (call_drop_rows _ _ _ _ _ _ _ Hrun1),
      (call_drop_rows _ _ _ _ _ _ _ Hrun2).
    rewrite Hsel1, Hsel2, Hsame. reflexivity.
Qed.

(** Two runs that agree on coverage and differ in everything else: another
    network, other thresholds, and only coverage selected in the second. *)
Lemma finding_depends_on_own_pipeline_witness :
  App.rows_of "Coverage Problems"
    (App.root_causes (snd (Canned.summary Canned.mixed)))
  = App.rows_of "Coverage Problems"
      (App.root_causes (snd (Canned.coverage_summary Canned.elsewhere))).
Proof.
  refine (proj1 (finding_depends_on_own_pipeline
                   (Canned.analyzer Canned.mixed) Canned.every_type (-105) (-15) 5
                   (App.loaded []) (snd (Canned.summary Canned.mixed))
                   (Canned.analyzer Canned.elsewhere)
                   ["Coverage Problems"%string] (-90) (-10) 0 (App.loaded [])
                   (snd (Canned.coverage_summary Canned.elsewhere))
                   eq_refl eq_refl)
                eq_refl eq_refl eq_refl).
Defined.

(** ** Throughput bottlenecks *)

(** C10. In a completed summary with Throughput Bottlenecks selected, the
    throughput pipeline returned a result on the table its block handed to
    it, and the table of root causes has a Throughput Bottlenecks row
    exactly when that result has [dl_bottleneck_areas > 5] or
    [ul_bottleneck_areas > 5], and then exactly one, built from that result;
    and in every completed summary each Throughput Bottlenecks row has
    Severity Medium, hence never High. *)
Theorem throughput_finding_is_medium :
  forall M analysis_types rsrp_threshold rsrq_threshold sinr_threshold g g',
    App.summary_tab M analysis_types rsrp_threshold rsrq_threshold sinr_threshold g
    = (Py.Returned tt, g') ->
    (Py.contains analysis_types "Throughput Bottlenecks" = true ->
     exists r,
       fst (App.analyze_throughput_bottlenecks M
              (at_throughput M analysis_types rsrp_threshold rsrq_threshold
                 sinr_threshold (App.df g))) = Py.Returned r
       /\ App.throughput_results g' = Some r /\
       let reported :=
         (5 < Throughput.dl_bottleneck_areas r
          \/ 5 < Throughput.ul_bottleneck_areas r)%Z in
       (reported ->
        exists row,
          App.rows_of "Throughput Bottlenecks" (App.root_causes g') = [row]
          /\ row = App.throughput_row r
          /\ Severity row = "Medium"%string)
       /\ (~ reported ->
           App.rows_of "Throughput Bottlenecks" (App.root_causes g') = []))
    /\
    (forall row,
       In row (App.root_causes g') ->
       Issue row = "Throughput Bottlenecks"%string ->
       Severity row = "Medium"%string /\ Severity row <> "High"%string).
Proof.
  intros M types a b c g g' Hrun.
  pose proof (summary_tab_calls _ _ _ _ _ _ _ Hrun) as (_ & _ & _ & Kt & _).
  pose proof (throughput_rows _ _ _ _ _ _ _ Hrun) as Hrows.
  split.
  - intros Hsel. destruct (Kt Hsel) as (r & Hcall & Hr). exists r.
    split; [exact Hcall|]. split; [exact Hr|].
    rewrite Hrows, Hsel, Hr. unfold emitted. cbn zeta. split.
    + intros Hreported.
      assert (Htest : ((5 <? Throughput.dl_bottleneck_areas r)%Z
                       || (5 <? Throughput.ul_bottleneck_areas r)%Z) = true).
      { apply orb_true_iff. rewrite !Z.ltb_lt. exact Hreported. }
      rewrite Htest. exists (App.throughput_row r).
      split; [reflexivity|]. split; reflexivity.
    + intros Hquiet.
      assert (Htest : ((5 <? Throughput.dl_bottleneck_areas r)%Z
                       || (5 <? Throughput.ul_bottleneck_areas r)%Z) = false).
      { apply not_true_is_false. intros Htrue. apply Hquiet.
        apply orb_true_iff in Htrue. rewrite !Z.ltb_lt in Htrue. exact Htrue. }
      rewrite Htest. reflexivity.
  - intros row Hin Hissue.
    pose proof (rows_of_In _ _ _ Hin Hissue) as Hrow.
    rewrite Hrows in Hrow.
    destruct (emitted_cases
                (Py.contains types "Throughput Bottlenecks")
                (App.throughput_results g')
                (fun r => (5 <? Throughput.dl_bottleneck_areas r)%Z
                          || (5 <? Throughput.ul_bottleneck_areas r)%Z)
                App.throughput_row) as [E | [r E]];
      rewrite E in Hrow.
    + destruct Hrow.
    + destruct Hrow as [<- | []]. split; [reflexivity | discriminate].
Qed.

Lemma throughput_finding_is_medium_witness :
  exists row,
    App.rows_of "Throughput Bottlenecks"
      (App.root_causes (snd (Canned.summary Canned.mixed))) = [row]
    /\ Description row
       = "Low throughput areas identified: 7 DL and 0 UL locations"%string
    /\ Severity row = "Medium"%string.
Proof.
  destruct (throughput_finding_is_medium
              (Canned.analyzer Canned.mixed) Canned.every_type (-105) (-15) 5
              (App.loaded []) (snd (Canned.summary Canned.mixed)) eq_refl)
    as [Hselected _].
  destruct (Hselected eq_refl) as (r & Hcall & _ & Hrow & _).
  injection Hcall as <-.
  destruct Hrow as (row & Hrows & Hshape & Hmedium); [left; reflexivity|].
  exists row. split; [exact Hrows|]. split; [|exact Hmedium].
  rewrite Hshape. reflexivity.
Defined.

(** * Properties of the analysis engine *)

(** ** Percentages and means are defined *)

Lemma of_nat_nonzero n : n <> O -> Qeq_bool (Analyzer.of_nat n) 0 = false.
Proof.
  intros Hn. apply not_true_is_false. intros H. apply Qeq_bool_iff in H.
  unfold Analyzer.of_nat, Qeq in H. cbn in H. lia.
Qed.

Lemma percentage_value part whole :
  Analyzer.percentage part whole
  = Some (if (whole =? 0)%nat then 0
          else Analyzer.of_nat part / Analyzer.of_nat whole * 100).
Proof.
  unfold Analyzer.percentage, Py.truediv.
  destruct (Nat.eqb_spec whole 0) as [->|Hn]; [reflexivity|].
  rewrite (of_nat_nonzero whole Hn). reflexivity.
Qed.

Lemma mean_value l :
  Analyzer.mean l
  = Some (if (length l =? 0)%nat then 0
          else Analyzer.total l / Analyzer.of_nat (length l)).
Proof.
  unfold Analyzer.mean, Py.truediv.
  destruct (Nat.eqb_spec (length l) 0) as [E|Hn]; [reflexivity|].
  rewrite (of_nat_nonzero _ Hn). reflexivity.
Qed.

Lemma for_each_returns {A B} (f : A -> option B) l :
  (forall a, exists b, f a = Some b) ->
  exists bs, Analyzer.for_each f l = Some bs.
Proof.
  intros Hf. induction l as [|a l IH]; cbn.
  - eexists; reflexivity.
  - destruct (Hf a) as [b ->]. destruct IH as [bs ->]. eexists; reflexivity.
Qed.

Lemma summarize_returns T problem members :
  exists area, Analyzer.summarize T problem members = Some area.
Proof.
  unfold Analyzer.summarize. rewrite !mean_value. eexists; reflexivity.
Qed.

Lemma cluster_returns T problem flagged :
  exists areas, Analyzer.cluster T problem flagged = Some areas.
Proof.
  unfold Analyzer.cluster. apply for_each_returns. apply summarize_returns.
Qed.

Lemma load_of_returns group : exists l, Analyzer.load_of group = Some l.
Proof.
  unfold Analyzer.load_of. rewrite mean_value. eexists; reflexivity.
Qed.

(** Every pipeline returns on every table. *)

Ltac returns_by_cases :=
  rewrite ?percentage_value, ?mean_value;
  repeat match goal with
    | |- context [Analyzer.cluster ?T ?p ?l] =>
        destruct (cluster_returns T p l) as [? ->]
    end;
  cbn iota beta; eexists; reflexivity.

Lemma analyze_rf_metrics_returns df a b c :
  exists r, Analyzer.analyze_rf_metrics df a b c = Some r.
Proof. unfold Analyzer.analyze_rf_metrics. returns_by_cases. Qed.

Lemma analyze_coverage_problems_returns T df a b :
  exists r, Analyzer.analyze_coverage_problems T df a b = Some r.
Proof. unfold Analyzer.analyze_coverage_problems. returns_by_cases. Qed.

Lemma analyze_interference_returns T df c :
  exists r, Analyzer.analyze_interference T df c = Some r.
Proof. unfold Analyzer.analyze_interference. returns_by_cases. Qed.

Lemma analyze_handover_failures_returns T df :
  exists r, Analyzer.analyze_handover_failures T df = Some r.
Proof.
  unfold Analyzer.analyze_handover_failures, Analyzer.handover_success_rate.
  returns_by_cases.
Qed.

Lemma analyze_throughput_bottlenecks_returns T df :
  exists r, Analyzer.analyze_throughput_bottlenecks T df = Some r.
Proof. unfold Analyzer.analyze_throughput_bottlenecks. returns_by_cases. Qed.

Lemma analyze_call_drops_returns T df :
  exists r, Analyzer.analyze_call_drops T df = Some r.
Proof. unfold Analyzer.analyze_call_drops. returns_by_cases. Qed.

Lemma analyze_cell_overloading_returns T df :
  exists r, Analyzer.analyze_cell_overloading T df = Some r.
Proof.
  unfold Analyzer.analyze_cell_overloading. rewrite mean_value.
  destruct (for_each_returns Analyzer.load_of (Analyzer.by_cell df)
              load_of_returns) as [loads ->].
  eexists; reflexivity.
Qed.

Lemma analyze_qos_issues_returns T df :
  exists r, Analyzer.analyze_qos_issues T df = Some r.
Proof. unfold Analyzer.analyze_qos_issues, Analyzer.share. returns_by_cases. Qed.

(** ** Handover success rate *)

(** C5. On every table, and for every marker vocabulary, the handover
    analysis returns a result (it does not raise) in which
    [total_handovers = successful_handovers + failed_handovers], and
    [handover_success_rate] is 0 when that total is 0 and otherwise exactly
    [successful / (successful + failed) * 100]. *)
Theorem handover_success_rate_is_defined :
  forall T df,
    exists r,
      Analyzer.analyze_handover_failures T df = Some r
      /\ let successful := Handover.successful_handovers r in
         let failed := Handover.failed_handovers r in
         (0 <= successful)%Z /\ (0 <= failed)%Z
         /\ Handover.total_handovers r = (successful + failed)%Z
         /\ (Handover.total_handovers r = 0%Z ->
             Handover.handover_success_rate r = 0)
         /\ (Handover.total_handovers r <> 0%Z ->
             Handover.handover_success_rate r
             = inject_Z successful / inject_Z (successful + failed) * 100).
Proof.
  intros T df.
  unfold Analyzer.analyze_handover_failures, Analyzer.handover_success_rate.
  rewrite percentage_value. eexists. split; [reflexivity|].
  cbn -[Nat.eqb Z.of_nat Qdiv Qmult Nat.add].
  set (successful :=
         Analyzer.count (Analyzer.ended Analyzer.Success)
           (Analyzer.reconstruct T Analyzer.HandoverAttempt df)).
  set (failed :=
         Analyzer.count (Analyzer.ended Analyzer.Failure)
           (Analyzer.reconstruct T Analyzer.HandoverAttempt df)).
  split; [lia|]. split; [lia|]. split; [lia|]. split.
  - intros Hzero.
    destruct (Nat.eqb_spec (successful + failed) 0) as [_|Hn]; [reflexivity|lia].
  - intros Hsome.
    destruct (Nat.eqb_spec (successful + failed) 0) as [E|_]; [lia|].
    unfold Analyzer.of_nat. rewrite Nat2Z.inj_add. reflexivity.
Qed.

Lemma handover_success_rate_is_defined_witness :
  exists r,
    Analyzer.analyze_handover_failures Survey.marked Survey.drive = Some r
    /\ Handover.total_handovers r = 2%Z
    /\ Handover.handover_success_rate r == 50.
Proof.
  destruct (handover_success_rate_is_defined Survey.marked Survey.drive)
    as (r & Hr & _ & _ & _ & _ & Hrate).
  exists r. split; [exact Hr|].
  injection Hr as <-. split; [reflexivity|].
  rewrite Hrate; [reflexivity | discriminate].
Defined.

(** ** Metric classifier *)

Lemma below_iff value threshold :
  Analyzer.below value threshold = true
  <-> exists x, value = Some x /\ x < inject_Z threshold.
Proof.
  unfold Analyzer.below. destruct value as [x|].
  - rewrite lt_true_iff. split.
    + intros H. exists x. split; [reflexivity | exact H].
    + intros (y & Hy & H). injection Hy as ->. exact H.
  - split; [discriminate|]. intros (y & Hy & _). discriminate.
Qed.

Lemma at_or_above_iff value threshold :
  Analyzer.at_or_above value threshold = true
  <-> exists x, value = Some x /\ inject_Z threshold <= x.
Proof.
  unfold Analyzer.at_or_above. destruct value as [x|].
  - rewrite ge_true_iff. split.
    + intros H. exists x. split; [reflexivity | exact H].
    + intros (y & Hy & H). injection Hy as ->. exact H.
  - split; [discriminate|]. intros (y & Hy & _). discriminate.
Qed.

(** The row [Survey.corrupted] is counted in both categories under the
    default thresholds. *)
Lemma corrupted_sample_is_flagged_twice :
  Analyzer.is_coverage_issue (-105) (-15) Survey.corrupted = true
  /\ Analyzer.is_interference_issue (-105) 5 Survey.corrupted = true.
Proof. split; reflexivity. Qed.

(** C6 (as amended). A sample is a coverage issue exactly when
    [RSRP < rsrp_threshold] or [RSRQ < rsrq_threshold], and an interference
    issue exactly when [SINR < sinr_threshold] and RSRP is at or above
    [rsrp_threshold].  It is counted in both categories exactly when RSRP is
    at or above its threshold while RSRQ and SINR are below theirs; a sample
    whose RSRP is below [rsrp_threshold] is never an interference issue. *)
Theorem classifier_categories :
  forall rsrp_threshold rsrq_threshold sinr_threshold s,
    (Analyzer.is_coverage_issue rsrp_threshold rsrq_threshold s = true
     <-> (exists p, RSRP s = Some p /\ p < inject_Z rsrp_threshold)
         \/ (exists q, RSRQ s = Some q /\ q < inject_Z rsrq_threshold))
    /\ (Analyzer.is_interference_issue rsrp_threshold sinr_threshold s = true
        <-> (exists x, SINR s = Some x /\ x < inject_Z sinr_threshold)
            /\ (exists p, RSRP s = Some p /\ inject_Z rsrp_threshold <= p))
    /\ (flagged_twice rsrp_threshold rsrq_threshold sinr_threshold s = true
        <-> (exists p, RSRP s = Some p /\ inject_Z rsrp_threshold <= p)
            /\ (exists q, RSRQ s = Some q /\ q < inject_Z rsrq_threshold)
            /\ (exists x, SINR s = Some x /\ x < inject_Z sinr_threshold))
    /\ ((exists p, RSRP s = Some p /\ p < inject_Z rsrp_threshold) ->
        Analyzer.is_interference_issue rsrp_threshold sinr_threshold s = false).
Proof.
  intros a b c s.
  assert (Hcov : Analyzer.is_coverage_issue a b s = true
                 <-> (exists p, RSRP s = Some p /\ p < inject_Z a)
                     \/ (exists q, RSRQ s = Some q /\ q < inject_Z b)).
  { unfold Analyzer.is_coverage_issue.
    rewrite orb_true_iff, !below_iff. reflexivity. }
  assert (Hint : Analyzer.is_interference_issue a c s = true
                 <-> (exists x, SINR s = Some x /\ x < inject_Z c)
                     /\ (exists p, RSRP s = Some p /\ inject_Z a <= p)).
  { unfold Analyzer.is_interference_issue.
    rewrite andb_true_iff, below_iff, at_or_above_iff. reflexivity. }
  assert (Hexcl : forall p p', RSRP s = Some p -> RSRP s = Some p' ->
                               p < inject_Z a -> inject_Z a <= p' -> False).
  { intros p p' Hp Hp' Hlt Hle. rewrite Hp in Hp'. injection Hp' as <-.
    exact (Qlt_not_le _ _ Hlt Hle). }
  split; [exact Hcov|]. split; [exact Hint|]. split.
  - unfold flagged_twice. rewrite andb_true_iff, Hcov, Hint. split.
    + intros [[(p & Hp & Hlow) | Hq] (Hx & (p' & Hp' & Hhigh))].
      * exfalso. exact (Hexcl _ _ Hp Hp' Hlow Hhigh).
      * repeat split; [exists p'; split|..]; assumption.
    + intros (Hp & Hq & Hx). split; [right; exact Hq | split; assumption].
  - intros (p & Hp & Hlow). apply not_true_is_false. intros Htrue.
    apply Hint in Htrue. destruct Htrue as (_ & (p' & Hp' & Hhigh)).
    exact (Hexcl _ _ Hp Hp' Hlow Hhigh).
Qed.

Lemma classifier_categories_witness :
  Analyzer.is_interference_issue (-105) 5 Survey.weak = false.
Proof.
  apply (classifier_categories (-105) (-15) 5 Survey.weak).
  exists (-110). split; reflexivity.
Defined.

(** ** RF percentages *)

Lemma count_le {A} (p : A -> bool) l : (Analyzer.count p l <= length l)%nat.
Proof. unfold Analyzer.count. apply filter_length_le. Qed.

Lemma count_cons {A} (p : A -> bool) x l :
  Analyzer.count p (x :: l)
  = ((if p x then 1 else 0) + Analyzer.count p l)%nat.
Proof. unfold Analyzer.count. cbn. destruct (p x); reflexivity. Qed.

(** Coverage, interference and good samples cover the population, the
    samples flagged twice being counted twice. *)
Lemma categories_cover a b c population :
  (Analyzer.count (Analyzer.is_coverage_issue a b) population
   + Analyzer.count (Analyzer.is_interference_issue a c) population
   + Analyzer.count (Analyzer.is_good_rf a b c) population
   = length population + Analyzer.count (flagged_twice a b c) population)%nat.
Proof.
  induction population as [|s l IH]; [reflexivity|].
  rewrite !count_cons. cbn [length].
  replace (Analyzer.is_good_rf a b c s)
    with (negb (Analyzer.is_coverage_issue a b s)
          && negb (Analyzer.is_interference_issue a c s)) by reflexivity.
  replace (flagged_twice a b c s)
    with (Analyzer.is_coverage_issue a b s
          && Analyzer.is_interference_issue a c s) by reflexivity.
  destruct (Analyzer.is_coverage_issue a b s),
    (Analyzer.is_interference_issue a c s); cbn [negb andb]; lia.
Qed.

Lemma coverage_and_good_disjoint a b c population :
  (Analyzer.count (Analyzer.is_coverage_issue a b) population
   + Analyzer.count (Analyzer.is_good_rf a b c) population
   <= length population)%nat.
Proof.
  induction population as [|s l IH]; [cbn; lia|].
  rewrite !count_cons. cbn [length].
  replace (Analyzer.is_good_rf a b c s)
    with (negb (Analyzer.is_coverage_issue a b s)
          && negb (Analyzer.is_interference_issue a c s)) by reflexivity.
  destruct (Analyzer.is_coverage_issue a b s),
    (Analyzer.is_interference_issue a c s); cbn [negb andb]; lia.
Qed.

Lemma count_none {A} (p : A -> bool) l :
  (forall x, In x l -> p x = false) -> Analyzer.count p l = O.
Proof.
  intros H. induction l as [|x l IH]; [reflexivity|].
  rewrite count_cons, (H x (or_introl eq_refl)), IH; [reflexivity|].
  intros y Hy. apply H. right. exact Hy.
Qed.

Section Ratio.

Variable whole : nat.
Hypothesis populated : whole <> O.

Let pct (part : nat) : Q := Analyzer.of_nat part / Analyzer.of_nat whole * 100.

Lemma whole_positive : 0 < Analyzer.of_nat whole.
Proof.
  unfold Analyzer.of_nat. replace 0 with (inject_Z 0) by reflexivity.
  rewrite <- Zlt_Qlt. lia.
Qed.

Lemma whole_nonzero : ~ Analyzer.of_nat whole == 0.
Proof.
  intros H. pose proof whole_positive as Hpos. rewrite H in Hpos.
  exact (Qlt_irrefl _ Hpos).
Qed.

Lemma pct_nonneg part : 0 <= pct part.
Proof.
  unfold pct. apply Qmult_le_0_compat; [|discriminate].
  apply Qle_shift_div_l; [exact whole_positive|].
  rewrite Qmult_0_l. unfold Analyzer.of_nat.
  replace 0 with (inject_Z 0) by reflexivity. rewrite <- Zle_Qle. lia.
Qed.

Lemma pct_plus part1 part2 : pct part1 + pct part2 == pct (part1 + part2).
Proof.
  unfold pct, Analyzer.of_nat. rewrite Nat2Z.inj_add, inject_Z_plus.
  field. exact whole_nonzero.
Qed.

Lemma pct_whole : pct whole == 100.
Proof. unfold pct. field. exact whole_nonzero. Qed.

Lemma pct_mono part1 part2 : (part1 <= part2)%nat -> pct part1 <= pct part2.
Proof.
  intros Hle. unfold pct.
  apply Qmult_le_compat_r; [|discriminate].
  apply Qmult_le_compat_r.
  - unfold Analyzer.of_nat. rewrite <- Zle_Qle. lia.
  - apply Qlt_le_weak. apply Qinv_lt_0_compat. exact whole_positive.
Qed.

Lemma pct_le_hundred part : (part <= whole)%nat -> pct part <= 100.
Proof.
  intros Hle. rewrite <- pct_whole. apply pct_mono. exact Hle.
Qed.

End Ratio.

(** One row flagged twice gives 100 + 100 + 0, and the empty table
    0 + 0 + 0: neither sum is 100. *)
Lemma rf_percentages_need_not_sum_to_hundred :
  Analyzer.analyze_rf_metrics [Survey.corrupted] (-105) (-15) 5
  = Some {| Rf.coverage_issues_pct := 100;
            Rf.interference_issues_pct := 100;
            Rf.good_rf_pct := 0 |}
  /\ ~ 100 + 100 + 0 == 100
  /\ Analyzer.analyze_rf_metrics [] (-105) (-15) 5
     = Some {| Rf.coverage_issues_pct := 0;
               Rf.interference_issues_pct := 0;
               Rf.good_rf_pct := 0 |}
  /\ ~ 0 + 0 + 0 == 100.
Proof.
  split; [reflexivity|]. split; [discriminate|].
  split; [reflexivity|]. discriminate.
Qed.

(** C7 (as amended). For every table and every choice of the three
    thresholds the RF analysis returns [coverage_issues_pct] and
    [good_rf_pct] each in [0, 100] with a sum of at most 100.  Over a
    non-empty non-missing population the three percentages sum to 100 plus
    the percentage of samples flagged both coverage and interference, hence
    to exactly 100 when no sample is flagged twice; over an empty population
    all three are 0. *)
Theorem rf_percentages :
  forall df rsrp_threshold rsrq_threshold sinr_threshold,
    exists r,
      Analyzer.analyze_rf_metrics df rsrp_threshold rsrq_threshold sinr_threshold
      = Some r
      /\ let population := Analyzer.rf_population df in
         let twice :=
           Analyzer.count
             (flagged_twice rsrp_threshold rsrq_threshold sinr_threshold)
             population in
         (0 <= Rf.coverage_issues_pct r /\ Rf.coverage_issues_pct r <= 100)
         /\ (0 <= Rf.good_rf_pct r /\ Rf.good_rf_pct r <= 100)
         /\ Rf.coverage_issues_pct r + Rf.good_rf_pct r <= 100
         /\ (population = [] ->
             Rf.coverage_issues_pct r = 0
             /\ Rf.interference_issues_pct r = 0
             /\ Rf.good_rf_pct r = 0)
         /\ (population <> [] ->
             Rf.coverage_issues_pct r + Rf.interference_issues_pct r
             + Rf.good_rf_pct r
             == 100 + Analyzer.of_nat twice
                      / Analyzer.of_nat (length population) * 100)
         /\ (population <> [] ->
             (forall s, In s population ->
                flagged_twice rsrp_threshold rsrq_threshold sinr_threshold s
                = false) ->
             Rf.coverage_issues_pct r + Rf.interference_issues_pct r
             + Rf.good_rf_pct r == 100).
Proof.
  intros df a b c. unfold Analyzer.analyze_rf_metrics.
  rewrite !percentage_value. eexists. split; [reflexivity|].
  cbn [Rf.coverage_issues_pct Rf.interference_issues_pct Rf.good_rf_pct].
  set (population := Analyzer.rf_population df).
  pose proof (categories_cover a b c population) as Hcover.
  pose proof (coverage_and_good_disjoint a b c population) as Hdisjoint.
  cbn zeta.
  destruct (Nat.eqb_spec (length population) 0) as [Hempty | Hsome].
  - apply length_zero_iff_nil in Hempty.
    repeat split; try discriminate; intros Hne; contradiction.
  - assert (Hsum :
      Analyzer.of_nat (Analyzer.count (Analyzer.is_coverage_issue a b) population)
        / Analyzer.of_nat (length population) * 100
      + Analyzer.of_nat
          (Analyzer.count (Analyzer.is_interference_issue a c) population)
        / Analyzer.of_nat (length population) * 100
      + Analyzer.of_nat (Analyzer.count (Analyzer.is_good_rf a b c) population)
        / Analyzer.of_nat (length population) * 100
      == 100
         + Analyzer.of_nat (Analyzer.count (flagged_twice a b c) population)
           / Analyzer.of_nat (length population) * 100).
    { rewrite !(pct_plus _ Hsome), Hcover, <- (pct_plus _ Hsome).
      rewrite (pct_whole _ Hsome). reflexivity. }
    split; [split; [apply (pct_nonneg _ Hsome) | apply (pct_le_hundred _ Hsome);
                                               apply count_le]|].
    split; [split; [apply (pct_nonneg _ Hsome) | apply (pct_le_hundred _ Hsome);
                                               apply count_le]|].
    split; [rewrite (pct_plus _ Hsome); apply (pct_le_hundred _ Hsome);
            exact Hdisjoint|].
    split; [intros Hnil; rewrite Hnil in Hsome; cbn in Hsome; lia|].
    split; [intros _; exact Hsum|].
    intros _ Hnone. rewrite Hsum, (count_none _ _ Hnone).
    unfold Analyzer.of_nat at 1. cbn [Z.of_nat]. field.
    exact (whole_nonzero _ Hsome).
Qed.

Lemma rf_percentages_witness :
  exists r,
    Analyzer.analyze_rf_metrics [Survey.weak; Survey.healthy] (-105) (-15) 5
    = Some r
    /\ Rf.coverage_issues_pct r + Rf.interference_issues_pct r
       + Rf.good_rf_pct r == 100.
Proof.
  destruct (rf_percentages [Survey.weak; Survey.healthy] (-105) (-15) 5)
    as (r & Hr & _ & _ & _ & _ & _ & Hsum).
  exists r. split; [exact Hr|]. apply Hsum.
  - discriminate.
  - intros s [<- | [<- | []]]; reflexivity.
Defined.

(** ** Empty input *)

(** C8. On the empty table every pipeline returns a result (none raises),
    for every choice of thresholds and of the engine's constants: all
    percentages and rates are 0, all counts are 0 and every sequence of
    problem areas, overloaded cells and mismatches is empty. *)
Theorem empty_table_results :
  forall T rsrp_threshold rsrq_threshold sinr_threshold,
    Analyzer.analyze_rf_metrics [] rsrp_threshold rsrq_threshold sinr_threshold
    = Some {| Rf.coverage_issues_pct := 0;
              Rf.interference_issues_pct := 0;
              Rf.good_rf_pct := 0 |}
    /\ Analyzer.analyze_coverage_problems T [] rsrp_threshold rsrq_threshold
       = Some {| Coverage.coverage_issues_pct := 0;
                 Coverage.critical_areas := 0;
                 Coverage.problem_areas := [] |}
    /\ Analyzer.analyze_interference T [] sinr_threshold
       = Some {| Interference.interference_issues_pct := 0;
                 Interference.high_interference_areas := 0;
                 Interference.problem_areas := [] |}
    /\ Analyzer.analyze_handover_failures T []
       = Some {| Handover.total_handovers := 0;
                 Handover.successful_handovers := 0;
                 Handover.failed_handovers := 0;
                 Handover.handover_success_rate := 0;
                 Handover.failure_causes := [] |}
    /\ Analyzer.analyze_throughput_bottlenecks T []
       = Some {| Throughput.avg_dl_throughput := 0;
                 Throughput.avg_ul_throughput := 0;
                 Throughput.peak_dl_throughput := 0;
                 Throughput.peak_ul_throughput := 0;
                 Throughput.dl_bottleneck_areas := 0;
                 Throughput.ul_bottleneck_areas := 0;
                 Throughput.bottleneck_causes := [] |}
    /\ Analyzer.analyze_call_drops T []
       = Some {| CallDrop.total_calls := 0;
                 CallDrop.completed_calls := 0;
                 CallDrop.dropped_calls := 0;
                 CallDrop.call_drop_rate := 0;
                 CallDrop.drop_causes := [] |}
    /\ Analyzer.analyze_cell_overloading T []
       = Some {| Overloading.overloaded_cells := [] |}
    /\ Analyzer.analyze_parameter_mismatches T []
       = Some {| Mismatch.mismatches := [] |}
    /\ Analyzer.analyze_qos_issues T []
       = Some {| Qos.volte_mos_issues_pct := 0; Qos.qci_issues_pct := 0 |}
    /\ Analyzer.analyze_idle_connected_mode_failures T []
       = Some {| IdleConnected.failed_transitions := 0;
                 IdleConnected.unresolved_transitions := 0;
                 IdleConnected.failure_categories := [] |}.
Proof.
  intros T a b c. repeat split; reflexivity.
Qed.

(** ** The table is read-only *)

Lemma bind_then (c k : App.script unit) g :
  fst (c g) = Py.Returned tt -> App.bind c (fun _ => k) g = k (snd (c g)).
Proof.
  unfold App.bind. destruct (c g) as [[[]|?] g1]; cbn; [reflexivity|discriminate].
Qed.

Lemma quiet_then_quiet c k : quiet c -> quiet k -> quiet (App.bind c (fun _ => k)).
Proof.
  intros Hc Hk g. destruct (Hc g) as (Hdone & Hdf & Hcov).
  rewrite (bind_then c k g Hdone).
  destruct (Hk (snd (c g))) as (Hdone' & Hdf' & Hcov').
  repeat split; congruence.
Qed.

Lemma quiet_then_refreshing fresh sel c k :
  quiet c -> refreshing fresh sel k -> refreshing fresh sel (App.bind c (fun _ => k)).
Proof.
  intros Hc Hk g. destruct (Hc g) as (Hdone & Hdf & Hcov).
  rewrite (bind_then c k g Hdone).
  destruct (Hk (snd (c g))) as (Hdone' & Hdf' & Hcov').
  split; [exact Hdone'|]. split; [congruence|].
  rewrite Hcov', Hdf, Hcov. reflexivity.
Qed.

Lemma refreshing_then_quiet fresh sel c k :
  refreshing fresh sel c -> quiet k -> refreshing fresh sel (App.bind c (fun _ => k)).
Proof.
  intros Hc Hk g. destruct (Hc g) as (Hdone & Hdf & Hcov).
  rewrite (bind_then c k g Hdone).
  destruct (Hk (snd (c g))) as (Hdone' & Hdf' & Hcov').
  split; [exact Hdone'|]. split; [congruence|].
  rewrite Hcov', Hcov. reflexivity.
Qed.

Lemma refreshing_is_quiet_on_table fresh sel c g :
  refreshing fresh sel c -> fst (c g) = Py.Returned tt /\ App.df (snd (c g)) = App.df g.
Proof. intros Hc. destruct (Hc g) as (Hdone & Hdf & _). split; assumption. Qed.

Ltac engine_step :=
  match goal with
  | E : ?call = Some _ |- context [?call] => rewrite E
  | |- context [Analyzer.analyze_rf_metrics ?t ?a ?b ?c] =>
      destruct (analyze_rf_metrics_returns t a b c) as [? ?]
  | |- context [Analyzer.analyze_coverage_problems ?T ?t ?a ?b] =>
      destruct (analyze_coverage_problems_returns T t a b) as [? ?]
  | |- context [Analyzer.analyze_interference ?T ?t ?c] =>
      destruct (analyze_interference_returns T t c) as [? ?]
  | |- context [Analyzer.analyze_handover_failures ?T ?t] =>
      destruct (analyze_handover_failures_returns T t) as [? ?]
  | |- context [Analyzer.analyze_throughput_bottlenecks ?T ?t] =>
      destruct (analyze_throughput_bottlenecks_returns T t) as [? ?]
  | |- context [Analyzer.analyze_call_drops ?T ?t] =>
      destruct (analyze_call_drops_returns T t) as [? ?]
  | |- context [Analyzer.analyze_cell_overloading ?T ?t] =>
      destruct (analyze_cell_overloading_returns T t) as [? ?]
  | |- context [Analyzer.analyze_qos_issues ?T ?t] =>
      destruct (analyze_qos_issues_returns T t) as [? ?]
  | |- context [if ?b then _ else _] => destruct b eqn:?
  end.

Ltac engine_simpl :=
  cbn [App.analyze_rf_metrics App.analyze_coverage_problems
       App.analyze_interference App.analyze_handover_failures
       App.analyze_throughput_bottlenecks App.analyze_call_drops
       App.analyze_cell_overloading App.analyze_qos_issues Analyzer.engine
       Analyzer.pure_call fst snd App.df App.coverage_results App.set_df
       App.set_rf_results App.set_coverage_results
       App.set_interference_results App.set_handover_results
       App.set_throughput_results App.set_call_drop_results
       App.set_qos_results App.set_overloading_results App.set_root_causes].

(** Runs a block over the engine, case by case. *)
Ltac engine_run :=
  unfold App.when, App.bind, App.invoke, App.assign, App.skip, App.ret,
    App.root_causes_append, App.try_except;
  engine_simpl;
  repeat (engine_step; engine_simpl);
  repeat split; try reflexivity; try congruence.

Section EngineRuns.

Variable T : Analyzer.Tuning.
Variable analysis_types : list string.
Variables rsrp_threshold rsrq_threshold sinr_threshold : Z.

Let M := Analyzer.engine T.
Let fresh (t : DataFrame) :=
  Analyzer.analyze_coverage_problems T t rsrp_threshold rsrq_threshold.
Let coverage := Py.contains analysis_types "Coverage Problems".

Lemma rf_tab_refreshing :
  refreshing fresh coverage
    (App.rf_tab M analysis_types rsrp_threshold rsrq_threshold sinr_threshold).
Proof. intros g. unfold M, fresh, coverage, App.rf_tab. engine_run. Qed.

Lemma handover_tab_quiet : quiet (App.handover_tab M analysis_types).
Proof. intros g. unfold M, App.handover_tab. engine_run. Qed.

Lemma throughput_tab_quiet : quiet (App.throughput_tab M analysis_types).
Proof. intros g. unfold M, App.throughput_tab. engine_run. Qed.

Lemma call_quality_tab_quiet : quiet (App.call_quality_tab M analysis_types).
Proof. intros g. unfold M, App.call_quality_tab. cbn zeta. engine_run. Qed.

Lemma summary_coverage_refreshing :
  refreshing fresh coverage
    (App.summary_coverage M analysis_types rsrp_threshold rsrq_threshold).
Proof. intros g. unfold M, fresh, coverage, App.summary_coverage. engine_run. Qed.

Lemma summary_interference_quiet :
  quiet (App.summary_interference M analysis_types sinr_threshold).
Proof. intros g. unfold M, App.summary_interference. engine_run. Qed.

Lemma summary_handover_quiet : quiet (App.summary_handover M analysis_types).
Proof. intros g. unfold M, App.summary_handover. engine_run. Qed.

Lemma summary_throughput_quiet : quiet (App.summary_throughput M analysis_types).
Proof. intros g. unfold M, App.summary_throughput. engine_run. Qed.

Lemma summary_call_drops_quiet : quiet (App.summary_call_drops M analysis_types).
Proof. intros g. unfold M, App.summary_call_drops. engine_run. Qed.

Lemma summary_tab_refreshing :
  refreshing fresh coverage
    (App.summary_tab M analysis_types rsrp_threshold rsrq_threshold sinr_threshold).
Proof.
  unfold App.summary_tab.
  apply quiet_then_refreshing; [intros g; engine_run|].
  apply refreshing_then_quiet; [exact summary_coverage_refreshing|].
  apply quiet_then_quiet; [exact summary_interference_quiet|].
  apply quiet_then_quiet; [exact summary_handover_quiet|].
  apply quiet_then_quiet; [exact summary_throughput_quiet|].
  exact summary_call_drops_quiet.
Qed.

Lemma database_tab_refreshing :
  refreshing fresh coverage
    (App.database_tab M analysis_types rsrp_threshold rsrq_threshold sinr_threshold
       true).
Proof. intros g. unfold M, fresh, coverage, App.database_tab. engine_run. Qed.

Lemma database_tab_idle :
  quiet
    (App.database_tab M analysis_types rsrp_threshold rsrq_threshold sinr_threshold
       false).
Proof. intros g. unfold App.database_tab. engine_run. Qed.

End EngineRuns.

(** The states a report passes through, tab by tab, over the engine. *)
Lemma report_over_engine T analysis_types rsrp_threshold rsrq_threshold
    sinr_threshold save g :
  let M := Analyzer.engine T in
  let g1 := snd (App.rf_tab M analysis_types rsrp_threshold rsrq_threshold
                   sinr_threshold g) in
  let g2 := snd (App.handover_tab M analysis_types g1) in
  let g3 := snd (App.throughput_tab M analysis_types g2) in
  let g4 := snd (App.call_quality_tab M analysis_types g3) in
  let g5 := snd (App.summary_tab M analysis_types rsrp_threshold rsrq_threshold
                   sinr_threshold g4) in
  let g6 := snd (App.database_tab M analysis_types rsrp_threshold rsrq_threshold
                   sinr_threshold save g5) in
  App.report M analysis_types rsrp_threshold rsrq_threshold sinr_threshold save g
  = (Py.Returned tt, g6)
  /\ App.df g1 = App.df g /\ App.df g4 = App.df g /\ App.df g5 = App.df g
  /\ App.df g6 = App.df g.
Proof.
  intros M g1 g2 g3 g4 g5 g6.
  destruct (rf_tab_refreshing T analysis_types rsrp_threshold rsrq_threshold
              sinr_threshold g) as (D1 & F1 & _).
  destruct (handover_tab_quiet T analysis_types g1) as (D2 & F2 & _).
  destruct (throughput_tab_quiet T analysis_types g2) as (D3 & F3 & _).
  destruct (call_quality_tab_quiet T analysis_types g3) as (D4 & F4 & _).
  destruct (summary_tab_refreshing T analysis_types rsrp_threshold rsrq_threshold
              sinr_threshold g4) as (D5 & F5 & _).
  assert (D6 : fst (App.database_tab M analysis_types rsrp_threshold
                      rsrq_threshold sinr_threshold save g5) = Py.Returned tt
               /\ App.df g6 = App.df g5).
  { destruct save.
    - destruct (database_tab_refreshing T analysis_types rsrp_threshold
                  rsrq_threshold sinr_threshold g5) as (D & F & _).
      split; assumption.
    - destruct (database_tab_idle T analysis_types rsrp_threshold
                  rsrq_threshold sinr_threshold g5) as (D & F & _).
      split; assumption. }
  destruct D6 as (D6 & F6).
  split.
  - unfold App.report.
    rewrite (bind_then _ _ _ D1). fold g1.
    rewrite (bind_then _ _ _ D2). fold g2.
    rewrite (bind_then _ _ _ D3). fold g3.
    rewrite (bind_then _ _ _ D4). fold g4.
    rewrite (bind_then _ _ _ D5). fold g5.
    rewrite (surjective_pairing (App.database_tab _ _ _ _ _ _ g5)).
    fold g6. rewrite D6. reflexivity.
  - assert (E1 : App.df g1 = App.df g) by exact F1.
    assert (E2 : App.df g2 = App.df g1) by exact F2.
    assert (E3 : App.df g3 = App.df g2) by exact F3.
    assert (E4 : App.df g4 = App.df g3) by exact F4.
    assert (E5 : App.df g5 = App.df g4) by exact F5.
    clear - E1 E2 E3 E4 E5 F6. repeat split; congruence.
Qed.

(** C9. Over the engine, every [analyze_*] call leaves the table equal to
    what it was before the call.  A report therefore completes with the
    table it started from, and with Coverage Problems selected the three
    invocations of [analyze_coverage_problems] (RF tab, summary tab and
    database save) return the same result, the analysis of that table under
    the given thresholds. *)
Theorem table_is_read_only :
  forall T analysis_types rsrp_threshold rsrq_threshold sinr_threshold t,
    let M := Analyzer.engine T in
    (forall df a b c,
        snd (App.analyze_coverage_problems M df a b) = df
        /\ snd (App.analyze_interference M df c) = df
        /\ snd (App.analyze_handover_failures M df) = df
        /\ snd (App.analyze_throughput_bottlenecks M df) = df
        /\ snd (App.analyze_call_drops M df) = df
        /\ snd (App.analyze_cell_overloading M df) = df
        /\ snd (App.analyze_parameter_mismatches M df) = df
        /\ snd (App.analyze_qos_issues M df) = df
        /\ snd (App.analyze_rf_metrics M df a b c) = df
        /\ snd (App.analyze_idle_connected_mode_failures M df) = df)
    /\ (forall save,
          let run := App.report M analysis_types rsrp_threshold rsrq_threshold
                       sinr_threshold save (App.loaded t) in
          fst run = Py.Returned tt /\ App.df (snd run) = t)
    /\ (Py.contains analysis_types "Coverage Problems" = true ->
        let g1 := snd (App.rf_tab M analysis_types rsrp_threshold rsrq_threshold
                         sinr_threshold (App.loaded t)) in
        let g2 := snd (App.handover_tab M analysis_types g1) in
        let g3 := snd (App.throughput_tab M analysis_types g2) in
        let g4 := snd (App.call_quality_tab M analysis_types g3) in
        let g5 := snd (App.summary_tab M analysis_types rsrp_threshold
                         rsrq_threshold sinr_threshold g4) in
        let g6 := snd (App.database_tab M analysis_types rsrp_threshold
                         rsrq_threshold sinr_threshold true g5) in
        App.report M analysis_types rsrp_threshold rsrq_threshold sinr_threshold
          true (App.loaded t)
        = (Py.Returned tt, g6)
        /\ exists r,
             Analyzer.analyze_coverage_problems T t rsrp_threshold rsrq_threshold
             = Some r
             /\ App.coverage_results g1 = Some r
             /\ App.coverage_results g5 = Some r
             /\ App.coverage_results g6 = Some r).
Proof.
  intros T types a b c t M. split; [|split].
  - intros df a' b' c'. repeat split.
  - intros save. cbn zeta.
    destruct (report_over_engine T types a b c save (App.loaded t))
      as (Hrun & _ & _ & _ & Hdf).
    fold M in Hrun. rewrite Hrun. split; [reflexivity | exact Hdf].
  - intros Hsel g1 g2 g3 g4 g5 g6.
    destruct (report_over_engine T types a b c true (App.loaded t))
      as (Hrun & F1 & F4 & F5 & _).
    split; [exact Hrun|].
    destruct (analyze_coverage_problems_returns T t a b) as [r Hr].
    exists r. split; [exact Hr|].
    destruct (rf_tab_refreshing T types a b c (App.loaded t)) as (_ & _ & C1).
    destruct (summary_tab_refreshing T types a b c g4) as (_ & _ & C5).
    destruct (database_tab_refreshing T types a b c g5) as (_ & _ & C6).
    rewrite Hsel in C1, C5, C6.
    assert (E4 : App.df g4 = t) by exact F4.
    assert (E5 : App.df g5 = t) by exact F5.
    rewrite E4 in C5. rewrite E5 in C6. cbn [App.df App.loaded] in C1.
    rewrite Hr in C1, C5, C6.
    split; [exact C1|]. split; [exact C5 | exact C6].
Qed.

Lemma table_is_read_only_witness :
  exists r,
    Analyzer.analyze_coverage_problems Survey.plain Survey.drive (-105) (-15)
    = Some r
    /\ App.coverage_results Survey.after_rf = Some r
    /\ App.coverage_results Survey.after_summary = Some r
    /\ App.coverage_results Survey.after_save = Some r.
Proof.
  destruct (table_is_read_only Survey.plain Canned.every_type (-105) (-15) 5
              Survey.drive) as (_ & _ & Hcalls).
  destruct (Hcalls eq_refl) as (_ & r & Hr & Hrf & Hsummary & Hsave).
  exists r.
  unfold Survey.after_save, Survey.after_summary, Survey.before_summary,
    Survey.after_rf.
  split; [exact Hr|]. split; [exact Hrf|]. split; [exact Hsummary | exact Hsave].
Defined.

(** * Further properties of the script *)

(** ** The remaining escalation rules *)

(** X1. In a completed summary with Handover Failures selected, the
    handover pipeline returned a result on the table its block handed to it,
    and the table of root causes has a Handover Failures row exactly when
    the [handover_success_rate] of that result is below 95; the row is then
    the only one of its issue, with Severity High when the rate is below 90
    and Medium otherwise.  A rate of exactly 95 is not reported. *)
Theorem handover_escalation :
  forall M analysis_types rsrp_threshold rsrq_threshold sinr_threshold g g',
    App.summary_tab M analysis_types rsrp_threshold rsrq_threshold sinr_threshold g
    = (Py.Returned tt, g') ->
    Py.contains analysis_types "Handover Failures" = true ->
    exists r,
      fst (App.analyze_handover_failures M
             (at_handover M analysis_types rsrp_threshold rsrq_threshold
                sinr_threshold (App.df g))) = Py.Returned r
      /\ App.handover_results g' = Some r /\
      let rate := Handover.handover_success_rate r in
      (rate < 95 ->
       exists row,
         App.rows_of "Handover Failures" (App.root_causes g') = [row]
         /\ (rate < 90 -> Severity row = "High"%string)
         /\ (~ rate < 90 -> Severity row = "Medium"%string))
      /\ (~ rate < 95 ->
          App.rows_of "Handover Failures" (App.root_causes g') = [])
      /\ (rate == 95 ->
          App.rows_of "Handover Failures" (App.root_causes g') = []).
Proof.
  intros M types a b c g g' Hrun Hsel.
  pose proof (summary_tab_calls _ _ _ _ _ _ _ Hrun) as (_ & _ & Kh & _).
  destruct (Kh Hsel) as (r & Hcall & Hr). exists r.
  split; [exact Hcall|]. split; [exact Hr|].
  rewrite (handover_rows _ _ _ _ _ _ _ Hrun), Hsel, Hr. unfold emitted.
  cbn zeta.
  assert (Hquiet : ~ Handover.handover_success_rate r < 95 ->
                   (if Py.lt (Handover.handover_success_rate r) 95
                    then [App.handover_row r] else []) = []).
  { intros Hge. apply lt_fails_iff in Hge. rewrite Hge. reflexivity. }
  split; [|split; [exact Hquiet|]].
  - intros Hlt. apply lt_true_iff in Hlt. rewrite Hlt.
    exists (App.handover_row r). split; [reflexivity|]. cbn. split.
    + intros H90. apply lt_true_iff in H90. rewrite H90. reflexivity.
    + intros H90. apply lt_fails_iff in H90. rewrite H90. reflexivity.
  - intros Heq. apply Hquiet. rewrite Heq. apply Qlt_irrefl.
Qed.

Lemma handover_escalation_witness :
  App.rows_of "Handover Failures"
    (App.root_causes (snd (Canned.summary Canned.mixed))) = []
  /\ exists row,
       App.rows_of "Handover Failures"
         (App.root_causes (snd (Canned.summary Canned.elsewhere))) = [row]
       /\ Severity row = "High"%string.
Proof.
  split.
  - destruct (handover_escalation
                (Canned.analyzer Canned.mixed) Canned.every_type (-105) (-15) 5
                (App.loaded []) (snd (Canned.summary Canned.mixed))
                eq_refl eq_refl) as (r & Hcall & _ & _ & Hquiet & _).
    injection Hcall as <-. apply Hquiet. discriminate.
  - destruct (handover_escalation
                (Canned.analyzer Canned.elsewhere) Canned.every_type
                (-105) (-15) 5
                (App.loaded []) (snd (Canned.summary Canned.elsewhere))
                eq_refl eq_refl) as (r & Hcall & _ & Hrow & _).
    injection Hcall as <-.
    destruct (Hrow eq_refl) as (row & Hrows & Hhigh & _).
    exists row. split; [exact Hrows|]. apply Hhigh. reflexivity.
Defined.

(** X2. In a completed summary with Call Drops selected, the call-drop
    pipeline returned a result on the table its block handed to it, and the
    table of root causes has a Call Drops row exactly when the
    [call_drop_rate] of that result exceeds 2; the row is then the only one
    of its issue, with Severity High when the rate exceeds 5 and Medium
    otherwise.  A rate of exactly 2 is not reported. *)
Theorem call_drop_escalation :
  forall M analysis_types rsrp_threshold rsrq_threshold sinr_threshold g g',
    App.summary_tab M analysis_types rsrp_threshold rsrq_threshold sinr_threshold g
    = (Py.Returned tt, g') ->
    Py.contains analysis_types "Call Drops" = true ->
    exists r,
      fst (App.analyze_call_drops M
             (at_call_drops M analysis_types rsrp_threshold rsrq_threshold
                sinr_threshold (App.df g))) = Py.Returned r
      /\ App.call_drop_results g' = Some r /\
      let rate := CallDrop.call_drop_rate r in
      (2 < rate ->
       exists row,
         App.rows_of "Call Drops" (App.root_causes g') = [row]
         /\ (5 < rate -> Severity row = "High"%string)
         /\ (~ 5 < rate -> Severity row = "Medium"%string))
      /\ (~ 2 < rate -> App.rows_of "Call Drops" (App.root_causes g') = [])
      /\ (rate == 2 -> App.rows_of "Call Drops" (App.root_causes g') = []).
Proof.
  intros M types a b c g g' Hrun Hsel.
  pose proof (summary_tab_calls _ _ _ _ _ _ _ Hrun) as (_ & _ & _ & _ & Kd & _).
  destruct (Kd Hsel) as (r & Hcall & Hr). exists r.
  split; [exact Hcall|]. split; [exact Hr|].
  rewrite (call_drop_rows _ _ _ _ _ _ _ Hrun), Hsel, Hr. unfold emitted.
  cbn zeta.
  assert (Hquiet : ~ 2 < CallDrop.call_drop_rate r ->
                   (if Py.gt (CallDrop.call_drop_rate r) 2
                    then [App.call_drop_row r] else []) = []).
  { intros Hle. apply gt_fails_iff in Hle. rewrite Hle. reflexivity. }
  split; [|split; [exact Hquiet|]].
  - intros Hgt. apply gt_true_iff in Hgt. rewrite Hgt.
    exists (App.call_drop_row r). split; [reflexivity|]. cbn. split.
    + intros H5. apply gt_true_iff in H5. rewrite H5. reflexivity.
    + intros H5. apply gt_fails_iff in H5. rewrite H5. reflexivity.
  - intros Heq. apply Hquiet. rewrite Heq. apply Qlt_irrefl.
Qed.

Lemma call_drop_escalation_witness :
  App.rows_of "Call Drops"
    (App.root_causes (snd (Canned.summary Canned.quiet))) = []
  /\ exists row,
       App.rows_of "Call Drops"
         (App.root_causes (snd (Canned.summary Canned.mixed))) = [row]
       /\ Severity row = "High"%string.
Proof.
  split.
  - destruct (call_drop_escalation
                (Canned.analyzer Canned.quiet) Canned.every_type (-105) (-15) 5
                (App.loaded []) (snd (Canned.summary Canned.quiet))
                eq_refl eq_refl) as (r & Hcall & _ & _ & Hquiet & _).
    injection Hcall as <-. apply Hquiet. discriminate.
  - destruct (call_drop_escalation
                (Canned.analyzer Canned.mixed) Canned.every_type (-105) (-15) 5
                (App.loaded []) (snd (Canned.summary Canned.mixed))
                eq_refl eq_refl) as (r & Hcall & _ & Hrow & _).
    injection Hcall as <-.
    destruct (Hrow eq_refl) as (row & Hrows & Hhigh & _).
    exists row. split; [exact Hrows|]. apply Hhigh. reflexivity.
Defined.

(** ** An empty table *)

Lemma app_nil_iff {A} (l l' : list A) : l ++ l' = [] <-> l = [] /\ l' = [].
Proof.
  split.
  - apply app_eq_nil.
  - intros [-> ->]. reflexivity.
Qed.

Lemma emitted_nil_iff {R} sel (o : option R) test row :
  emitted sel o test row = []
  <-> (sel = true -> forall r, o = Some r -> test r = false).
Proof.
  unfold emitted. destruct sel.
  - destruct o as [r|].
    + destruct (test r) eqn:E.
      * split; [discriminate|]. intros H.
        specialize (H eq_refl r eq_refl). congruence.
      * split; [|reflexivity]. intros _ _ r' Hr'. congruence.
    + split; [|reflexivity]. intros _ _ r' Hr'. discriminate.
  - split; [|reflexivity]. intros _ Hfalse. discriminate.
Qed.

(** X3. A completed summary leaves the table empty, so that the note on no
    significant issues is shown and offered for download instead of the
    table, exactly when the result that each selected pipeline returned
    fails the test of its block: coverage and interference not above 10,
    handover success not below 95, neither bottleneck count above 5, call
    drops not above 2.  Otherwise the table is shown and offered for
    download. *)
Theorem no_significant_issues :
  forall M analysis_types rsrp_threshold rsrq_threshold sinr_threshold g g',
    App.summary_tab M analysis_types rsrp_threshold rsrq_threshold sinr_threshold g
    = (Py.Returned tt, g') ->
    let selected := Py.contains analysis_types in
    let t := App.df g in
    let calm :=
      (selected "Coverage Problems"%string = true ->
       forall r,
         fst (App.analyze_coverage_problems M t rsrp_threshold rsrq_threshold)
         = Py.Returned r ->
         ~ 10 < Coverage.coverage_issues_pct r)
      /\ (selected "Interference"%string = true ->
          forall r,
            fst (App.analyze_interference M
                   (at_interference M analysis_types rsrp_threshold
                      rsrq_threshold t)
                   sinr_threshold) = Py.Returned r ->
            ~ 10 < Interference.interference_issues_pct r)
      /\ (selected "Handover Failures"%string = true ->
          forall r,
            fst (App.analyze_handover_failures M
                   (at_handover M analysis_types rsrp_threshold rsrq_threshold
                      sinr_threshold t)) = Py.Returned r ->
            ~ Handover.handover_success_rate r < 95)
      /\ (selected "Throughput Bottlenecks"%string = true ->
          forall r,
            fst (App.analyze_throughput_bottlenecks M
                   (at_throughput M analysis_types rsrp_threshold
                      rsrq_threshold sinr_threshold t)) = Py.Returned r ->
            ~ (5 < Throughput.dl_bottleneck_areas r
               \/ 5 < Throughput.ul_bottleneck_areas r)%Z)
      /\ (selected "Call Drops"%string = true ->
          forall r,
            fst (App.analyze_call_drops M
                   (at_call_drops M analysis_types rsrp_threshold
                      rsrq_threshold sinr_threshold t)) = Py.Returned r ->
            ~ 2 < CallDrop.call_drop_rate r) in
    (Display.shows_table (App.root_causes g') = false <-> calm)
    /\ (calm ->
        forall to_csv,
          Display.download_data to_csv (App.root_causes g')
          = "No significant issues detected"%string)
    /\ (~ calm ->
        forall to_csv,
          Display.download_data to_csv (App.root_causes g')
          = to_csv (App.root_causes g')).
Proof.
  intros M types a b c g g' Hrun selected t calm.
  pose proof (summary_tab_calls _ _ _ _ _ _ _ Hrun)
    as (Kc & Ki & Kh & Kt & Kd & _).
  assert (Hempty : App.root_causes g' = [] <-> calm).
  { rewrite (summary_tab_run _ _ _ _ _ _ _ Hrun).
    rewrite !app_nil_iff. rewrite !emitted_nil_iff.
    unfold calm, selected, t.
    split; intros (H1 & H2 & H3 & H4 & H5);
      (split; [intros Hs r Hr; destruct (Kc Hs) as (r1 & Hcall & Hbound)
              |split; [intros Hs r Hr; destruct (Ki Hs) as (r1 & Hcall & Hbound)
                      |split; [intros Hs r Hr;
                               destruct (Kh Hs) as (r1 & Hcall & Hbound)
                              |split; [intros Hs r Hr;
                                       destruct (Kt Hs) as (r1 & Hcall & Hbound)
                                      |intros Hs r Hr;
                                       destruct (Kd Hs)
                                         as (r1 & Hcall & Hbound)]]]]).
    - assert (r = r1) by congruence. subst r1.
      apply gt_fails_iff. exact (H1 Hs r Hbound).
    - assert (r = r1) by congruence. subst r1.
      apply gt_fails_iff. exact (H2 Hs r Hbound).
    - assert (r = r1) by congruence. subst r1.
      apply lt_fails_iff. exact (H3 Hs r Hbound).
    - assert (r = r1) by congruence. subst r1.
      specialize (H4 Hs r Hbound). apply orb_false_iff in H4.
      rewrite !Z.ltb_ge in H4. lia.
    - assert (r = r1) by congruence. subst r1.
      apply gt_fails_iff. exact (H5 Hs r Hbound).
    - assert (r = r1) by congruence. subst r1.
      apply gt_fails_iff. exact (H1 Hs r Hcall).
    - assert (r = r1) by congruence. subst r1.
      apply gt_fails_iff. exact (H2 Hs r Hcall).
    - assert (r = r1) by congruence. subst r1.
      apply lt_fails_iff. exact (H3 Hs r Hcall).
    - assert (r = r1) by congruence. subst r1.
      specialize (H4 Hs r Hcall). apply orb_false_iff.
      rewrite !Z.ltb_ge. lia.
    - assert (r = r1) by congruence. subst r1.
      apply gt_fails_iff. exact (H5 Hs r Hcall). }
  assert (Hshown : Display.shows_table (App.root_causes g') = false
                   <-> App.root_causes g' = []).
  { destruct (App.root_causes g'); cbn; split; congruence. }
  split; [|split].
  - rewrite Hshown. exact Hempty.
  - intros Hcalm to_csv. unfold Display.download_data.
    rewrite (proj2 Hshown (proj2 Hempty Hcalm)). reflexivity.
  - intros Hloud to_csv. unfold Display.download_data.
    destruct (Display.shows_table (App.root_causes g')); [reflexivity|].
    exfalso. apply Hloud. apply Hempty. apply Hshown. reflexivity.
Qed.

Lemma no_significant_issues_witness :
  Display.download_data (fun _ => "Issue,Severity,Description,Recommendation"%string)
    (App.root_causes (snd (Canned.summary Canned.quiet)))
  = "No significant issues detected"%string.
Proof.
  destruct (no_significant_issues
              (Canned.analyzer Canned.quiet) Canned.every_type (-105) (-15) 5
              (App.loaded []) (snd (Canned.summary Canned.quiet)) eq_refl)
    as (_ & Hdownload & _).
  apply Hdownload.
  repeat match goal with |- _ /\ _ => split end;
    intros _ r Hr; injection Hr as <-; cbn; unfold Qlt; cbn; lia.
Defined.

(** ** Shape of the table *)

(** Every row of a completed summary is the row of one of the five blocks. *)
Lemma row_shapes M analysis_types rsrp_threshold rsrq_threshold sinr_threshold g g' :
  App.summary_tab M analysis_types rsrp_threshold rsrq_threshold sinr_threshold g
  = (Py.Returned tt, g') ->
  forall row,
    In row (App.root_causes g') ->
    (exists r, row = App.coverage_row r)
    \/ (exists r, row = App.interference_row r)
    \/ (exists r, row = App.handover_row r)
    \/ (exists r, row = App.throughput_row r)
    \/ (exists r, row = App.call_drop_row r).
Proof.
  intros Hrun row Hin.
  rewrite (summary_tab_run _ _ _ _ _ _ _ Hrun) in Hin.
  repeat match type of Hin with
    | context [emitted ?s ?o ?t ?f] =>
        let E := fresh "E" in
        destruct (emitted_cases s o t f) as [E | [? E]]; rewrite E in Hin; clear E
    end;
  cbn [app In] in Hin;
  repeat match type of Hin with
    | _ \/ _ => destruct Hin as [<- | Hin]
    | False => destruct Hin
    end;
  first [ left; eexists; reflexivity
        | right; left; eexists; reflexivity
        | do 2 right; left; eexists; reflexivity
        | do 3 right; left; eexists; reflexivity
        | do 4 right; eexists; reflexivity ].
Qed.

(** X4. The table of a completed summary has at most five rows, no two of
    the same issue; every row carries one of the five issue names and a
    Severity that is either High or Medium. *)
Theorem rows_are_well_formed :
  forall M analysis_types rsrp_threshold rsrq_threshold sinr_threshold g g',
    App.summary_tab M analysis_types rsrp_threshold rsrq_threshold sinr_threshold g
    = (Py.Returned tt, g') ->
    (length (App.root_causes g') <= 5)%nat
    /\ NoDup (map Issue (App.root_causes g'))
    /\ forall row,
         In row (App.root_causes g') ->
         In (Issue row) issue_order
         /\ (Severity row = "High"%string \/ Severity row = "Medium"%string).
Proof.
  intros M types a b c g g' Hrun. split; [|split].
  - rewrite (summary_tab_run _ _ _ _ _ _ _ Hrun).
    repeat match goal with
      | |- context [emitted ?s ?o ?t ?f] =>
          destruct (emitted_cases s o t f) as [-> | [? ->]]
      end; cbn; lia.
  - rewrite (summary_tab_run _ _ _ _ _ _ _ Hrun).
    repeat match goal with
      | |- context [emitted ?s ?o ?t ?f] =>
          destruct (emitted_cases s o t f) as [-> | [? ->]]
      end; cbn;
    repeat (constructor; [cbn; intuition discriminate|]); constructor.
  - intros row Hin.
    destruct (row_shapes _ _ _ _ _ _ _ Hrun row Hin)
      as [[r ->] | [[r ->] | [[r ->] | [[r ->] | [r ->]]]]];
      (split; [cbn; tauto|]); cbn.
    + destruct (Py.gt _ 25); [left | right]; reflexivity.
    + destruct (Py.gt _ 25); [left | right]; reflexivity.
    + destruct (Py.lt _ 90); [left | right]; reflexivity.
    + right; reflexivity.
    + destruct (Py.gt _ 5); [left | right]; reflexivity.
Qed.

Lemma rows_are_well_formed_witness :
  (length (App.root_causes (snd (Canned.summary Canned.mixed))) <= 5)%nat.
Proof.
  exact (proj1 (rows_are_well_formed
                  (Canned.analyzer Canned.mixed) Canned.every_type (-105) (-15) 5
                  (App.loaded []) (snd (Canned.summary Canned.mixed)) eq_refl)).
Defined.

(** X5. The recommendation is a fixed text per issue: two rows with the
    same issue, from any two completed summaries, carry the same
    recommendation, whatever the measured values. *)
Theorem recommendation_is_static :
  forall M1 types1 rsrp1 rsrq1 sinr1 g1 g1'
         M2 types2 rsrp2 rsrq2 sinr2 g2 g2' row1 row2,
    App.summary_tab M1 types1 rsrp1 rsrq1 sinr1 g1 = (Py.Returned tt, g1') ->
    App.summary_tab M2 types2 rsrp2 rsrq2 sinr2 g2 = (Py.Returned tt, g2') ->
    In row1 (App.root_causes g1') ->
    In row2 (App.root_causes g2') ->
    Issue row1 = Issue row2 ->
    Recommendation row1 = Recommendation row2.
Proof.
  intros M1 types1 a1 b1 c1 g1 g1' M2 types2 a2 b2 c2 g2 g2' row1 row2
    Hrun1 Hrun2 Hin1 Hin2 Hissue.
  destruct (row_shapes _ _ _ _ _ _ _ Hrun1 row1 Hin1)
    as [[r1 ->] | [[r1 ->] | [[r1 ->] | [[r1 ->] | [r1 ->]]]]];
    destruct (row_shapes _ _ _ _ _ _ _ Hrun2 row2 Hin2)
      as [[r2 ->] | [[r2 ->] | [[r2 ->] | [[r2 ->] | [r2 ->]]]]];
    cbn in Hissue; first [discriminate Hissue | reflexivity].
Qed.

Lemma recommendation_is_static_witness :
  Recommendation
    (App.interference_row
       {| Interference.interference_issues_pct := 30;
          Interference.high_interference_areas := 0;
          Interference.problem_areas := [] |})
  = Recommendation
      (App.interference_row
         {| Interference.interference_issues_pct := 80;
            Interference.high_interference_areas := 0;
            Interference.problem_areas := [] |}).
Proof.
  apply (recommendation_is_static
           (Canned.analyzer Canned.mixed) Canned.every_type (-105) (-15) 5
           (App.loaded []) (snd (Canned.summary Canned.mixed))
           (Canned.analyzer Canned.elsewhere) Canned.every_type (-105) (-15) 5
           (App.loaded []) (snd (Canned.summary Canned.elsewhere))
           _ _ eq_refl eq_refl).
  - right. left. reflexivity.
  - right. left. reflexivity.
  - reflexivity.
Defined.

(** ** Escalation is monotone *)

Lemma gt_mono c x y : x <= y -> Py.gt x c = true -> Py.gt y c = true.
Proof.
  intros Hle Hgt. apply gt_true_iff in Hgt. apply gt_true_iff.
  exact (Qlt_le_trans _ _ _ Hgt Hle).
Qed.

Lemma lt_mono c x y : y <= x -> Py.lt x c = true -> Py.lt y c = true.
Proof.
  intros Hle Hlt. apply lt_true_iff in Hlt. apply lt_true_iff.
  exact (Qle_lt_trans _ _ _ Hle Hlt).
Qed.

Lemma graded_le (b1 b2 b1' b2' : bool) :
  (b1 = true -> b1' = true) -> (b2 = true -> b2' = true) ->
  ((if b1 then if b2 then 2 else 1 else 0)
   <= (if b1' then if b2' then 2 else 1 else 0))%nat.
Proof.
  intros H1 H2. destruct b1, b2, b1', b2'; cbn;
    try lia; try (specialize (H1 eq_refl); discriminate);
    specialize (H2 eq_refl); discriminate.
Qed.

Lemma level_coverage r :
  level (emitted true (Some r)
           (fun r => Py.gt (Coverage.coverage_issues_pct r) 10) App.coverage_row)
  = if Py.gt (Coverage.coverage_issues_pct r) 10
    then if Py.gt (Coverage.coverage_issues_pct r) 25 then 2%nat else 1%nat
    else 0%nat.
Proof.
  unfold emitted. destruct (Py.gt _ 10); [|reflexivity].
  cbn. destruct (Py.gt _ 25); reflexivity.
Qed.

Lemma level_interference r :
  level (emitted true (Some r)
           (fun r => Py.gt (Interference.interference_issues_pct r) 10)
           App.interference_row)
  = if Py.gt (Interference.interference_issues_pct r) 10
    then if Py.gt (Interference.interference_issues_pct r) 25 then 2%nat else 1%nat
    else 0%nat.
Proof.
  unfold emitted. destruct (Py.gt _ 10); [|reflexivity].
  cbn. destruct (Py.gt _ 25); reflexivity.
Qed.

Lemma level_handover r :
  level (emitted true (Some r)
           (fun r => Py.lt (Handover.handover_success_rate r) 95)
           App.handover_row)
  = if Py.lt (Handover.handover_success_rate r) 95
    then if Py.lt (Handover.handover_success_rate r) 90 then 2%nat else 1%nat
    else 0%nat.
Proof.
  unfold emitted. destruct (Py.lt _ 95); [|reflexivity].
  cbn. destruct (Py.lt _ 90); reflexivity.
Qed.

Lemma level_call_drops r :
  level (emitted true (Some r)
           (fun r => Py.gt (CallDrop.call_drop_rate r) 2) App.call_drop_row)
  = if Py.gt (CallDrop.call_drop_rate r) 2
    then if Py.gt (CallDrop.call_drop_rate r) 5 then 2%nat else 1%nat
    else 0%nat.
Proof.
  unfold emitted. destruct (Py.gt _ 2); [|reflexivity].
  cbn. destruct (Py.gt _ 5); reflexivity.
Qed.

(** X6. A worse headline value never yields a milder report.  Between two
    completed summaries that both select a pipeline, the level of its issue
    (no row, Medium, High) does not drop when the coverage or interference
    percentage or the call-drop rate grows, when the handover success rate
    falls, or when both bottleneck counts grow. *)
Theorem escalation_is_monotone :
  forall M1 types1 rsrp1 rsrq1 sinr1 g1 g1'
         M2 types2 rsrp2 rsrq2 sinr2 g2 g2',
    App.summary_tab M1 types1 rsrp1 rsrq1 sinr1 g1 = (Py.Returned tt, g1') ->
    App.summary_tab M2 types2 rsrp2 rsrq2 sinr2 g2 = (Py.Returned tt, g2') ->
    (forall r1 r2,
        Py.contains types1 "Coverage Problems" = true ->
        Py.contains types2 "Coverage Problems" = true ->
        App.coverage_results g1' = Some r1 ->
        App.coverage_results g2' = Some r2 ->
        Coverage.coverage_issues_pct r1 <= Coverage.coverage_issues_pct r2 ->
        (level (App.rows_of "Coverage Problems" (App.root_causes g1'))
         <= level (App.rows_of "Coverage Problems" (App.root_causes g2')))%nat)
    /\ (forall r1 r2,
           Py.contains types1 "Interference" = true ->
           Py.contains types2 "Interference" = true ->
           App.interference_results g1' = Some r1 ->
           App.interference_results g2' = Some r2 ->
           Interference.interference_issues_pct r1
           <= Interference.interference_issues_pct r2 ->
           (level (App.rows_of "Interference Issues" (App.root_causes g1'))
            <= level (App.rows_of "Interference Issues" (App.root_causes g2')))%nat)
    /\ (forall r1 r2,
           Py.contains types1 "Handover Failures" = true ->
           Py.contains types2 "Handover Failures" = true ->
           App.handover_results g1' = Some r1 ->
           App.handover_results g2' = Some r2 ->
           Handover.handover_success_rate r2 <= Handover.handover_success_rate r1 ->
           (level (App.rows_of "Handover Failures" (App.root_causes g1'))
            <= level (App.rows_of "Handover Failures" (App.root_causes g2')))%nat)
    /\ (forall r1 r2,
           Py.contains types1 "Throughput Bottlenecks" = true ->
           Py.contains types2 "Throughput Bottlenecks" = true ->
           App.throughput_results g1' = Some r1 ->
           App.throughput_results g2' = Some r2 ->
           (Throughput.dl_bottleneck_areas r1 <= Throughput.dl_bottleneck_areas r2)%Z ->
           (Throughput.ul_bottleneck_areas r1 <= Throughput.ul_bottleneck_areas r2)%Z ->
           (level (App.rows_of "Throughput Bottlenecks" (App.root_causes g1'))
            <= level (App.rows_of "Throughput Bottlenecks"
                        (App.root_causes g2')))%nat)
    /\ (forall r1 r2,
           Py.contains types1 "Call Drops" = true ->
           Py.contains types2 "Call Drops" = true ->
           App.call_drop_results g1' = Some r1 ->
           App.call_drop_results g2' = Some r2 ->
           CallDrop.call_drop_rate r1 <= CallDrop.call_drop_rate r2 ->
           (level (App.rows_of "Call Drops" (App.root_causes g1'))
            <= level (App.rows_of "Call Drops" (App.root_causes g2')))%nat).
Proof.
  intros M1 types1 a1 b1 c1 g1 g1' M2 types2 a2 b2 c2 g2 g2' Hrun1 Hrun2.
  split; [|split; [|split; [|split]]].
  - intros r1 r2 Hs1 Hs2 Hr1 Hr2 Hle.
    rewrite (coverage_rows _ _ _ _ _ _ _ Hrun1), (coverage_rows _ _ _ _ _ _ _ Hrun2).
    rewrite Hs1, Hs2, Hr1, Hr2, !level_coverage.
    apply graded_le; apply gt_mono; exact Hle.
  - intros r1 r2 Hs1 Hs2 Hr1 Hr2 Hle.
    rewrite (interference_rows _ _ _ _ _ _ _ Hrun1),
      (interference_rows _ _ _ _ _ _ _ Hrun2).
    rewrite Hs1, Hs2, Hr1, Hr2, !level_interference.
    apply graded_le; apply gt_mono; exact Hle.
  - intros r1 r2 Hs1 Hs2 Hr1 Hr2 Hle.
    rewrite (handover_rows _ _ _ _ _ _ _ Hrun1), (handover_rows _ _ _ _ _ _ _ Hrun2).
    rewrite Hs1, Hs2, Hr1, Hr2, !level_handover.
    apply graded_le; apply lt_mono; exact Hle.
  - intros r1 r2 Hs1 Hs2 Hr1 Hr2 Hdl Hul.
    rewrite (throughput_rows _ _ _ _ _ _ _ Hrun1),
      (throughput_rows _ _ _ _ _ _ _ Hrun2).
    rewrite Hs1, Hs2, Hr1, Hr2. unfold emitted.
    destruct ((5 <? Throughput.dl_bottleneck_areas r1)%Z
              || (5 <? Throughput.ul_bottleneck_areas r1)%Z) eqn:E1;
      [|cbn; lia].
    assert (E2 : ((5 <? Throughput.dl_bottleneck_areas r2)%Z
                  || (5 <? Throughput.ul_bottleneck_areas r2)%Z) = true).
    { apply orb_true_iff in E1. apply orb_true_iff.
      rewrite !Z.ltb_lt in *. lia. }
    rewrite E2. cbn. lia.
  - intros r1 r2 Hs1 Hs2 Hr1 Hr2 Hle.
    rewrite (call_drop_rows _ _ _ _ _ _ _ Hrun1),
      (call_drop_rows _ _ _ _ _ _ _ Hrun2).
    rewrite Hs1, Hs2, Hr1, Hr2, !level_call_drops.
    apply graded_le; apply gt_mono; exact Hle.
Qed.

Lemma escalation_is_monotone_witness :
  (level (App.rows_of "Interference Issues"
            (App.root_causes (snd (Canned.summary Canned.quiet))))
   <= level (App.rows_of "Interference Issues"
               (App.root_causes (snd (Canned.summary Canned.mixed)))))%nat.
Proof.
  destruct (escalation_is_monotone
              (Canned.analyzer Canned.quiet) Canned.every_type (-105) (-15) 5
              (App.loaded []) (snd (Canned.summary Canned.quiet))
              (Canned.analyzer Canned.mixed) Canned.every_type (-105) (-15) 5
              (App.loaded []) (snd (Canned.summary Canned.mixed))
              eq_refl eq_refl) as (_ & Hinterference & _).
  apply (Hinterference _ _ eq_refl eq_refl eq_refl eq_refl). discriminate.
Defined.

(** ** What the summary depends on *)

Lemma alike_bind R (c1 c2 k1 k2 : App.script unit) :
  alike R c1 c2 -> alike R k1 k2 ->
  alike R (App.bind c1 (fun _ => k1)) (App.bind c2 (fun _ => k2)).
Proof.
  intros Hc Hk g1 g2 HR. destruct (Hc g1 g2 HR) as [Hfst HR'].
  unfold App.bind.
  destruct (c1 g1) as [[[]|?] s1], (c2 g2) as [[[]|?] s2]; cbn in *;
    try discriminate.
  - apply Hk. exact HR'.
  - split; [congruence | exact HR'].
Qed.

(** Runs a block from two states that agree on the table and on the rows. *)
Ltac alike_block :=
  intros g1 g2 [Hdf Hrows];
  unfold App.when, App.bind, App.invoke, App.assign, App.root_causes_append,
    App.skip, App.ret;
  match goal with
  | |- context [if ?b then _ else _] => destruct b
  end;
  cbn beta; rewrite ?Hdf;
  repeat match goal with
    | |- context [let (_, _) := ?p in _] =>
        lazymatch p with
        | context [let (_, _) := _ in _] => fail
        | _ => destruct p as [[?|?] ?]
        end
    | |- context [if ?b then _ else _] => destruct b
    end;
  unfold same_table; cbn; repeat split; congruence.

Section Afresh.

Variable M : App.Analyzer.
Variable analysis_types : list string.
Variables rsrp_threshold rsrq_threshold sinr_threshold : Z.

Lemma summary_coverage_alike :
  alike same_table
    (App.summary_coverage M analysis_types rsrp_threshold rsrq_threshold)
    (App.summary_coverage M analysis_types rsrp_threshold rsrq_threshold).
Proof. unfold App.summary_coverage. alike_block. Qed.

Lemma summary_interference_alike :
  alike same_table
    (App.summary_interference M analysis_types sinr_threshold)
    (App.summary_interference M analysis_types sinr_threshold).
Proof. unfold App.summary_interference. alike_block. Qed.

Lemma summary_handover_alike :
  alike same_table
    (App.summary_handover M analysis_types)
    (App.summary_handover M analysis_types).
Proof. unfold App.summary_handover. alike_block. Qed.

Lemma summary_throughput_alike :
  alike same_table
    (App.summary_throughput M analysis_types)
    (App.summary_throughput M analysis_types).
Proof. unfold App.summary_throughput. alike_block. Qed.

Lemma summary_call_drops_alike :
  alike same_table
    (App.summary_call_drops M analysis_types)
    (App.summary_call_drops M analysis_types).
Proof. unfold App.summary_call_drops. alike_block. Qed.

End Afresh.

(** X7. The summary starts afresh.  Its outcome (whether it completes, the
    table of root causes and the sample table it leaves) is determined by the
    analysis module, the selection, the thresholds and the sample table
    alone: rows of an earlier run and results bound by the earlier tabs have
    no influence. *)
Theorem summary_starts_afresh :
  forall M analysis_types rsrp_threshold rsrq_threshold sinr_threshold g1 g2,
    App.df g1 = App.df g2 ->
    let run1 := App.summary_tab M analysis_types rsrp_threshold rsrq_threshold
                  sinr_threshold g1 in
    let run2 := App.summary_tab M analysis_types rsrp_threshold rsrq_threshold
                  sinr_threshold g2 in
    fst run1 = fst run2
    /\ App.root_causes (snd run1) = App.root_causes (snd run2)
    /\ App.df (snd run1) = App.df (snd run2).
Proof.
  intros M types a b c g1 g2 Hdf. cbn zeta.
  assert (Hrest :
    alike same_table
      (App.bind (App.summary_coverage M types a b) (fun _ =>
       App.bind (App.summary_interference M types c) (fun _ =>
       App.bind (App.summary_handover M types) (fun _ =>
       App.bind (App.summary_throughput M types) (fun _ =>
       App.summary_call_drops M types)))))
      (App.bind (App.summary_coverage M types a b) (fun _ =>
       App.bind (App.summary_interference M types c) (fun _ =>
       App.bind (App.summary_handover M types) (fun _ =>
       App.bind (App.summary_throughput M types) (fun _ =>
       App.summary_call_drops M types)))))).
  { apply alike_bind; [apply summary_coverage_alike|].
    apply alike_bind; [apply summary_interference_alike|].
    apply alike_bind; [apply summary_handover_alike|].
    apply alike_bind; [apply summary_throughput_alike|].
    apply summary_call_drops_alike. }
  destruct (Hrest (App.set_root_causes [] g1) (App.set_root_causes [] g2))
    as (Hfst & Hdf' & Hrows).
  { split; [exact Hdf | reflexivity]. }
  repeat split; assumption.
Qed.

Lemma summary_starts_afresh_witness :
  App.root_causes
    (snd (App.summary_tab (Canned.analyzer Canned.quiet) Canned.every_type
            (-105) (-15) 5 (snd (Canned.summary Canned.mixed))))
  = App.root_causes (snd (Canned.summary Canned.quiet)).
Proof.
  exact (proj1 (proj2 (summary_starts_afresh
                         (Canned.analyzer Canned.quiet) Canned.every_type
                         (-105) (-15) 5
                         (snd (Canned.summary Canned.mixed)) (App.loaded [])
                         eq_refl))).
Defined.

Lemma bind_ext (c1 c2 k1 k2 : App.script unit) :
  (forall g, c1 g = c2 g) -> (forall g, k1 g = k2 g) ->
  forall g, App.bind c1 (fun _ => k1) g = App.bind c2 (fun _ => k2) g.
Proof.
  intros Hc Hk g. unfold App.bind. rewrite Hc.
  destruct (c2 g) as [[[]|?] g']; [apply Hk | reflexivity].
Qed.

(** X8. An analysis type that is not selected is never run by the summary:
    two analysis modules that agree on the selected pipelines give the same
    summary, whatever their other pipelines do (raise included), and with
    none of the five types selected the summary completes with an empty
    table and touches nothing else. *)
Theorem summary_runs_selected_pipelines_only :
  forall M1 M2 analysis_types rsrp_threshold rsrq_threshold sinr_threshold g,
    let selected := Py.contains analysis_types in
    ((selected "Coverage Problems"%string = true ->
      forall df, App.analyze_coverage_problems M1 df rsrp_threshold rsrq_threshold
                 = App.analyze_coverage_problems M2 df rsrp_threshold rsrq_threshold) ->
     (selected "Interference"%string = true ->
      forall df, App.analyze_interference M1 df sinr_threshold
                 = App.analyze_interference M2 df sinr_threshold) ->
     (selected "Handover Failures"%string = true ->
      forall df, App.analyze_handover_failures M1 df
                 = App.analyze_handover_failures M2 df) ->
     (selected "Throughput Bottlenecks"%string = true ->
      forall df, App.analyze_throughput_bottlenecks M1 df
                 = App.analyze_throughput_bottlenecks M2 df) ->
     (selected "Call Drops"%string = true ->
      forall df, App.analyze_call_drops M1 df = App.analyze_call_drops M2 df) ->
     App.summary_tab M1 analysis_types rsrp_threshold rsrq_threshold sinr_threshold g
     = App.summary_tab M2 analysis_types rsrp_threshold rsrq_threshold
         sinr_threshold g)
    /\ (selected "Coverage Problems"%string = false ->
        selected "Interference"%string = false ->
        selected "Handover Failures"%string = false ->
        selected "Throughput Bottlenecks"%string = false ->
        selected "Call Drops"%string = false ->
        App.summary_tab M1 analysis_types rsrp_threshold rsrq_threshold
          sinr_threshold g
        = (Py.Returned tt, App.set_root_causes [] g)).
Proof.
  intros M1 M2 types a b c g selected. unfold selected. split.
  - intros Hcov Hint Hho Htp Hcd. unfold App.summary_tab.
    apply bind_ext; [reflexivity|]. clear g.
    apply bind_ext.
    { intros g. unfold App.summary_coverage, App.when.
      destruct (Py.contains types "Coverage Problems"); [|reflexivity].
      unfold App.bind, App.invoke. rewrite (Hcov eq_refl). reflexivity. }
    apply bind_ext.
    { intros g. unfold App.summary_interference, App.when.
      destruct (Py.contains types "Interference"); [|reflexivity].
      unfold App.bind, App.invoke. rewrite (Hint eq_refl). reflexivity. }
    apply bind_ext.
    { intros g. unfold App.summary_handover, App.when.
      destruct (Py.contains types "Handover Failures"); [|reflexivity].
      unfold App.bind, App.invoke. rewrite (Hho eq_refl). reflexivity. }
    apply bind_ext.
    { intros g. unfold App.summary_throughput, App.when.
      destruct (Py.contains types "Throughput Bottlenecks"); [|reflexivity].
      unfold App.bind, App.invoke. rewrite (Htp eq_refl). reflexivity. }
    intros g. unfold App.summary_call_drops, App.when.
    destruct (Py.contains types "Call Drops"); [|reflexivity].
    unfold App.bind, App.invoke. rewrite (Hcd eq_refl). reflexivity.
  - intros Hcov Hint Hho Htp Hcd.
    unfold App.summary_tab, App.summary_coverage, App.summary_interference,
      App.summary_handover, App.summary_throughput, App.summary_call_drops.
    rewrite Hcov, Hint, Hho, Htp, Hcd. reflexivity.
Qed.

Lemma summary_runs_selected_pipelines_only_witness :
  App.summary_tab (Canned.analyzer Canned.mixed) ["Coverage Problems"%string]
    (-105) (-15) 5 (App.loaded [])
  = App.summary_tab (Canned.coverage_alone Canned.mixed)
      ["Coverage Problems"%string] (-105) (-15) 5 (App.loaded []).
Proof.
  apply (proj1 (summary_runs_selected_pipelines_only
                  (Canned.analyzer Canned.mixed)
                  (Canned.coverage_alone Canned.mixed)
                  ["Coverage Problems"%string] (-105) (-15) 5 (App.loaded []))).
  - intros _ df. reflexivity.
  - discriminate.
  - discriminate.
  - discriminate.
  - discriminate.
Defined.

(** ** Failures *)

Lemma bind_completes_if (c k : App.script unit) :
  (forall g, fst (c g) = Py.Returned tt) -> (forall g, fst (k g) = Py.Returned tt) ->
  forall g, fst (App.bind c (fun _ => k) g) = Py.Returned tt.
Proof.
  intros Hc Hk g. unfold App.bind. specialize (Hc g).
  destruct (c g) as [[[]|?] g']; [apply Hk | discriminate Hc].
Qed.

(** Runs a block whose pipeline returns. *)
Ltac returning_block H :=
  intros g;
  unfold App.when, App.bind, App.invoke, App.assign, App.root_causes_append,
    App.skip, App.ret;
  match goal with
  | |- context [if ?b then _ else _] => destruct b; [|reflexivity]
  end;
  specialize (H eq_refl (App.df g));
  match goal with
  | |- context [let (_, _) := ?p in _] =>
      lazymatch p with
      | context [let (_, _) := _ in _] => fail
      | _ => destruct p as [[?|?] ?]
      end
  end;
  [|exfalso; apply H; reflexivity];
  cbn; match goal with
       | |- context [if ?b then _ else _] => destruct b
       end; reflexivity.

(** X9. The summary raises only when a pipeline does.  When the pipelines of
    the selected types return on every table, the summary completes; and
    when Coverage Problems is selected and its pipeline raises, the summary
    stops there with what the pipeline raised, with an empty table of root
    causes and the sample table as that call left it, without running any
    later pipeline. *)
Theorem summary_fails_with_its_pipelines :
  forall M analysis_types rsrp_threshold rsrq_threshold sinr_threshold g,
    let selected := Py.contains analysis_types in
    ((selected "Coverage Problems"%string = true ->
      forall df, Py.value (fst (App.analyze_coverage_problems M df rsrp_threshold
                                  rsrq_threshold)) <> None) ->
     (selected "Interference"%string = true ->
      forall df, Py.value (fst (App.analyze_interference M df sinr_threshold))
                 <> None) ->
     (selected "Handover Failures"%string = true ->
      forall df, Py.value (fst (App.analyze_handover_failures M df)) <> None) ->
     (selected "Throughput Bottlenecks"%string = true ->
      forall df, Py.value (fst (App.analyze_throughput_bottlenecks M df))
                 <> None) ->
     (selected "Call Drops"%string = true ->
      forall df, Py.value (fst (App.analyze_call_drops M df)) <> None) ->
     fst (App.summary_tab M analysis_types rsrp_threshold rsrq_threshold
            sinr_threshold g) = Py.Returned tt)
    /\ (forall e t,
          selected "Coverage Problems"%string = true ->
          App.analyze_coverage_problems M (App.df g) rsrp_threshold rsrq_threshold
          = (Py.Raised e, t) ->
          App.summary_tab M analysis_types rsrp_threshold rsrq_threshold
            sinr_threshold g
          = (Py.Raised e, App.set_df t (App.set_root_causes [] g))).
Proof.
  intros M types a b c g selected. unfold selected. split.
  - intros Hcov Hint Hho Htp Hcd. revert g. unfold App.summary_tab.
    apply bind_completes_if; [reflexivity|].
    apply bind_completes_if;
      [unfold App.summary_coverage; returning_block Hcov|].
    apply bind_completes_if;
      [unfold App.summary_interference; returning_block Hint|].
    apply bind_completes_if;
      [unfold App.summary_handover; returning_block Hho|].
    apply bind_completes_if;
      [unfold App.summary_throughput; returning_block Htp|].
    unfold App.summary_call_drops; returning_block Hcd.
  - intros e t Hsel Hraise.
    unfold App.summary_tab, App.summary_coverage, App.when, App.bind,
      App.invoke, App.assign.
    rewrite Hsel. cbn [App.df App.set_root_causes]. rewrite Hraise. reflexivity.
Qed.

Lemma summary_fails_with_its_pipelines_witness :
  fst (App.summary_tab (Canned.coverage_alone Canned.mixed)
         ["Coverage Problems"%string] (-105) (-15) 5 (App.loaded []))
  = Py.Returned tt.
Proof.
  apply (proj1 (summary_fails_with_its_pipelines
                  (Canned.coverage_alone Canned.mixed)
                  ["Coverage Problems"%string] (-105) (-15) 5 (App.loaded []))).
  - intros _ df. discriminate.
  - discriminate.
  - discriminate.
  - discriminate.
  - discriminate.
Defined.

(** ** Saving to the database *)

(** One case split of a run of the save block: a pipeline call, a
    condition, or the class of what was raised. *)
Ltac save_step :=
  match goal with
  | |- context [let (_, _) := ?p in _] =>
      lazymatch p with
      | context [let (_, _) := _ in _] => fail
      | _ => destruct p as [[?|[|]] ?] eqn:?
      end
  | |- context [if ?b then _ else _] => destruct b eqn:?
  end.

Ltac save_run :=
  unfold App.database_tab, App.when, App.try_except, App.bind, App.invoke,
    App.assign, App.skip, App.ret;
  repeat (save_step; cbn iota beta).

(** The save block leaves the table of root causes alone. *)
Lemma database_tab_rows M analysis_types rsrp_threshold rsrq_threshold
    sinr_threshold save g :
  App.root_causes
    (snd (App.database_tab M analysis_types rsrp_threshold rsrq_threshold
            sinr_threshold save g))
  = App.root_causes g.
Proof. save_run; reflexivity. Qed.

(** The save block ends by completing or with an exit. *)
Lemma database_tab_outcome M analysis_types rsrp_threshold rsrq_threshold
    sinr_threshold save g :
  fst (App.database_tab M analysis_types rsrp_threshold rsrq_threshold
         sinr_threshold save g) <> Py.Raised Py.Error.
Proof. save_run; discriminate. Qed.

(** An exit leaves the save block only when one of its two pipelines
    raised it. *)
Lemma database_tab_exit M analysis_types rsrp_threshold rsrq_threshold
    sinr_threshold save g :
  fst (App.database_tab M analysis_types rsrp_threshold rsrq_threshold
         sinr_threshold save g) = Py.Raised Py.Exit ->
  (Py.contains analysis_types "RF Metrics (RSRP, RSRQ, SINR)" = true
   /\ exists df,
        fst (App.analyze_rf_metrics M df rsrp_threshold rsrq_threshold
               sinr_threshold) = Py.Raised Py.Exit)
  \/ (Py.contains analysis_types "Coverage Problems" = true
      /\ exists df,
           fst (App.analyze_coverage_problems M df rsrp_threshold
                  rsrq_threshold) = Py.Raised Py.Exit).
Proof.
  save_run; cbn [fst]; intros H; try discriminate H;
    first
      [ left; split; [reflexivity|]; eexists;
        match goal with
        | E : App.analyze_rf_metrics _ _ _ _ _ = _ |- _ =>
            rewrite E; reflexivity
        end
      | right; split; [reflexivity|]; eexists;
        match goal with
        | E : App.analyze_coverage_problems _ _ _ _ = _ |- _ =>
            rewrite E; reflexivity
        end ].
Qed.

Lemma bind_tail (c k1 k2 : App.script unit) :
  (forall g, fst (k1 g) = fst (k2 g)
             /\ App.root_causes (snd (k1 g)) = App.root_causes (snd (k2 g))) ->
  forall g,
    fst (App.bind c (fun _ => k1) g) = fst (App.bind c (fun _ => k2) g)
    /\ App.root_causes (snd (App.bind c (fun _ => k1) g))
       = App.root_causes (snd (App.bind c (fun _ => k2) g)).
Proof.
  intros Hk g. unfold App.bind.
  destruct (c g) as [[[]|?] g']; [apply Hk | split; reflexivity].
Qed.

Lemma bind_tail_rows (c k1 k2 : App.script unit) :
  (forall g, App.root_causes (snd (k1 g)) = App.root_causes (snd (k2 g))) ->
  forall g,
    App.root_causes (snd (App.bind c (fun _ => k1) g))
    = App.root_causes (snd (App.bind c (fun _ => k2) g)).
Proof.
  intros Hk g. unfold App.bind.
  destruct (c g) as [[[]|?] g']; [apply Hk | reflexivity].
Qed.

(** X10. The save block of the Database tab catches what derives from
    [Exception] and nothing else.  It never ends in such an exception, and
    saving leaves the root causes of the report as they are.  An RF-metrics
    call of the block that raises an exception ends the block there,
    completed; one that raises an exit ends the block, and with it the
    report, in that exit.  When neither of the block's pipelines, where
    selected, raises an exit, the block completes and the report ends with
    the save button pressed as it does without. *)
Theorem save_block_catches_exceptions :
  forall M analysis_types rsrp_threshold rsrq_threshold sinr_threshold save g,
    let selected := Py.contains analysis_types in
    let block :=
      App.database_tab M analysis_types rsrp_threshold rsrq_threshold
        sinr_threshold in
    let report :=
      App.report M analysis_types rsrp_threshold rsrq_threshold
        sinr_threshold in
    fst (block save g) <> Py.Raised Py.Error
    /\ App.root_causes (snd (block save g)) = App.root_causes g
    /\ App.root_causes (snd (report save g))
       = App.root_causes (snd (report false g))
    /\ (selected "RF Metrics (RSRP, RSRQ, SINR)"%string = true ->
        forall t,
          (App.analyze_rf_metrics M (App.df g) rsrp_threshold rsrq_threshold
             sinr_threshold = (Py.Raised Py.Error, t) ->
           block true g = (Py.Returned tt, App.set_df t g))
          /\ (App.analyze_rf_metrics M (App.df g) rsrp_threshold rsrq_threshold
                sinr_threshold = (Py.Raised Py.Exit, t) ->
              block true g = (Py.Raised Py.Exit, App.set_df t g)))
    /\ ((selected "RF Metrics (RSRP, RSRQ, SINR)"%string = true ->
         forall df,
           fst (App.analyze_rf_metrics M df rsrp_threshold rsrq_threshold
                  sinr_threshold) <> Py.Raised Py.Exit) ->
        (selected "Coverage Problems"%string = true ->
         forall df,
           fst (App.analyze_coverage_problems M df rsrp_threshold
                  rsrq_threshold) <> Py.Raised Py.Exit) ->
        fst (block save g) = Py.Returned tt
        /\ fst (report save g) = fst (report false g)).
Proof.
  intros M types a b c save g selected block report.
  unfold selected, block, report.
  split; [apply database_tab_outcome|].
  split; [apply database_tab_rows|].
  split.
  { revert g. unfold App.report. do 5 apply bind_tail_rows. intros g.
    rewrite !database_tab_rows. reflexivity. }
  split.
  { intros Hsel t. unfold App.database_tab, App.when, App.try_except,
      App.bind, App.invoke.
    rewrite Hsel. split; intros Hraise; rewrite Hraise; reflexivity. }
  intros Hrf Hcov.
  assert (Hdone : forall save' g',
            fst (App.database_tab M types a b c save' g') = Py.Returned tt).
  { intros save' g'.
    destruct (fst (App.database_tab M types a b c save' g'))
      as [[]|[|]] eqn:E.
    - reflexivity.
    - exfalso. exact (database_tab_outcome M types a b c save' g' E).
    - exfalso. apply database_tab_exit in E.
      destruct E as [(Hsel & df & E) | (Hsel & df & E)].
      + exact (Hrf Hsel df E).
      + exact (Hcov Hsel df E). }
  split; [apply Hdone|].
  revert g. unfold App.report.
  assert (Htail : forall g,
            fst (App.database_tab M types a b c save g)
            = fst (App.database_tab M types a b c false g)
            /\ App.root_causes (snd (App.database_tab M types a b c save g))
               = App.root_causes (snd (App.database_tab M types a b c false g))).
  { intros g. rewrite !Hdone, !database_tab_rows. split; reflexivity. }
  intros g.
  exact (proj1 (bind_tail _ _ _
                  (bind_tail _ _ _
                     (bind_tail _ _ _
                        (bind_tail _ _ _ (bind_tail _ _ _ Htail)))) g)).
Qed.

(** With an RF-metrics pipeline that raises an exception the save completes
    all the same; with one that is interrupted it is left by the exit. *)
Lemma save_block_catches_exceptions_witness :
  fst (App.database_tab (Canned.coverage_alone Canned.mixed) Canned.every_type
         (-105) (-15) 5 true (App.loaded [])) = Py.Returned tt
  /\ App.database_tab (Canned.interrupted Canned.mixed) Canned.every_type
       (-105) (-15) 5 true (App.loaded [])
     = (Py.Raised Py.Exit, App.set_df [] (App.loaded [])).
Proof.
  split.
  - apply (save_block_catches_exceptions
             (Canned.coverage_alone Canned.mixed) Canned.every_type
             (-105) (-15) 5 true (App.loaded [])).
    + intros _ df. discriminate.
    + intros _ df. discriminate.
  - apply (save_block_catches_exceptions
             (Canned.interrupted Canned.mixed) Canned.every_type
             (-105) (-15) 5 true (App.loaded [])).
    + reflexivity.
    + reflexivity.
Defined.

(** ** The Call Quality tab *)

Lemma contains_true_iff l s : Py.contains l s = true <-> In s l.
Proof.
  unfold Py.contains. rewrite existsb_exists. split.
  - intros (x & Hin & Heq). apply String.eqb_eq in Heq. subst x. exact Hin.
  - intros Hin. exists s. split; [exact Hin | apply String.eqb_refl].
Qed.

(** X11. The guard of the Call Quality tab, a non-empty list of selected
    call-quality types, holds exactly when Call Drops, QoS Issues or Cell
    Overloading is selected; so the guard changes nothing in what the tab
    runs: the tab is its three guarded analyses in a row. *)
Theorem call_quality_guard :
  forall M analysis_types,
    let selected := Py.contains analysis_types in
    ((0 < length (Display.call_analysis_types analysis_types))%nat
     <-> selected "Call Drops"%string = true
         \/ selected "QoS Issues"%string = true
         \/ selected "Cell Overloading"%string = true)
    /\ forall g,
         App.call_quality_tab M analysis_types g
         = App.bind
             (App.when (selected "Call Drops"%string)
                (App.bind (App.invoke (App.analyze_call_drops M))
                   (fun r => App.assign (App.set_call_drop_results r))))
             (fun _ =>
                App.bind
                  (App.when (selected "QoS Issues"%string)
                     (App.bind (App.invoke (App.analyze_qos_issues M))
                        (fun r => App.assign (App.set_qos_results r))))
                  (fun _ =>
                     App.when (selected "Cell Overloading"%string)
                       (App.bind (App.invoke (App.analyze_cell_overloading M))
                          (fun r => App.assign (App.set_overloading_results r)))))
             g.
Proof.
  intros M types selected. unfold selected.
  assert (Hguard :
    (0 < length (Display.call_analysis_types types))%nat
    <-> Py.contains types "Call Drops" = true
        \/ Py.contains types "QoS Issues" = true
        \/ Py.contains types "Cell Overloading" = true).
  { rewrite !contains_true_iff. unfold Display.call_analysis_types. split.
    - intros Hlen.
      destruct (filter _ types) as [|x rest] eqn:E; [cbn in Hlen; lia|].
      assert (Hx : In x (filter
                           (Py.contains
                              ["Call Drops"; "QoS Issues"; "Cell Overloading"]%string)
                           types)).
      { rewrite E. left. reflexivity. }
      apply filter_In in Hx. destruct Hx as [Hin Hcall].
      apply contains_true_iff in Hcall.
      destruct Hcall as [<- | [<- | [<- | []]]]; tauto.
    - intros Hsel.
      assert (Hex : exists x,
                 In x (filter
                         (Py.contains
                            ["Call Drops"; "QoS Issues"; "Cell Overloading"]%string)
                         types)).
      { destruct Hsel as [H | [H | H]];
          eexists; apply filter_In; (split; [exact H | reflexivity]). }
      destruct Hex as [x Hx].
      destruct (filter _ types); [destruct Hx | cbn; lia]. }
  split; [exact Hguard|].
  intros g. unfold App.call_quality_tab. cbn zeta.
  change (filter (Py.contains ["Call Drops"; "QoS Issues"; "Cell Overloading"]%string)
            types)
    with (Display.call_analysis_types types).
  destruct (0 <? Z.of_nat (length (Display.call_analysis_types types)))%Z eqn:E.
  - reflexivity.
  - apply Z.ltb_ge in E.
    assert (Hnone : ~ (0 < length (Display.call_analysis_types types))%nat) by lia.
    rewrite Hguard in Hnone.
    destruct (Py.contains types "Call Drops"); [tauto|].
    destruct (Py.contains types "QoS Issues"); [tauto|].
    destruct (Py.contains types "Cell Overloading"); [tauto|].
    reflexivity.
Qed.

(** ** Saved problem areas, grouped by type *)

Lemma get_set_same {V} k (v : V) d : Dict.get k (Dict.set k v d) = Some v.
Proof.
  induction d as [|[k' v'] d IH]; cbn.
  - rewrite String.eqb_refl. reflexivity.
  - destruct (String.eqb k' k) eqn:E; cbn; rewrite E; [reflexivity | exact IH].
Qed.

Lemma get_set_other {V} k k' (v : V) d :
  k' <> k -> Dict.get k' (Dict.set k v d) = Dict.get k' d.
Proof.
  intros Hne. induction d as [|[k0 v0] d IH]; cbn.
  - destruct (String.eqb_spec k k'); [congruence | reflexivity].
  - destruct (String.eqb_spec k0 k) as [->|Hk0]; cbn.
    + destruct (String.eqb_spec k k'); [congruence | reflexivity].
    + destruct (String.eqb k0 k'); [reflexivity | exact IH].
Qed.

Lemma mem_keys {V} k (d : Dict.t V) : Dict.mem k d = Py.contains (map fst d) k.
Proof.
  unfold Dict.mem, Py.contains. induction d as [|[k' v'] d IH]; cbn.
  - reflexivity.
  - rewrite (String.eqb_sym k k').
    destruct (String.eqb k' k); [reflexivity | exact IH].
Qed.

Lemma keys_set {V} k (v : V) d :
  map fst (Dict.set k v d)
  = if Dict.mem k d then map fst d else map fst d ++ [k].
Proof.
  unfold Dict.mem. induction d as [|[k' v'] d IH]; cbn.
  - reflexivity.
  - destruct (String.eqb k' k); cbn; [reflexivity|].
    rewrite IH. destruct (Dict.get k d); reflexivity.
Qed.

Lemma held_set {V} k (v : list V) d :
  (held (Dict.set k v d)
   + match Dict.get k d with Some old => length old | None => 0 end
   = held d + length v)%nat.
Proof.
  unfold held. induction d as [|[k' v'] d IH]; cbn.
  - rewrite app_nil_r. lia.
  - destruct (String.eqb k' k); cbn; rewrite !length_app; [lia|].
    cbn in IH. lia.
Qed.

Lemma get_of_member {V} k (v : V) d :
  NoDup (map fst d) -> In (k, v) d -> Dict.get k d = Some v.
Proof.
  induction d as [|[k' v'] d IH]; cbn; intros Hnodup Hin; [destruct Hin|].
  inversion Hnodup as [|? ? Hfresh Hrest]; subst.
  destruct Hin as [Heq | Hin].
  - injection Heq as -> ->. rewrite String.eqb_refl. reflexivity.
  - destruct (String.eqb_spec k' k) as [->|Hne]; [|exact (IH Hrest Hin)].
    exfalso. apply Hfresh. apply in_map_iff. exists (k, v). split; [reflexivity|exact Hin].
Qed.

Lemma firsts_snoc l x :
  firsts (l ++ [x])
  = if Py.contains (firsts l) x then firsts l else firsts l ++ [x].
Proof. unfold firsts. rewrite fold_left_app. reflexivity. Qed.

Lemma firsts_NoDup l : NoDup (firsts l).
Proof.
  induction l as [|x l IH] using rev_ind; [constructor|].
  rewrite firsts_snoc. destruct (Py.contains (firsts l) x) eqn:E; [exact IH|].
  apply NoDup_app; [exact IH | repeat constructor; intros [] |].
  intros y Hy [<- | []].
  apply contains_true_iff in Hy. congruence.
Qed.

Lemma filter_none {A} (p : A -> bool) l : existsb p l = false -> filter p l = [].
Proof.
  induction l as [|x l IH]; cbn; [reflexivity|].
  destruct (p x); cbn; [discriminate | exact IH].
Qed.

Lemma group_by_type_snoc areas pa :
  Saved.group_by_type (areas ++ [pa])
  = match Saved.group_by_type areas with
    | Some problem_types => Saved.file_area problem_types pa
    | None => None
    end.
Proof. unfold Saved.group_by_type. rewrite fold_left_app. reflexivity. Qed.

(** One turn of the loop: it cannot fail, the group of the area's type gains
    the area at its end, the other groups stay, and a new type goes last. *)
Lemma file_area_spec d pa :
  exists d',
    Saved.file_area d pa = Some d'
    /\ Dict.get (Saved.problem_type pa) d'
       = Some (match Dict.get (Saved.problem_type pa) d with
               | Some old => old ++ [pa]
               | None => [pa]
               end)
    /\ (forall k, k <> Saved.problem_type pa -> Dict.get k d' = Dict.get k d)
    /\ map fst d'
       = (if Dict.mem (Saved.problem_type pa) d then map fst d
          else map fst d ++ [Saved.problem_type pa])
    /\ held d' = S (held d).
Proof.
  unfold Saved.file_area. cbn zeta.
  set (k := Saved.problem_type pa).
  destruct (Dict.mem k d) eqn:Hmem; cbn [negb].
  - unfold Dict.mem in Hmem. destruct (Dict.get k d) as [old|] eqn:Hget;
      [|discriminate].
    eexists. split; [reflexivity|].
    split; [apply get_set_same|].
    split; [intros k' Hne; apply get_set_other; exact Hne|].
    split.
    + rewrite keys_set. unfold Dict.mem. rewrite Hget. reflexivity.
    + pose proof (held_set k (old ++ [pa]) d) as H. rewrite Hget in H.
      rewrite length_app in H. cbn [length] in H. lia.
  - unfold Dict.mem in Hmem. destruct (Dict.get k d) as [old|] eqn:Hget;
      [discriminate|].
    rewrite get_set_same.
    eexists. split; [reflexivity|].
    split; [apply get_set_same|].
    split.
    { intros k' Hne. rewrite !get_set_other by exact Hne. reflexivity. }
    split.
    + rewrite !keys_set. unfold Dict.mem. rewrite get_set_same, Hget.
      reflexivity.
    + pose proof (held_set k [pa] (Dict.set k [] d)) as H1.
      rewrite get_set_same in H1.
      pose proof (held_set k (@nil Saved.area) d) as H2. rewrite Hget in H2.
      cbn [length] in H1, H2. cbn [app]. lia.
Qed.

(** X12. Grouping the saved problem areas by type never fails and loses or
    duplicates nothing: the types appear once each, in the order of their
    first area; the group of a type holds exactly the areas of that type, in
    their stored order; a type without area has no group; and the groups
    hold as many areas as were stored. *)
Theorem areas_are_grouped_by_type :
  forall problem_areas,
    exists problem_types,
      Saved.group_by_type problem_areas = Some problem_types
      /\ map fst problem_types = firsts (map Saved.problem_type problem_areas)
      /\ NoDup (map fst problem_types)
      /\ (forall kind,
            Dict.get kind problem_types
            = if existsb (of_type kind) problem_areas
              then Some (filter (of_type kind) problem_areas)
              else None)
      /\ (forall kind areas,
            In (kind, areas) problem_types ->
            areas <> [] /\ areas = filter (of_type kind) problem_areas)
      /\ held problem_types = length problem_areas.
Proof.
  intros problem_areas.
  assert (Hmain : exists d,
    Saved.group_by_type problem_areas = Some d
    /\ map fst d = firsts (map Saved.problem_type problem_areas)
    /\ (forall kind,
          Dict.get kind d
          = if existsb (of_type kind) problem_areas
            then Some (filter (of_type kind) problem_areas)
            else None)
    /\ held d = length problem_areas).
  { induction problem_areas as [|pa l IH] using rev_ind.
    - exists []. repeat split; reflexivity.
    - destruct IH as (d & Hd & Hkeys & Hget & Hheld).
      rewrite group_by_type_snoc, Hd.
      destruct (file_area_spec d pa) as (d' & Hd' & Hown & Hother & Hkeys' & Hheld').
      exists d'. split; [exact Hd'|]. split; [|split].
      + rewrite Hkeys', map_app. cbn [map].
        rewrite firsts_snoc, mem_keys, Hkeys. reflexivity.
      + intros kind. rewrite existsb_app, filter_app. cbn [existsb filter].
        destruct (String.eqb_spec (Saved.problem_type pa) kind) as [<-|Hne].
        * unfold of_type at 2 4. rewrite String.eqb_refl.
          rewrite orb_true_r, Hown, Hget.
          destruct (existsb (of_type (Saved.problem_type pa)) l) eqn:E;
            [reflexivity|].
          rewrite (filter_none _ _ E). reflexivity.
        * assert (Hno : of_type kind pa = false).
          { unfold of_type. apply String.eqb_neq. exact Hne. }
          rewrite Hno, orb_false_r, app_nil_r.
          rewrite (Hother kind) by congruence. apply Hget.
      + rewrite Hheld', Hheld, length_app. cbn. lia. }
  destruct Hmain as (d & Hd & Hkeys & Hget & Hheld).
  assert (Hnodup : NoDup (map fst d)).
  { rewrite Hkeys. apply firsts_NoDup. }
  exists d. split; [exact Hd|]. split; [exact Hkeys|]. split; [exact Hnodup|].
  split; [exact Hget|]. split; [|exact Hheld].
  intros kind areas Hin.
  pose proof (get_of_member _ _ _ Hnodup Hin) as Hfound.
  rewrite Hget in Hfound.
  destruct (existsb (of_type kind) problem_areas) eqn:E; [|discriminate].
  injection Hfound as <-. split; [|reflexivity].
  intros Hnil. apply existsb_exists in E. destruct E as (pa & Hpa & Htype).
  assert (Hmember : In pa (filter (of_type kind) problem_areas)).
  { apply filter_In. split; assumption. }
  rewrite Hnil in Hmember. destruct Hmember.
Qed.

Lemma areas_are_grouped_by_type_witness :
  exists problem_types,
    Saved.group_by_type Archive.areas = Some problem_types
    /\ map Saved.id (filter (of_type "Coverage") Archive.areas) = [1; 3]%Z
    /\ forall areas,
         In ("Coverage"%string, areas) problem_types ->
         map Saved.id areas = [1; 3]%Z.
Proof.
  destruct (areas_are_grouped_by_type Archive.areas)
    as (d & Hd & _ & _ & _ & Hgroups & _).
  exists d. split; [exact Hd|]. split; [reflexivity|].
  intros areas Hin. destruct (Hgroups _ _ Hin) as [_ ->]. reflexivity.
Defined.

(** ** The select box of saved drive tests *)

Lemma filename_of_offered (datetime : Type) (strftime : datetime -> string)
    (drive_tests : list (Saved.drive_test datetime)) x :
  In x (map Saved.dt_id drive_tests) ->
  exists dt,
    In dt drive_tests /\ Saved.dt_id dt = x
    /\ Saved.filename_of (Saved.drive_tests_data datetime strftime drive_tests) x
       = Saved.filename dt.
Proof.
  unfold Saved.filename_of, Saved.drive_tests_data.
  induction drive_tests as [|d l IH]; intros Hin; [destruct Hin|].
  cbn [map find Saved.ID].
  destruct (Z.eqb_spec (Saved.dt_id d) x) as [Heq | Hne].
  - exists d. split; [left; reflexivity|]. split; [exact Heq | reflexivity].
  - destruct Hin as [Hhead | Htail]; [contradiction|].
    destruct (IH Htail) as (dt & Hdt & Hid & Hname).
    exists dt. split; [right; exact Hdt|]. split; assumption.
Qed.

Lemma filename_of_own (datetime : Type) (strftime : datetime -> string)
    (drive_tests : list (Saved.drive_test datetime)) dt :
  NoDup (map Saved.dt_id drive_tests) ->
  In dt drive_tests ->
  Saved.filename_of (Saved.drive_tests_data datetime strftime drive_tests)
    (Saved.dt_id dt)
  = Saved.filename dt.
Proof.
  unfold Saved.filename_of, Saved.drive_tests_data.
  induction drive_tests as [|d l IH]; intros Hnodup Hdt; [destruct Hdt|].
  cbn [map find Saved.ID]. cbn [map] in Hnodup.
  inversion Hnodup as [|? ? Hfresh Hrest]; subst.
  destruct Hdt as [-> | Htail].
  - rewrite Z.eqb_refl. reflexivity.
  - destruct (Z.eqb_spec (Saved.dt_id d) (Saved.dt_id dt)) as [Heq | Hne].
    + exfalso. apply Hfresh. rewrite Heq. apply in_map. exact Htail.
    + exact (IH Hrest Htail).
Qed.

(** X13. The select box offers the ids of the saved drive tests in their
    stored order.  The label of an offered id names a drive test with that
    id (the first one), so it never reads Unknown for want of a match; an id
    that is not offered is labelled Unknown; and when the ids are distinct
    every drive test is labelled with its own file name. *)
Theorem select_box_labels :
  forall (datetime : Type) (strftime : datetime -> string)
         (drive_tests : list (Saved.drive_test datetime)),
    let data := Saved.drive_tests_data datetime strftime drive_tests in
    Saved.options data = map Saved.dt_id drive_tests
    /\ (forall x,
          In x (Saved.options data) ->
          exists dt,
            In dt drive_tests /\ Saved.dt_id dt = x
            /\ Saved.format_func data x
               = ("ID: " ++ Py.str_int x ++ " - " ++ Saved.filename dt)%string)
    /\ (forall x,
          ~ In x (Saved.options data) ->
          Saved.format_func data x
          = ("ID: " ++ Py.str_int x ++ " - Unknown")%string)
    /\ (NoDup (map Saved.dt_id drive_tests) ->
        forall dt,
          In dt drive_tests ->
          Saved.format_func data (Saved.dt_id dt)
          = ("ID: " ++ Py.str_int (Saved.dt_id dt) ++ " - "
             ++ Saved.filename dt)%string).
Proof.
  intros datetime strftime drive_tests data.
  assert (Hoptions : Saved.options data = map Saved.dt_id drive_tests).
  { unfold data, Saved.options, Saved.drive_tests_data. rewrite map_map.
    reflexivity. }
  split; [exact Hoptions|]. split; [|split].
  - intros x Hin. rewrite Hoptions in Hin.
    destruct (filename_of_offered datetime strftime drive_tests x Hin)
      as (dt & Hdt & Hid & Hname).
    exists dt. split; [exact Hdt|]. split; [exact Hid|].
    unfold Saved.format_func, data. rewrite Hname. reflexivity.
  - intros x Hout. unfold Saved.format_func, Saved.filename_of.
    destruct (find (fun dt => (Saved.ID dt =? x)%Z) data) as [row|] eqn:E;
      [|reflexivity].
    exfalso. apply Hout. apply find_some in E. destruct E as [Hrow Hid].
    apply Z.eqb_eq in Hid. unfold Saved.options. rewrite <- Hid.
    apply in_map. exact Hrow.
  - intros Hnodup dt Hdt. unfold Saved.format_func, data.
    rewrite (filename_of_own datetime strftime drive_tests dt Hnodup Hdt).
    reflexivity.
Qed.

Lemma select_box_labels_witness :
  Saved.format_func (Saved.drive_tests_data Z Py.str_int Archive.tests)
    (Saved.dt_id Archive.evening)
  = "ID: 9 - ring.xlsx"%string.
Proof.
  destruct (select_box_labels Z Py.str_int Archive.tests)
    as (_ & _ & _ & Hown).
  assert (Hdistinct : NoDup (map Saved.dt_id Archive.tests)).
  { repeat constructor; cbn; intuition discriminate. }
  exact (Hown Hdistinct Archive.evening (or_intror (or_introl eq_refl))).
Defined.

(** ** Reports over a read-only analysis module *)

(** One case split of a run over a read-only module: a pipeline call, whose
    table is the one it was given, or a condition. *)
Ltac read_only_step Hro :=
  match goal with
  | E : ?call = (_, _) |- context [?call] => rewrite E
  | |- context [App.analyze_rf_metrics ?M ?d ?a ?b ?c] =>
      let H := fresh "H" in
      let t := fresh "t" in
      destruct (Hro d a b c) as (H & _);
      destruct (App.analyze_rf_metrics M d a b c) as [[?|[|]] t] eqn:?;
      cbn [snd] in H; subst t
  | |- context [App.analyze_coverage_problems ?M ?d ?a ?b] =>
      let H := fresh "H" in
      let t := fresh "t" in
      destruct (Hro d a b 0%Z) as (_ & H & _);
      destruct (App.analyze_coverage_problems M d a b) as [[?|[|]] t] eqn:?;
      cbn [snd] in H; subst t
  | |- context [App.analyze_interference ?M ?d ?c] =>
      let H := fresh "H" in
      let t := fresh "t" in
      destruct (Hro d 0%Z 0%Z c) as (_ & _ & H & _);
      destruct (App.analyze_interference M d c) as [[?|[|]] t] eqn:?;
      cbn [snd] in H; subst t
  | |- context [App.analyze_handover_failures ?M ?d] =>
      let H := fresh "H" in
      let t := fresh "t" in
      destruct (Hro d 0%Z 0%Z 0%Z) as (_ & _ & _ & H & _);
      destruct (App.analyze_handover_failures M d) as [[?|[|]] t] eqn:?;
      cbn [snd] in H; subst t
  | |- context [App.analyze_throughput_bottlenecks ?M ?d] =>
      let H := fresh "H" in
      let t := fresh "t" in
      destruct (Hro d 0%Z 0%Z 0%Z) as (_ & _ & _ & _ & H & _);
      destruct (App.analyze_throughput_bottlenecks M d) as [[?|[|]] t] eqn:?;
      cbn [snd] in H; subst t
  | |- context [App.analyze_call_drops ?M ?d] =>
      let H := fresh "H" in
      let t := fresh "t" in
      destruct (Hro d 0%Z 0%Z 0%Z) as (_ & _ & _ & _ & _ & H & _);
      destruct (App.analyze_call_drops M d) as [[?|[|]] t] eqn:?;
      cbn [snd] in H; subst t
  | |- context [App.analyze_qos_issues ?M ?d] =>
      let H := fresh "H" in
      let t := fresh "t" in
      destruct (Hro d 0%Z 0%Z 0%Z) as (_ & _ & _ & _ & _ & _ & H & _);
      destruct (App.analyze_qos_issues M d) as [[?|[|]] t] eqn:?;
      cbn [snd] in H; subst t
  | |- context [App.analyze_cell_overloading ?M ?d] =>
      let H := fresh "H" in
      let t := fresh "t" in
      destruct (Hro d 0%Z 0%Z 0%Z) as (_ & _ & _ & _ & _ & _ & _ & H);
      destruct (App.analyze_cell_overloading M d) as [[?|[|]] t] eqn:?;
      cbn [snd] in H; subst t
  | |- context [if ?b then _ else _] => destruct b eqn:?
  end.

Ltac read_only_simpl :=
  cbn [fst snd App.df App.coverage_results App.interference_results
       App.handover_results App.throughput_results App.call_drop_results
       App.root_causes App.set_df App.set_rf_results
       App.set_coverage_results App.set_interference_results
       App.set_handover_results App.set_throughput_results
       App.set_call_drop_results App.set_qos_results
       App.set_overloading_results App.set_root_causes].

Ltac read_only_run Hro :=
  unfold App.when, App.bind, App.invoke, App.assign, App.skip, App.ret,
    App.root_causes_append, App.try_except;
  read_only_simpl;
  repeat (read_only_step Hro; read_only_simpl);
  repeat split; intros; try reflexivity; try congruence; try discriminate.

Section ReadOnly.

Variable M : App.Analyzer.
Hypothesis Hro : read_only M.
Variable analysis_types : list string.
Variables rsrp_threshold rsrq_threshold sinr_threshold : Z.

Lemma rf_tab_frames g :
  App.df (snd (App.rf_tab M analysis_types rsrp_threshold rsrq_threshold
                 sinr_threshold g)) = App.df g.
Proof. unfold App.rf_tab. read_only_run Hro. Qed.

Lemma handover_tab_frames g :
  App.df (snd (App.handover_tab M analysis_types g)) = App.df g.
Proof. unfold App.handover_tab. read_only_run Hro. Qed.

Lemma throughput_tab_frames g :
  App.df (snd (App.throughput_tab M analysis_types g)) = App.df g.
Proof. unfold App.throughput_tab. read_only_run Hro. Qed.

Lemma call_quality_tab_frames g :
  App.df (snd (App.call_quality_tab M analysis_types g)) = App.df g.
Proof. unfold App.call_quality_tab. cbn zeta. read_only_run Hro. Qed.

Lemma summary_coverage_value g :
  let run := App.summary_coverage M analysis_types rsrp_threshold
               rsrq_threshold g in
  App.df (snd run) = App.df g
  /\ (fst run = Py.Returned tt ->
      Py.contains analysis_types "Coverage Problems" = true ->
      App.coverage_results (snd run)
      = Py.value (fst (App.analyze_coverage_problems M (App.df g)
                         rsrp_threshold rsrq_threshold))).
Proof. unfold App.summary_coverage. cbn zeta. read_only_run Hro. Qed.

Lemma summary_interference_value g :
  let run := App.summary_interference M analysis_types sinr_threshold g in
  App.df (snd run) = App.df g
  /\ (fst run = Py.Returned tt ->
      Py.contains analysis_types "Interference" = true ->
      App.interference_results (snd run)
      = Py.value (fst (App.analyze_interference M (App.df g) sinr_threshold))).
Proof. unfold App.summary_interference. cbn zeta. read_only_run Hro. Qed.

Lemma summary_handover_value g :
  let run := App.summary_handover M analysis_types g in
  App.df (snd run) = App.df g
  /\ (fst run = Py.Returned tt ->
      Py.contains analysis_types "Handover Failures" = true ->
      App.handover_results (snd run)
      = Py.value (fst (App.analyze_handover_failures M (App.df g)))).
Proof. unfold App.summary_handover. cbn zeta. read_only_run Hro. Qed.

Lemma summary_throughput_value g :
  let run := App.summary_throughput M analysis_types g in
  App.df (snd run) = App.df g
  /\ (fst run = Py.Returned tt ->
      Py.contains analysis_types "Throughput Bottlenecks" = true ->
      App.throughput_results (snd run)
      = Py.value (fst (App.analyze_throughput_bottlenecks M (App.df g)))).
Proof. unfold App.summary_throughput. cbn zeta. read_only_run Hro. Qed.

Lemma summary_call_drops_value g :
  let run := App.summary_call_drops M analysis_types g in
  App.df (snd run) = App.df g
  /\ (fst run = Py.Returned tt ->
      Py.contains analysis_types "Call Drops" = true ->
      App.call_drop_results (snd run)
      = Py.value (fst (App.analyze_call_drops M (App.df g)))).
Proof. unfold App.summary_call_drops. cbn zeta. read_only_run Hro. Qed.

Lemma database_tab_frames save g :
  let run := App.database_tab M analysis_types rsrp_threshold rsrq_threshold
               sinr_threshold save g in
  App.df (snd run) = App.df g
  /\ App.interference_results (snd run) = App.interference_results g
  /\ App.handover_results (snd run) = App.handover_results g
  /\ App.throughput_results (snd run) = App.throughput_results g
  /\ App.call_drop_results (snd run) = App.call_drop_results g
  /\ (App.coverage_results (snd run) = App.coverage_results g
      \/ App.coverage_results (snd run)
         = Py.value (fst (App.analyze_coverage_problems M (App.df g)
                            rsrp_threshold rsrq_threshold))).
Proof.
  unfold App.database_tab. cbn zeta. destruct save.
  - read_only_run Hro; first [left; reflexivity | right; reflexivity].
  - read_only_run Hro; left; reflexivity.
Qed.

End ReadOnly.

Lemma emitted_ext {R} sel (o o' : option R) test row :
  (sel = true -> o = o') -> emitted sel o test row = emitted sel o' test row.
Proof.
  intros H. unfold emitted. destruct sel; [|reflexivity].
  rewrite (H eq_refl). reflexivity.
Qed.

(** Over a read-only module a completed summary binds the result of every
    selected pipeline to the analysis of the table it started from. *)
Lemma summary_tab_values M analysis_types rsrp_threshold rsrq_threshold
    sinr_threshold g g' :
  read_only M ->
  App.summary_tab M analysis_types rsrp_threshold rsrq_threshold sinr_threshold g
  = (Py.Returned tt, g') ->
  App.df g' = App.df g
  /\ (Py.contains analysis_types "Coverage Problems" = true ->
      App.coverage_results g'
      = Py.value (fst (App.analyze_coverage_problems M (App.df g)
                         rsrp_threshold rsrq_threshold)))
  /\ (Py.contains analysis_types "Interference" = true ->
      App.interference_results g'
      = Py.value (fst (App.analyze_interference M (App.df g) sinr_threshold)))
  /\ (Py.contains analysis_types "Handover Failures" = true ->
      App.handover_results g'
      = Py.value (fst (App.analyze_handover_failures M (App.df g))))
  /\ (Py.contains analysis_types "Throughput Bottlenecks" = true ->
      App.throughput_results g'
      = Py.value (fst (App.analyze_throughput_bottlenecks M (App.df g))))
  /\ (Py.contains analysis_types "Call Drops" = true ->
      App.call_drop_results g'
      = Py.value (fst (App.analyze_call_drops M (App.df g)))).
Proof.
  intros Hro H. unfold App.summary_tab in H.
  apply bind_completes in H. destruct H as ([] & g0 & H0 & H).
  apply bind_completes in H. destruct H as ([] & g1 & H1 & H).
  apply bind_completes in H. destruct H as ([] & g2 & H2 & H).
  apply bind_completes in H. destruct H as ([] & g3 & H3 & H).
  apply bind_completes in H. destruct H as ([] & g4 & H4 & H5).
  unfold App.assign in H0. inversion H0; subst g0; clear H0.
  pose proof (summary_coverage_value M Hro analysis_types rsrp_threshold
                rsrq_threshold (App.set_root_causes [] g)) as (D1 & V1).
  pose proof (summary_interference_value M Hro analysis_types sinr_threshold g1)
    as (D2 & V2).
  pose proof (summary_handover_value M Hro analysis_types g2) as (D3 & V3).
  pose proof (summary_throughput_value M Hro analysis_types g3) as (D4 & V4).
  pose proof (summary_call_drops_value M Hro analysis_types g4) as (D5 & V5).
  rewrite H1 in D1, V1. rewrite H2 in D2, V2. rewrite H3 in D3, V3.
  rewrite H4 in D4, V4. rewrite H5 in D5, V5.
  cbn [fst snd App.df App.set_root_causes] in D1, V1, D2, V2, D3, V3, D4, V4,
    D5, V5.
  apply summary_coverage_run in H1.
  destruct H1 as (_ & _ & I1 & O1 & T1 & C1).
  apply summary_interference_run in H2.
  destruct H2 as (_ & _ & W2 & O2 & T2 & C2).
  apply summary_handover_run in H3.
  destruct H3 as (_ & _ & W3 & I3 & T3 & C3).
  apply summary_throughput_run in H4.
  destruct H4 as (_ & _ & W4 & I4 & O4 & C4).
  apply summary_call_drops_run in H5.
  destruct H5 as (_ & _ & W5 & I5 & O5 & T5).
  assert (E1 : App.df g1 = App.df g) by exact D1.
  assert (E2 : App.df g2 = App.df g) by congruence.
  assert (E3 : App.df g3 = App.df g) by congruence.
  assert (E4 : App.df g4 = App.df g) by congruence.
  split; [congruence|].
  split; [intros Hs; rewrite W5, W4, W3, W2; exact (V1 eq_refl Hs)|].
  split; [intros Hs; rewrite I5, I4, I3, <- E1; exact (V2 eq_refl Hs)|].
  split; [intros Hs; rewrite O5, O4, <- E2; exact (V3 eq_refl Hs)|].
  split; [intros Hs; rewrite T5, <- E3; exact (V4 eq_refl Hs)|].
  intros Hs. rewrite <- E4. exact (V5 eq_refl Hs).
Qed.

(** X14. Over an analysis module whose pipelines leave the table unchanged,
    a completed report ends with the table it started from, every selected
    result of the summary is the analysis of that table, and the table of
    root causes is the rule table applied to those analyses: it is a
    function of the uploaded table, the selection and the thresholds, with or
    without saving. *)
Theorem report_over_read_only_module :
  forall M analysis_types rsrp_threshold rsrq_threshold sinr_threshold save g g',
    read_only M ->
    App.report M analysis_types rsrp_threshold rsrq_threshold sinr_threshold
      save g
    = (Py.Returned tt, g') ->
    let selected := Py.contains analysis_types in
    let t := App.df g in
    App.df g' = t
    /\ (selected "Coverage Problems"%string = true ->
        App.coverage_results g'
        = Py.value
            (fst (App.analyze_coverage_problems M t rsrp_threshold rsrq_threshold)))
    /\ (selected "Interference"%string = true ->
        App.interference_results g'
        = Py.value (fst (App.analyze_interference M t sinr_threshold)))
    /\ (selected "Handover Failures"%string = true ->
        App.handover_results g'
        = Py.value (fst (App.analyze_handover_failures M t)))
    /\ (selected "Throughput Bottlenecks"%string = true ->
        App.throughput_results g'
        = Py.value (fst (App.analyze_throughput_bottlenecks M t)))
    /\ (selected "Call Drops"%string = true ->
        App.call_drop_results g' = Py.value (fst (App.analyze_call_drops M t)))
    /\ App.root_causes g'
       = emitted (selected "Coverage Problems"%string)
           (Py.value
              (fst (App.analyze_coverage_problems M t rsrp_threshold
                      rsrq_threshold)))
           (fun r => Py.gt (Coverage.coverage_issues_pct r) 10) App.coverage_row
         ++ emitted (selected "Interference"%string)
              (Py.value (fst (App.analyze_interference M t sinr_threshold)))
              (fun r => Py.gt (Interference.interference_issues_pct r) 10)
              App.interference_row
         ++ emitted (selected "Handover Failures"%string)
              (Py.value (fst (App.analyze_handover_failures M t)))
              (fun r => Py.lt (Handover.handover_success_rate r) 95)
              App.handover_row
         ++ emitted (selected "Throughput Bottlenecks"%string)
              (Py.value (fst (App.analyze_throughput_bottlenecks M t)))
              (fun r => (5 <? Throughput.dl_bottleneck_areas r)%Z
                        || (5 <? Throughput.ul_bottleneck_areas r)%Z)
              App.throughput_row
         ++ emitted (selected "Call Drops"%string)
              (Py.value (fst (App.analyze_call_drops M t)))
              (fun r => Py.gt (CallDrop.call_drop_rate r) 2) App.call_drop_row.
Proof.
  intros M types a b c save g g' Hro Hrun selected t. unfold selected, t.
  unfold App.report in Hrun.
  apply bind_completes in Hrun. destruct Hrun as ([] & g1 & H1 & Hrun).
  apply bind_completes in Hrun. destruct Hrun as ([] & g2 & H2 & Hrun).
  apply bind_completes in Hrun. destruct Hrun as ([] & g3 & H3 & Hrun).
  apply bind_completes in Hrun. destruct Hrun as ([] & g4 & H4 & Hrun).
  apply bind_completes in Hrun. destruct Hrun as ([] & g5 & H5 & H6).
  pose proof (rf_tab_frames M Hro types a b c g) as F1. rewrite H1 in F1.
  pose proof (handover_tab_frames M Hro types g1) as F2. rewrite H2 in F2.
  pose proof (throughput_tab_frames M Hro types g2) as F3. rewrite H3 in F3.
  pose proof (call_quality_tab_frames M Hro types g3) as F4. rewrite H4 in F4.
  cbn [snd] in F1, F2, F3, F4.
  assert (E4 : App.df g4 = App.df g) by congruence.
  destruct (summary_tab_values _ _ _ _ _ _ _ Hro H5)
    as (F5 & Vc & Vi & Vh & Vt & Vd).
  rewrite E4 in F5, Vc, Vi, Vh, Vt, Vd.
  pose proof (summary_tab_run _ _ _ _ _ _ _ H5) as Hrows.
  pose proof (database_tab_frames M Hro types a b c save g5)
    as (F6 & Ki & Kh & Kt & Kd & Kc).
  pose proof (database_tab_rows M types a b c save g5) as Krows.
  rewrite H6 in F6, Ki, Kh, Kt, Kd, Kc, Krows.
  cbn [snd] in F6, Ki, Kh, Kt, Kd, Kc, Krows.
  rewrite F5 in Kc.
  split; [congruence|].
  split.
  { intros Hs. destruct Kc as [Kc | Kc]; rewrite Kc; [exact (Vc Hs) | reflexivity]. }
  split; [intros Hs; rewrite Ki; exact (Vi Hs)|].
  split; [intros Hs; rewrite Kh; exact (Vh Hs)|].
  split; [intros Hs; rewrite Kt; exact (Vt Hs)|].
  split; [intros Hs; rewrite Kd; exact (Vd Hs)|].
  rewrite Krows, Hrows.
  rewrite (emitted_ext _ _ _ _ _ Vc), (emitted_ext _ _ _ _ _ Vi),
    (emitted_ext _ _ _ _ _ Vh), (emitted_ext _ _ _ _ _ Vt),
    (emitted_ext _ _ _ _ _ Vd).
  reflexivity.
Qed.

Lemma report_over_read_only_module_witness :
  map Issue
    (App.root_causes
       (snd (App.report (Canned.analyzer Canned.mixed) Canned.every_type
               (-105) (-15) 5 true (App.loaded []))))
  = ["Coverage Problems"; "Interference Issues"; "Throughput Bottlenecks";
     "Call Drops"]%string.
Proof.
  assert (Hro : read_only (Canned.analyzer Canned.mixed)).
  { intros df x y z. repeat split. }
  destruct (report_over_read_only_module
              (Canned.analyzer Canned.mixed) Canned.every_type (-105) (-15) 5
              true (App.loaded [])
              (snd (App.report (Canned.analyzer Canned.mixed) Canned.every_type
                      (-105) (-15) 5 true (App.loaded [])))
              Hro eq_refl)
    as (_ & _ & _ & _ & _ & _ & Hrows).
  rewrite Hrows. reflexivity.
Defined.
